(** * financial_analysis_script.py: FinancialReportGenerator

    A shallow embedding of the report generator of
    [src/financial_analysis_script.py] and the properties of its schema
    normaliser, loader, categoriser and report builder.

    Modelling conventions.
    - A pandas [DataFrame] is an ordered list of named columns, each a list
      of cells, together with its number of rows.  The row labels (the
      pandas index) are left out: every operation of the script is either
      positional or aligns two series of the same frame, so the labels never
      influence a value.
    - Text is [string] (8-bit characters); [str.upper] and the
      [re.IGNORECASE] flag are modelled on the ASCII letters.
    - Library calls whose result is not fixed by the script ([pd.read_csv],
      [pd.to_datetime], the [argsort] behind [sort_values],
      [dt.to_period], [os.path.basename]) are section variables.
    - The dtype of a column is not recorded.  Where pandas decides by it
      on a column that holds only nulls (the [.str] accessor takes an
      object column of [None], not a float64 column of [NaN]), the
      section variable [object_dtype] tells.
    - A number is coded by an integer; the sum of several numbers is taken
      in the arithmetic of the dtype (int64 wraps, float64 rounds), for
      which the section variable [sum_numbers] stands.
    - A Python exception is a [Raise] result of the error monad. *)

From Stdlib Require Import String Ascii List ZArith Bool Arith Lia.
From Stdlib Require Import Permutation Sorted.
Import ListNotations.
Local Open Scope string_scope.
Local Open Scope list_scope.

(* ===================================================================== *)
(** ** Text *)

Module Text.

(** [str.upper] on one ASCII character.  Python also maps letters outside
    ASCII (a dotless i becomes I, a sharp s becomes SS): the model of
    [str.upper] is that of Python on ASCII text only, and a statement that
    draws on the absence of a match asks for [is_ascii]. *)
Definition upper_ascii (c : ascii) : ascii :=
  let n := nat_of_ascii c in
  if (97 <=? n)%nat && (n <=? 122)%nat then ascii_of_nat (n - 32) else c.

(** [str.upper]. *)
Fixpoint upper (s : string) : string :=
  match s with
  | EmptyString => EmptyString
  | String c r => String (upper_ascii c) (upper r)
  end.

(** [re.search(pat, s) is not None] for a pattern [pat] without
    metacharacters: [pat] occurs in [s] as a substring. *)
Fixpoint contains (pat s : string) : bool :=
  String.prefix pat s
  || match s with
     | EmptyString => false
     | String _ r => contains pat r
     end.

(** The same search under [re.IGNORECASE]. *)
Definition icontains (pat s : string) : bool :=
  contains (upper pat) (upper s).

(** Text that holds ASCII characters only. *)
Definition ascii_char (c : ascii) : bool := (nat_of_ascii c <? 128)%nat.

Fixpoint is_ascii (s : string) : bool :=
  match s with
  | EmptyString => true
  | String c r => ascii_char c && is_ascii r
  end.

(** A character that a regular expression reads literally in the patterns
    of the script: an upper-case letter, a space or an ampersand. *)
Definition literal_char (c : ascii) : bool :=
  let n := nat_of_ascii c in
  ((65 <=? n)%nat && (n <=? 90)%nat) || (n =? 32)%nat || (n =? 38)%nat.

Fixpoint literal (s : string) : bool :=
  match s with
  | EmptyString => true
  | String c r => literal_char c && literal r
  end.

(** What it means for [s] to contain [pat] as a substring, and to contain
    it up to the case of the letters. *)
Definition substring_of (pat s : string) : Prop :=
  exists pre post, s = (pre ++ pat ++ post)%string.

Definition substring_nocase (pat s : string) : Prop :=
  exists pre mid post, s = (pre ++ mid ++ post)%string /\ upper mid = upper pat.

End Text.

(* ===================================================================== *)
(** ** Exceptions *)

Inductive exn : Type :=
| AttributeError          (* an attribute of [None], or an accessor that the
                             series does not have *)
| KeyError (k : string)   (* a column that the frame does not have *)
| TypeError               (* a number added to a text *)
| ValueError.             (* a number format applied to a text *)

Inductive result (A : Type) : Type :=
| Ok (a : A)
| Raise (e : exn).
Arguments Ok {A} a.
Arguments Raise {A} e.

Definition bind {A B : Type} (r : result A) (k : A -> result B) : result B :=
  match r with
  | Ok a => k a
  | Raise e => Raise e
  end.

Notation "x <- r ;; k" := (bind r (fun x => k))
  (at level 61, r at next level, right associativity).

(* ===================================================================== *)
(** ** Data frames *)

(** One value of a frame.  [NA] stands for [None], [NaN] and [NaT]; a
    number is an exact integer (an amount in its smallest unit); a
    timestamp is what [pd.to_datetime] returns; a period is what
    [dt.to_period('M')] returns. *)
Inductive cell : Type :=
| NA
| Str (s : string)
| Num (z : Z)
| Ts (t : Z)
| Per (p : Z).

Definition cell_eqb (a b : cell) : bool :=
  match a, b with
  | NA, NA => true
  | Str s, Str t => String.eqb s t
  | Num x, Num y => Z.eqb x y
  | Ts x, Ts y => Z.eqb x y
  | Per x, Per y => Z.eqb x y
  | _, _ => false
  end.

Definition isna (c : cell) : bool :=
  match c with NA => true | _ => false end.

Record DataFrame : Type := mkDF {
  nrows : nat;                          (* len(df) *)
  cols : list (string * list cell)      (* the columns, in order *)
}.

Module Frame.

(** [df.columns] *)
Definition columns (df : DataFrame) : list string := map fst (cols df).

(** [col in df.columns] *)
Definition has_column (c : string) (df : DataFrame) : bool :=
  existsb (String.eqb c) (columns df).

(** The values of column [c], when the frame has it. *)
Fixpoint lookup (c : string) (l : list (string * list cell)) : option (list cell) :=
  match l with
  | [] => None
  | (n, v) :: r => if String.eqb c n then Some v else lookup c r
  end.

(** [df[c]]: a [KeyError] when the frame has no such column. *)
Definition getcol (c : string) (df : DataFrame) : result (list cell) :=
  match lookup c (cols df) with
  | Some v => Ok v
  | None => Raise (KeyError c)
  end.

(** [df.rename(columns={old: new}, inplace=True)] *)
Definition rename (old new : string) (df : DataFrame) : DataFrame :=
  mkDF (nrows df)
       (map (fun nv => if String.eqb (fst nv) old then (new, snd nv) else nv)
            (cols df)).

(** [df[c] = v] for a series [v] of the frame's length: the column is
    replaced where it stands, or appended when the frame has none. *)
Definition setcol (c : string) (v : list cell) (df : DataFrame) : DataFrame :=
  if has_column c df
  then mkDF (nrows df)
            (map (fun nv => if String.eqb (fst nv) c then (c, v) else nv) (cols df))
  else mkDF (nrows df) (cols df ++ [(c, v)]).

(** [df[c] = x] for a scalar [x] *)
Definition setscalar (c : string) (x : cell) (df : DataFrame) : DataFrame :=
  setcol c (repeat x (nrows df)) df.

(** [s.loc[mask] = x] on one series *)
Fixpoint where_set (mask : list bool) (x : cell) (v : list cell) : list cell :=
  match mask, v with
  | m :: mask', y :: v' => (if m then x else y) :: where_set mask' x v'
  | _, _ => v
  end.

(** [df.loc[mask, c] = x]: the rows selected by [mask] get [x] in column
    [c]; a column that does not exist yet is created, null elsewhere. *)
Definition loc_set (mask : list bool) (c : string) (x : cell) (df : DataFrame)
  : DataFrame :=
  match lookup c (cols df) with
  | Some v => setcol c (where_set mask x v) df
  | None => setcol c (where_set mask x (repeat NA (nrows df))) df
  end.

(** [df.take(indexer)]: the rows at the positions of [indexer], in that
    order. *)
Definition take_rows (indexer : list nat) (df : DataFrame) : DataFrame :=
  mkDF (length indexer)
       (map (fun nv => (fst nv, map (fun i => nth i (snd nv) NA) indexer))
            (cols df)).

(** [df[mask]]: the rows selected by a boolean series. *)
Fixpoint select {A : Type} (mask : list bool) (v : list A) : list A :=
  match mask, v with
  | m :: mask', y :: v' => if m then y :: select mask' v' else select mask' v'
  | _, _ => []
  end.

Definition filter_rows (mask : list bool) (df : DataFrame) : DataFrame :=
  mkDF (length (select mask (seq 0 (nrows df))))
       (map (fun nv => (fst nv, select mask (snd nv))) (cols df)).

(** The union of the column names of several frames, in order of first
    appearance. *)
Fixpoint union_names (seen : list string) (names : list string) : list string :=
  match names with
  | [] => seen
  | n :: r =>
      if existsb (String.eqb n) seen then union_names seen r
      else union_names (seen ++ [n]) r
  end.

(** [pd.concat(frames, ignore_index=True)]: the rows of the frames one
    after the other, over the union of their columns; a frame that lacks a
    column contributes nulls to it. *)
Definition concat (frames : list DataFrame) : DataFrame :=
  let names := union_names [] (flat_map columns frames) in
  mkDF (list_sum (map nrows frames))
       (map (fun n =>
               (n, flat_map (fun df =>
                               match lookup n (cols df) with
                               | Some v => v
                               | None => repeat NA (nrows df)
                               end) frames))
            names).

(** The cell of column [c] in row [i]. *)
Definition cell_at (c : string) (i : nat) (df : DataFrame) : option cell :=
  match lookup c (cols df) with
  | Some v => nth_error v i
  | None => None
  end.

(** Every column holds one cell per row. *)
Definition aligned (df : DataFrame) : bool :=
  forallb (fun nv => (length (snd nv) =? nrows df)%nat) (cols df).

End Frame.

(* ===================================================================== *)
(** ** Series accessors *)

Module Series.

Definition is_text (c : cell) : bool :=
  match c with Str _ => true | _ => false end.

Definition is_number (c : cell) : bool :=
  match c with Num _ => true | _ => false end.

Definition is_datetime (c : cell) : bool :=
  match c with Ts _ | NA => true | _ => false end.

(** Whether pandas takes the series for a series of text.  A series that
    holds a text is one (pandas infers "string" or "mixed"); a series that
    holds values but no text is none (numbers, timestamps); on a series
    that holds only nulls the dtype decides: an object series of [None]
    is one, a float64 series of [NaN] is none. *)
Definition text_series (object_dtype : list cell -> bool) (v : list cell) : bool :=
  existsb is_text v || (forallb isna v && object_dtype v).

(** [s.str]: "Can only use .str accessor with string values!" *)
Definition str_accessor (object_dtype : list cell -> bool) (v : list cell)
  : result (list cell) :=
  if text_series object_dtype v then Ok v else Raise AttributeError.

(** A series of numbers and nulls. *)
Definition numeric (v : list cell) : bool :=
  forallb (fun c => isna c || is_number c) v.

(** A series of texts and nulls. *)
Definition texts (v : list cell) : bool :=
  forallb (fun c => isna c || is_text c) v.

(** [s.dt] on the Date column, which is what [pd.to_datetime] returned:
    a series with a value that is neither a timestamp nor null has no such
    accessor. *)
Definition dt_accessor (v : list cell) : result (list cell) :=
  if forallb is_datetime v then Ok v else Raise AttributeError.

End Series.

(* ===================================================================== *)
(** ** Grouped aggregation *)

Module GroupBy.

Section Keys.
Context {K : Type} (leb eqb : K -> K -> bool).

(** The distinct keys, ascending: [groupby] sorts its groups by key. *)
Fixpoint insert_sorted (k : K) (l : list K) : list K :=
  match l with
  | [] => [k]
  | h :: t => if leb k h then k :: l else h :: insert_sorted k t
  end.

Definition add_key (k : K) (l : list K) : list K :=
  if existsb (eqb k) l then l else insert_sorted k l.

Definition group_keys (keys : list K) : list K :=
  fold_right add_key [] keys.

(** The values of the rows whose key is [k].  A row whose key is null
    belongs to no group ([dropna=True]). *)
Fixpoint group_values (k : K) (keys : list (option K)) (vals : list cell)
  : list cell :=
  match keys, vals with
  | Some k' :: keys', v :: vals' =>
      if eqb k k' then v :: group_values k keys' vals'
      else group_values k keys' vals'
  | None :: keys', _ :: vals' => group_values k keys' vals'
  | _, _ => []
  end.
End Keys.

(** The keys that are present. *)
Fixpoint present {K : Type} (keys : list (option K)) : list K :=
  match keys with
  | [] => []
  | Some k :: r => k :: present r
  | None :: r => present r
  end.

(** The aggregation ['count']: the number of values that are not null. *)
Definition count (vals : list cell) : nat :=
  length (filter (fun c => negb (isna c)) vals).

(** The numbers of a series. *)
Fixpoint numbers (vals : list cell) : list Z :=
  match vals with
  | [] => []
  | Num z :: r => z :: numbers r
  | _ :: r => numbers r
  end.

(** A value that is neither null nor a number: in the Amount column, a
    text. *)
Definition not_number (c : cell) : bool :=
  negb (isna c) && negb (Series.is_number c).

(** ['sum'] skips the nulls and adds the rest up.  A group that holds a
    number and a text makes it add one to the other, a [TypeError]. *)
Definition mixed (vals : list cell) : bool :=
  existsb Series.is_number vals && existsb not_number vals.

(** The ['sum'] of a group that holds a text (and then no number) is the
    concatenation of its texts: a text, not a number. *)
Definition textual (vals : list cell) : bool :=
  existsb not_number vals.

(** The ['sum'] of a group that holds no text: 0 when it holds no number,
    the number when it holds one, and what the arithmetic of the dtype
    makes of several numbers. *)
Definition sum (sum_numbers : list Z -> Z) (vals : list cell) : Z :=
  match numbers vals with
  | [] => 0%Z
  | [x] => x
  | l => sum_numbers l
  end.

(** The number of rows that have a key and a value that is not null:
    the rows that ['count'] counts in some group. *)
Fixpoint counted_rows {K : Type} (keys : list (option K)) (vals : list cell) : nat :=
  match keys, vals with
  | Some _ :: keys', v :: vals' =>
      (if isna v then 0 else 1) + counted_rows keys' vals'
  | None :: keys', _ :: vals' => counted_rows keys' vals'
  | _, _ => 0
  end.

End GroupBy.

(* ===================================================================== *)
(** ** The report generator *)

(** [FinancialReportGenerator]: the attributes of [self]. *)
Record FinancialReportGenerator : Type := mkGen {
  data : option DataFrame;
  category_mapping : list (string * string)
}.

(** [_create_category_mapping]: the dictionary literal, in insertion
    order (the order in which a Python dictionary is iterated). *)
Definition _create_category_mapping : list (string * string) :=
  [ ("PLANE CONNECTION", "Business");
    ("PLANE CONNECTION LLC", "Business");
    ("PLANE CONNECT", "Business");
    ("TITAN AVIATION", "Business");
    ("ADP FEES", "Business");
    ("PAYROLL", "Business");
    ("LUMIS", "Business");
    ("LUMIS INC", "Business");
    ("LAW SCHOOL", "Law School");
    ("BARBRI", "Law School");
    ("BAR EXAM", "Law School");
    ("LEGAL EDUCATION", "Law School");
    ("WESTLAW", "Law School");
    ("LEXIS", "Law School");
    ("HOMESCHOOL", "Homeschool");
    ("CURRICULUM", "Homeschool");
    ("EDUCATIONAL", "Homeschool");
    ("BOOKS & SUPPLIES", "Homeschool");
    ("ADOBE", "Subscription");
    ("AMAZON PRIME", "Subscription");
    ("NETFLIX", "Subscription");
    ("HULU", "Subscription");
    ("SPOTIFY", "Subscription");
    ("GROCERIES", "Personal");
    ("RESTAURANTS", "Personal");
    ("ENTERTAINMENT", "Personal");
    ("SHOPPING", "Personal");
    ("UTILITIES", "Personal");
    ("CREDIT CARD PAYMENT", "Financial");
    ("TRANSFER", "Financial");
    ("PAYCHECK", "Income");
    ("INTEREST INCOME", "Income") ].

(** [__init__] *)
Definition __init__ : FinancialReportGenerator :=
  mkGen None _create_category_mapping.

(** *** Schema normaliser *)

(** The local [column_mapping] of [_standardize_columns]. *)
Definition column_mapping : list (string * list string) :=
  [ ("Date", ["Date"; "Transaction Date"; "Posted Date"]);
    ("Description", ["Description"; "Original Description"]);
    ("Amount", ["Amount"; "Transaction Amount"]) ].

(** The inner loop: the first of [possible_cols] that the frame has is
    renamed to [std_col], and the loop breaks. *)
Fixpoint rename_first (std_col : string) (possible_cols : list string)
  (df : DataFrame) : DataFrame :=
  match possible_cols with
  | [] => df
  | col :: rest =>
      if Frame.has_column col df then Frame.rename col std_col df
      else rename_first std_col rest df
  end.

(** The second loop: a standard column that is still missing is created
    with [None] in every row. *)
Definition ensure_column (df : DataFrame) (std_col : string) : DataFrame :=
  if Frame.has_column std_col df then df
  else Frame.setscalar std_col NA df.

Definition _standardize_columns (df : DataFrame) : DataFrame :=
  let df :=
    fold_left (fun d m => rename_first (fst m) (snd m) d) column_mapping df in
  fold_left ensure_column ["Date"; "Description"; "Amount"] df.

(** *** Categoriser *)

(** [s.str.upper()]: null for what is not text. *)
Definition str_upper (c : cell) : cell :=
  match c with
  | Str s => Str (Text.upper s)
  | _ => NA
  end.

(** [s.str.contains(pat, na=False)] *)
Definition str_contains (pat : string) (c : cell) : bool :=
  match c with
  | Str s => Text.contains pat s
  | _ => false
  end.

(** [s.str.contains('NH|NEW HAMPSHIRE', case=False, na=False)]: the
    alternation matches where either branch does. *)
Definition str_contains_nh (c : cell) : bool :=
  match c with
  | Str s => Text.icontains "NH" s || Text.icontains "NEW HAMPSHIRE" s
  | _ => false
  end.

(** One turn of the loop over [self.category_mapping.items()]. *)
Definition apply_rule (object_dtype : list cell -> bool)
  (acc : result DataFrame) (rule : string * string) : result DataFrame :=
  df <- acc ;;
  description <- Frame.getcol "Description" df ;;
  description <- Series.str_accessor object_dtype description ;;
  let mask := map (fun c => str_contains (fst rule) (str_upper c)) description in
  Ok (Frame.loc_set mask "Category" (Str (snd rule)) df).

(** Lines 136 to 141: the category column is initialised, then every
    rule of the mapping is applied in turn. *)
Definition keyword_rules (object_dtype : list cell -> bool)
  (mapping : list (string * string)) (df : DataFrame) : result DataFrame :=
  let df := Frame.setscalar "Category" (Str "Uncategorized") df in
  fold_left (apply_rule object_dtype) mapping (Ok df).

Definition _categorize_transactions (object_dtype : list cell -> bool)
  (mapping : list (string * string)) (df : DataFrame) : result DataFrame :=
  df <- keyword_rules object_dtype mapping df ;;
  (* Special rule for New Hampshire transactions *)
  description <- Frame.getcol "Description" df ;;
  description <- Series.str_accessor object_dtype description ;;
  Ok (Frame.loc_set (map str_contains_nh description) "Category"
                    (Str "Law School") df).

(** *** Reports *)

Record TaxSummary : Type := mkTaxSummary {
  date_min : cell;
  date_max : cell;
  total_transactions : nat;
  category_breakdown : list (string * nat * Z)
}.

(** What [generate_tax_reports] writes into the output folder. *)
Record Reports : Type := mkReports {
  detailed_transaction_log : DataFrame;
  category_summary : list (string * nat * Z);     (* Category, Transaction_Count, Total_Amount *)
  monthly_breakdown : list (Z * string * Z * nat); (* Month, Category, Total_Amount, Transaction_Count *)
  business_expenses : DataFrame;
  tax_summary : TaxSummary
}.

Definition category_key (c : cell) : option string :=
  match c with Str s => Some s | _ => None end.

Definition timestamp (c : cell) : option Z :=
  match c with Ts t => Some t | _ => None end.

(** The groups of [groupby('Category')], in the order of their keys. *)
Definition category_groups (category amount : list cell) : list (list cell) :=
  let keys := map category_key category in
  map (fun k => GroupBy.group_values String.eqb k keys amount)
      (GroupBy.group_keys String.leb String.eqb (GroupBy.present keys)).

(** [groupby('Category').agg({'Amount': ['count', 'sum']}).reset_index()],
    on groups that hold no text. *)
Definition summarize (sum_numbers : list Z -> Z) (category amount : list cell)
  : list (string * nat * Z) :=
  let keys := map category_key category in
  map (fun k =>
         let g := GroupBy.group_values String.eqb k keys amount in
         (k, GroupBy.count g, GroupBy.sum sum_numbers g))
      (GroupBy.group_keys String.leb String.eqb (GroupBy.present keys)).

Definition month_key (month category : cell) : option (Z * string) :=
  match month, category with
  | Per p, Str s => Some (p, s)
  | _, _ => None
  end.

Definition month_key_eqb (a b : Z * string) : bool :=
  Z.eqb (fst a) (fst b) && String.eqb (snd a) (snd b).

Definition month_key_leb (a b : Z * string) : bool :=
  Z.ltb (fst a) (fst b) || (Z.eqb (fst a) (fst b) && String.leb (snd a) (snd b)).

(** The groups of [groupby(['Month', 'Category'])]. *)
Definition month_groups (month category amount : list cell) : list (list cell) :=
  let keys := map (fun mc => month_key (fst mc) (snd mc)) (combine month category) in
  map (fun k => GroupBy.group_values month_key_eqb k keys amount)
      (GroupBy.group_keys month_key_leb month_key_eqb (GroupBy.present keys)).

(** [groupby(['Month', 'Category'])['Amount'].agg([('Total_Amount', 'sum'),
    ('Transaction_Count', 'count')]).reset_index()], on groups that hold
    no text. *)
Definition summarize_months (sum_numbers : list Z -> Z)
  (month category amount : list cell) : list (Z * string * Z * nat) :=
  let keys := map (fun mc => month_key (fst mc) (snd mc)) (combine month category) in
  map (fun k =>
         let g := GroupBy.group_values month_key_eqb k keys amount in
         (fst k, snd k, GroupBy.sum sum_numbers g, GroupBy.count g))
      (GroupBy.group_keys month_key_leb month_key_eqb (GroupBy.present keys)).

(** ['sum'] over the groups: a [TypeError] when a group holds a number and
    a text. *)
Definition sum_check (groups : list (list cell)) : result unit :=
  if existsb GroupBy.mixed groups then Raise TypeError else Ok tt.

(** The format [:,.2f] of the totals in the tax summary: a [ValueError] when
    the total of a group is a text. *)
Definition format_check (groups : list (list cell)) : result unit :=
  if existsb GroupBy.textual groups then Raise ValueError else Ok tt.

(** [s.min()] and [s.max()] of a datetime series: nulls are skipped, and
    the result is null when nothing is left. *)
Definition series_min (v : list cell) : cell :=
  match GroupBy.present (map timestamp v) with
  | [] => NA
  | t :: r => Ts (fold_left Z.min r t)
  end.

Definition series_max (v : list cell) : cell :=
  match GroupBy.present (map timestamp v) with
  | [] => NA
  | t :: r => Ts (fold_left Z.max r t)
  end.

(** *** Sorting by a datetime column *)

Definition isnat (c : cell) : bool :=
  match timestamp c with None => true | Some _ => false end.

Definition ts_value (c : cell) : Z :=
  match timestamp c with Some t => t | None => 0%Z end.

(** [idx[~mask]], [idx[mask]] and [items[~mask]] of [nargsort], where
    [mask] marks the nulls and [idx] is [arange(len(items))]. *)
Definition non_nan_idx (items : list cell) : list nat :=
  filter (fun i => negb (isnat (nth i items NA))) (seq 0 (length items)).

Definition nan_idx (items : list cell) : list nat :=
  filter (fun i => isnat (nth i items NA)) (seq 0 (length items)).

Definition non_nans (items : list cell) : list Z :=
  map (fun i => ts_value (nth i items NA)) (non_nan_idx items).

(** What every sort kind of [argsort] guarantees of its result [idx] on
    [keys]: it lists each position once, and the keys it points at
    ascend.  The default kind, ['quicksort'], promises nothing on the
    order of equal keys. *)
Fixpoint ascending (keys : list Z) (idx : list nat) : bool :=
  match idx with
  | [] => true
  | i :: r =>
      match r with
      | [] => true
      | j :: _ => (nth i keys 0 <=? nth j keys 0)%Z && ascending keys r
      end
  end.

Definition argsort_ok (keys : list Z) (idx : list nat) : bool :=
  (length idx =? length keys)%nat
  && forallb (fun i => existsb (Nat.eqb i) idx) (seq 0 (length keys))
  && ascending keys idx.

(** The order of the sorted table: timestamps ascend, nulls come last. *)
Definition date_le (a b : cell) : Prop :=
  match timestamp a, timestamp b with
  | Some x, Some y => (x <= y)%Z
  | _, None => True
  | None, Some _ => False
  end.

Section Pipeline.

(** [pd.read_csv]: the frame read from a path, or [None] when reading
    raises. *)
Variable read_csv : string -> option DataFrame.
(** [os.path.basename] *)
Variable basename : string -> string.
(** [pd.to_datetime(s, errors='coerce')]: a timestamp or [NaT] for each
    value of the series. *)
Variable to_datetime : list cell -> list (option Z).
(** The [argsort] of the default sort kind (['quicksort']) on the
    timestamps that are not null. *)
Variable argsort : list Z -> list nat.
(** The month of a timestamp, as [dt.to_period('M')] numbers it. *)
Variable to_period_M : Z -> Z.
(** Whether a series that holds only nulls has the object dtype. *)
Variable object_dtype : list cell -> bool.
(** The sum of two or more numbers in the arithmetic of their dtype. *)
Variable sum_numbers : list Z -> Z.

(** *** Loader *)

(** The body of the [try] block for one path; [None] when the [except]
    branch is taken. *)
Definition load_file (file_path : string) : option DataFrame :=
  match read_csv file_path with
  | Some df =>
      let df := _standardize_columns df in
      Some (Frame.setscalar "Source_File" (Str (basename file_path)) df)
  | None => None
  end.

Fixpoint load_files (file_paths : list string) : list DataFrame :=
  match file_paths with
  | [] => []
  | file_path :: rest =>
      match load_file file_path with
      | Some df => df :: load_files rest
      | None => load_files rest
      end
  end.

Definition of_datetime (d : option Z) : cell :=
  match d with Some t => Ts t | None => NA end.

(** The indexer of [sort_values] on one column, ascending, with
    [na_position='last']: the positions of the values that are not null
    in the order [argsort] gives them, then the positions of the nulls. *)
Definition sorted_non_nan_idx (items : list cell) : list nat :=
  map (fun j => nth j (non_nan_idx items) 0%nat) (argsort (non_nans items)).

Definition nargsort (items : list cell) : list nat :=
  sorted_non_nan_idx items ++ nan_idx items.

(** [df.sort_values(by, inplace=True)] *)
Definition sort_values (by_ : string) (df : DataFrame) : result DataFrame :=
  k <- Frame.getcol by_ df ;;
  Ok (Frame.take_rows (nargsort k) df).

Definition load_financial_data (self : FinancialReportGenerator)
  (file_paths : list string) : result FinancialReportGenerator :=
  match load_files file_paths with
  | [] => Ok self
  | all_data =>
      let df := Frame.concat all_data in
      date <- Frame.getcol "Date" df ;;
      let df := Frame.setcol "Date" (map of_datetime (to_datetime date)) df in
      df <- sort_values "Date" df ;;
      df <- _categorize_transactions object_dtype (category_mapping self) df ;;
      Ok (mkGen (Some df) (category_mapping self))
  end.

(** *** Report builder *)

Definition to_period (c : cell) : cell :=
  match c with Ts t => Per (to_period_M t) | _ => NA end.

Definition generate_tax_reports (self : FinancialReportGenerator)
  : result (Reports * FinancialReportGenerator) :=
  match data self with
  | None => Raise AttributeError        (* [self.data.copy()] on [None] *)
  | Some df =>
      (* 1. Detailed Transaction Log *)
      let detailed_log := df in
      (* 2. Category Summary *)
      category <- Frame.getcol "Category" df ;;
      amount <- Frame.getcol "Amount" df ;;
      _ <- sum_check (category_groups category amount) ;;
      let summary := summarize sum_numbers category amount in
      (* 3. Monthly Breakdown *)
      date <- Frame.getcol "Date" df ;;
      date <- Series.dt_accessor date ;;
      let df := Frame.setcol "Month" (map to_period date) df in
      month <- Frame.getcol "Month" df ;;
      category <- Frame.getcol "Category" df ;;
      amount <- Frame.getcol "Amount" df ;;
      _ <- sum_check (month_groups month category amount) ;;
      let monthly := summarize_months sum_numbers month category amount in
      (* 4. Business Expense Detail *)
      category <- Frame.getcol "Category" df ;;
      let business :=
        Frame.filter_rows (map (cell_eqb (Str "Business")) category) df in
      (* 5. Tax Preparation Summary *)
      date <- Frame.getcol "Date" df ;;
      _ <- format_check (category_groups category amount) ;;
      let summary_text :=
        mkTaxSummary (series_min date) (series_max date) (nrows df) summary in
      Ok (mkReports detailed_log summary monthly business summary_text,
          mkGen (Some df) (category_mapping self))
  end.

(** [generate_financial_reports] *)
Definition generate_financial_reports (bank_files credit_card_files : list string)
  : result (Reports * FinancialReportGenerator) :=
  let report_generator := __init__ in
  let all_files := bank_files ++ credit_card_files in
  report_generator <- load_financial_data report_generator all_files ;;
  generate_tax_reports report_generator.

End Pipeline.

(* ===================================================================== *)
(** ** The categoriser, one row at a time *)

(** What the loop of [_categorize_transactions] does to the category of a
    single row whose description is [c]; the column-wise code is shown to
    compute exactly this in [CategoriserFacts]. *)
Definition rule_step (c : cell) (cat : string) (rule : string * string) : string :=
  if str_contains (fst rule) (str_upper c) then snd rule else cat.

Definition keyword_category (mapping : list (string * string)) (c : cell) : string :=
  fold_left (rule_step c) mapping "Uncategorized".

Definition final_category (mapping : list (string * string)) (c : cell) : string :=
  if str_contains_nh c then "Law School" else keyword_category mapping c.

(* ===================================================================== *)
(** ** Readings of the pipeline used in the statements *)

(** The paths that [pd.read_csv] can read. *)
Definition readable (read_csv : string -> option DataFrame) (p : string) : bool :=
  match read_csv p with Some _ => true | None => false end.

(** Every column name that [column_mapping] mentions. *)
Definition alias_names : list string := flat_map snd column_mapping.

(** The categories that the categoriser can write. *)
Definition known_categories (mapping : list (string * string)) : list string :=
  "Uncategorized" :: "Law School" :: map snd mapping.

(** The Date column of the concatenated files after [pd.to_datetime]: the
    series that [sort_values] sorts by. *)
Definition unified_dates (read_csv : string -> option DataFrame)
  (basename : string -> string) (to_datetime : list cell -> list (option Z))
  (file_paths : list string) : list cell :=
  match Frame.lookup "Date"
          (cols (Frame.concat (load_files read_csv basename file_paths))) with
  | Some date => map of_datetime (to_datetime date)
  | None => []
  end.

(** The table that reaches the categoriser: the concatenated files with
    their dates parsed, in the order of the sort. *)
Definition unified_table (read_csv : string -> option DataFrame)
  (basename : string -> string) (to_datetime : list cell -> list (option Z))
  (argsort : list Z -> list nat) (file_paths : list string) : DataFrame :=
  let dates := unified_dates read_csv basename to_datetime file_paths in
  Frame.take_rows (nargsort argsort dates)
    (Frame.setcol "Date" dates
       (Frame.concat (load_files read_csv basename file_paths))).

(** A column of a table; no value when the table has no such column. *)
Definition column (c : string) (df : DataFrame) : list cell :=
  match Frame.lookup c (cols df) with
  | Some v => v
  | None => []
  end.

(** A table as the report builder expects it from the loader: it has the
    columns Date, Amount and Category; its dates are timestamps or null,
    its amounts numbers or null, its categories texts or null. *)
Definition report_input (df : DataFrame) : bool :=
  Frame.has_column "Date" df
  && Frame.has_column "Amount" df
  && Frame.has_column "Category" df
  && forallb Series.is_datetime (column "Date" df)
  && Series.numeric (column "Amount" df)
  && Series.texts (column "Category" df).

(** The number of rows of the files that can be read. *)
Definition rows_read (read_csv : string -> option DataFrame)
  (file_paths : list string) : nat :=
  list_sum (map (fun p => match read_csv p with
                          | Some df => nrows df
                          | None => 0
                          end) file_paths).

(** The timestamps of a series. *)
Definition timestamps (v : list cell) : list Z :=
  GroupBy.present (map timestamp v).

(* ===================================================================== *)
(** ** Sample inputs *)

Module Samples.

(** A date [YYYY-MM-DD] read as the number [YYYYMMDD]; anything else is
    not a date. *)
Definition digit (c : ascii) : option Z :=
  let n := nat_of_ascii c in
  if (48 <=? n)%nat && (n <=? 57)%nat then Some (Z.of_nat (n - 48)) else None.

Fixpoint digits (s : string) (acc : Z) (k : nat) : option Z :=
  match s with
  | EmptyString => if (k =? 8)%nat then Some acc else None
  | String c r =>
      match digit c with
      | Some d => digits r (10 * acc + d)%Z (S k)
      | None => if Ascii.eqb c "-" then digits r acc k else None
      end
  end.

Definition parse_date (c : cell) : option Z :=
  match c with
  | Str s => digits s 0%Z 0%nat
  | _ => None
  end.

Definition to_datetime (v : list cell) : list (option Z) := map parse_date v.

Definition to_period_M (t : Z) : Z := (t / 100)%Z.

Definition basename (p : string) : string := p.

(** A sorting [argsort] that keeps equal values in their order. *)
Fixpoint place_after (keys : list Z) (i : nat) (sorted : list nat) : list nat :=
  match sorted with
  | [] => [i]
  | j :: r =>
      if (nth i keys 0 <? nth j keys 0)%Z then i :: sorted
      else j :: place_after keys i r
  end.

Definition argsort_stable (keys : list Z) : list nat :=
  fold_left (fun sorted i => place_after keys i sorted)
            (seq 0 (length keys)) [].

(** A bank export with the three columns under alias names. *)
Definition bank_csv : DataFrame :=
  mkDF 3
    [ ("Transaction Date",
       [Str "2024-02-10"; Str "2024-01-05"; Str "not a date"]);
      ("Description",
       [Str "LUMIS INC payment"; Str "Coffee shop NH"; NA]);
      ("Amount", [Num 10000; Num 500; Num 1234]) ].

(** A card export without any amount column. *)
Definition card_csv : DataFrame :=
  mkDF 2
    [ ("Posted Date", [Str "2024-01-20"; Str "2024-01-20"]);
      ("Original Description",
       [Str "Netflix transfer"; Str "Hotel Manhattan"]);
      ("Memo", [Str "first"; Str "second"]) ].

(** An export in which one amount is blank. *)
Definition blank_csv : DataFrame :=
  mkDF 2
    [ ("Date", [Str "2024-03-01"; Str "2024-03-02"]);
      ("Description", [Str "Groceries"; Str "Groceries"]);
      ("Amount", [Num 2500; NA]) ].

(** A loaded table before categorisation. *)
Definition statement : DataFrame :=
  mkDF 4
    [ ("Date", [Ts 20240105; Ts 20240120; Ts 20240120; NA]);
      ("Description",
       [Str "LUMIS INC payment in NH"; Str "Transfer interest income"; NA;
        Str "Hotel Manhattan"]);
      ("Amount", [Num 10000; Num 500; NA; Num 1234]) ].

(** Descriptions that differ by letter case only, and one that matches
    nothing. *)
Definition mixed_case : DataFrame :=
  mkDF 3
    [ ("Description",
       [Str "NETFLIX.COM"; Str "netflix.com"; Str "Coffee shop"]);
      ("Amount", [Num 1599; Num 1599; Num 450]) ].

(** An export whose description is blank in every row: [pd.read_csv]
    reads the column as float64. *)
Definition undescribed_csv : DataFrame :=
  mkDF 2
    [ ("Date", [Str "2024-04-01"; Str "2024-04-02"]);
      ("Description", [NA; NA]);
      ("Amount", [Num 1200; Num 800]) ].

(** An export with two date aliases and no Date column. *)
Definition two_dates_csv : DataFrame :=
  mkDF 2
    [ ("Posted Date", [Str "2024-05-03"; Str "2024-05-04"]);
      ("Transaction Date", [Str "2024-05-01"; Str "2024-05-02"]);
      ("Original Description", [Str "Groceries"; Str "Hulu"]);
      ("Amount", [Num 3100; Num 799]) ].

(** An export whose amounts carry a currency sign: [pd.read_csv] reads
    them as text. *)
Definition text_amounts_csv : DataFrame :=
  mkDF 2
    [ ("Date", [Str "2024-06-01"; Str "2024-06-02"]);
      ("Description", [Str "Groceries"; Str "Restaurants"]);
      ("Amount", [Str "$25.00"; Str "$40.00"]) ].

Definition read_csv (path : string) : option DataFrame :=
  if String.eqb path "bank.csv" then Some bank_csv
  else if String.eqb path "card.csv" then Some card_csv
  else if String.eqb path "blank.csv" then Some blank_csv
  else if String.eqb path "undescribed.csv" then Some undescribed_csv
  else if String.eqb path "two_dates.csv" then Some two_dates_csv
  else if String.eqb path "text_amounts.csv" then Some text_amounts_csv
  else None.

(** A series of nulls read from a file is a float64 series. *)
Definition float_nulls (v : list cell) : bool := false.

(** Exact addition. *)
Definition sum_numbers (l : list Z) : Z := fold_right Z.add 0%Z l.

End Samples.

(* ===================================================================== *)
(** * Properties *)

(** ** Substring search *)

Module TextFacts.
Import Text.

Lemma prefix_split (p s : string) :
  String.prefix p s = true <-> exists post, s = (p ++ post)%string.
Proof.
  revert s; induction p as [|a p IH]; intros s; simpl.
  - destruct s; split; intros _; eauto.
  - destruct s as [|b s]; simpl.
    + split; [discriminate | intros [post H]; discriminate].
    + destruct (ascii_dec a b) as [->|Hab].
      * rewrite IH. split; intros [post H]; exists post.
        -- now rewrite H.
        -- now injection H.
      * split; [discriminate | intros [post H]; injection H; congruence].
Qed.

Lemma contains_cons (p : string) (c : ascii) (s : string) :
  contains p (String c s) = String.prefix p (String c s) || contains p s.
Proof. reflexivity. Qed.

Lemma contains_spec (p s : string) :
  contains p s = true <-> substring_of p s.
Proof.
  unfold substring_of. induction s as [|c s IH].
  - unfold contains. rewrite orb_false_r, prefix_split. split.
    + intros [post H]. exists EmptyString, post. exact H.
    + intros [pre [post H]]. destruct pre; [eauto | discriminate].
  - rewrite contains_cons, orb_true_iff, prefix_split, IH. split.
    + intros [[post H] | [pre [post H]]].
      * exists EmptyString, post. exact H.
      * exists (String c pre), post. simpl. now rewrite H.
    + intros [pre [post H]]. destruct pre as [|d pre]; simpl in H.
      * left. eauto.
      * right. injection H as _ H. eauto.
Qed.

Lemma upper_app (a b : string) :
  upper (a ++ b) = (upper a ++ upper b)%string.
Proof. induction a; simpl; congruence. Qed.

Lemma upper_split (s x y : string) :
  upper s = (x ++ y)%string ->
  exists a b, s = (a ++ b)%string /\ upper a = x /\ upper b = y.
Proof.
  revert s; induction x as [|c x IH]; intros s H; simpl in H.
  - exists EmptyString, s. auto.
  - destruct s as [|d s]; simpl in H; [discriminate|].
    injection H as Hc H. destruct (IH _ H) as [a [b [-> [Ha Hb]]]].
    exists (String d a), b. simpl. now rewrite Ha, Hc.
Qed.

(** The search on the upper-cased text finds exactly the occurrences up to
    case. *)
Lemma icontains_spec (p s : string) :
  icontains p s = true <-> substring_nocase p s.
Proof.
  unfold icontains, substring_nocase. rewrite contains_spec. split.
  - intros [pre [post H]].
    destruct (upper_split _ _ _ H) as [a [r [-> [Ha Hr]]]].
    destruct (upper_split _ _ _ Hr) as [m [b [-> [Hm Hb]]]].
    exists a, m, b. auto.
  - intros [pre [mid [post [-> H]]]].
    exists (upper pre), (upper post). now rewrite !upper_app, H.
Qed.

Lemma upper_literal (s : string) : literal s = true -> upper s = s.
Proof.
  induction s as [|c s IH]; simpl; [reflexivity|].
  rewrite andb_true_iff. intros [Hc Hs]. rewrite (IH Hs). f_equal.
  unfold literal_char in Hc. unfold upper_ascii.
  destruct (97 <=? nat_of_ascii c)%nat eqn:E; [|reflexivity].
  apply Nat.leb_le in E. exfalso.
  rewrite !orb_true_iff, andb_true_iff, !Nat.leb_le, !Nat.eqb_eq in Hc. lia.
Qed.

End TextFacts.

(** ** Frames *)

Module FrameFacts.
Import Frame.

Lemma has_column_lookup (c : string) (df : DataFrame) :
  has_column c df =
  match lookup c (cols df) with Some _ => true | None => false end.
Proof.
  unfold has_column, columns. induction (cols df) as [|[n v] l IH]; simpl.
  - reflexivity.
  - destruct (String.eqb c n); simpl; auto.
Qed.

Lemma has_column_In (c : string) (df : DataFrame) :
  has_column c df = true <-> In c (columns df).
Proof.
  unfold has_column. rewrite existsb_exists. split.
  - intros [x [Hin Hx]]. apply String.eqb_eq in Hx. now subst.
  - intros H. exists c. split; [exact H | apply String.eqb_refl].
Qed.

Lemma lookup_replace_same (c : string) (v : list cell) l :
  lookup c l <> None ->
  lookup c (map (fun nv : string * list cell =>
                   if String.eqb (fst nv) c then (c, v) else nv) l) = Some v.
Proof.
  induction l as [|[n w] l IH]; simpl; [congruence|].
  intros H. rewrite (String.eqb_sym n c).
  destruct (String.eqb c n) eqn:E; simpl.
  - now rewrite String.eqb_refl.
  - rewrite E. auto.
Qed.

Lemma lookup_replace_other (c c' : string) (v : list cell) l :
  c' <> c ->
  lookup c' (map (fun nv : string * list cell =>
                    if String.eqb (fst nv) c then (c, v) else nv) l) = lookup c' l.
Proof.
  intros Hne. induction l as [|[n w] l IH]; simpl; [reflexivity|].
  destruct (String.eqb n c) eqn:E; simpl.
  - apply String.eqb_eq in E. subst n.
    apply String.eqb_neq in Hne. now rewrite Hne.
  - now rewrite IH.
Qed.

Lemma lookup_app_new (c c' : string) (v : list cell) l :
  lookup c' (l ++ [(c, v)]) =
  match lookup c' l with
  | Some w => Some w
  | None => if String.eqb c' c then Some v else None
  end.
Proof.
  induction l as [|[n w] l IH]; simpl; [reflexivity|].
  destruct (String.eqb c' n); auto.
Qed.

Lemma lookup_setcol_same (c : string) (v : list cell) (df : DataFrame) :
  lookup c (cols (setcol c v df)) = Some v.
Proof.
  unfold setcol. rewrite has_column_lookup.
  destruct (lookup c (cols df)) eqn:E; simpl.
  - apply lookup_replace_same. congruence.
  - now rewrite lookup_app_new, E, String.eqb_refl.
Qed.

Lemma lookup_setcol_other (c c' : string) (v : list cell) (df : DataFrame) :
  c' <> c -> lookup c' (cols (setcol c v df)) = lookup c' (cols df).
Proof.
  intros Hne. unfold setcol. destruct (has_column c df); simpl.
  - now apply lookup_replace_other.
  - rewrite lookup_app_new. apply String.eqb_neq in Hne. rewrite Hne.
    now destruct (lookup c' (cols df)).
Qed.

Lemma nrows_setcol (c : string) (v : list cell) (df : DataFrame) :
  nrows (setcol c v df) = nrows df.
Proof. unfold setcol. now destruct (has_column c df). Qed.

Lemma has_column_setcol_same (c : string) (v : list cell) (df : DataFrame) :
  has_column c (setcol c v df) = true.
Proof. now rewrite has_column_lookup, lookup_setcol_same. Qed.

Lemma replace_replace (c : string) (v w : list cell) l :
  map (fun nv : string * list cell => if String.eqb (fst nv) c then (c, v) else nv)
      (map (fun nv : string * list cell =>
              if String.eqb (fst nv) c then (c, w) else nv) l)
  = map (fun nv : string * list cell =>
           if String.eqb (fst nv) c then (c, v) else nv) l.
Proof.
  rewrite map_map. apply map_ext. intros [n u]. simpl.
  destruct (String.eqb n c) eqn:E; simpl.
  - now rewrite String.eqb_refl.
  - now rewrite E.
Qed.

(** Assigning a column twice is assigning it once. *)
Lemma setcol_setcol (c : string) (v w : list cell) (df : DataFrame) :
  setcol c v (setcol c w df) = setcol c v df.
Proof.
  unfold setcol at 1. rewrite has_column_setcol_same.
  unfold setcol. destruct (has_column c df) eqn:E; simpl.
  - now rewrite replace_replace.
  - f_equal. rewrite map_app. simpl. rewrite String.eqb_refl. f_equal.
    rewrite <- (map_id (cols df)) at 2. apply map_ext_in.
    intros [n u] Hin. simpl.
    destruct (String.eqb n c) eqn:E'; [|reflexivity].
    apply String.eqb_eq in E'. subst n. exfalso.
    assert (has_column c df = true); [|congruence].
    apply has_column_In. unfold columns.
    change c with (fst (c, u)). now apply in_map.
Qed.

Lemma columns_setcol (c : string) (v : list cell) (df : DataFrame) :
  columns (setcol c v df) =
  if has_column c df then columns df else columns df ++ [c].
Proof.
  unfold setcol, columns. destruct (has_column c df); simpl.
  - rewrite map_map. apply map_ext. intros [n u]. simpl.
    destruct (String.eqb n c) eqn:E; [|reflexivity].
    apply String.eqb_eq in E. now subst.
  - now rewrite map_app.
Qed.

Lemma aligned_lookup (c : string) (v : list cell) (df : DataFrame) :
  aligned df = true -> lookup c (cols df) = Some v -> length v = nrows df.
Proof.
  unfold aligned. induction (cols df) as [|[n w] l IH]; simpl; [discriminate|].
  rewrite andb_true_iff. intros [Hn Hl].
  destruct (String.eqb c n).
  - intros H. injection H as <-. now apply Nat.eqb_eq.
  - auto.
Qed.

Lemma where_set_map {A : Type} (f : A -> bool) (g : A -> cell) (x : cell) l :
  where_set (map f l) x (map g l) = map (fun a => if f a then x else g a) l.
Proof. induction l; simpl; congruence. Qed.

Lemma cell_at_setcol_same (c : string) (i : nat) (v : list cell) (df : DataFrame) :
  cell_at c i (setcol c v df) = nth_error v i.
Proof. unfold cell_at. now rewrite lookup_setcol_same. Qed.

Lemma cell_at_setcol_other (c c' : string) (i : nat) (v : list cell) (df : DataFrame) :
  c' <> c -> cell_at c' i (setcol c v df) = cell_at c' i df.
Proof. intros H. unfold cell_at. now rewrite lookup_setcol_other. Qed.

End FrameFacts.

(** ** Categoriser *)

Module CategoriserFacts.
Import Frame FrameFacts.

Lemma description_not_category : "Description" <> "Category".
Proof. discriminate. Qed.

Lemma map_const_repeat {A B : Type} (x : B) (l : list A) :
  map (fun _ => x) l = repeat x (length l).
Proof. induction l; simpl; congruence. Qed.

Lemma column_lookup (c : string) (df : DataFrame) (v : list cell) :
  lookup c (cols df) = Some v -> column c df = v.
Proof. unfold column. now intros ->. Qed.

Section Accessor.
Variable object_dtype : list cell -> bool.

(** A series that holds a text has the [.str] accessor. *)
Lemma text_series_cell (d : list cell) (i : nat) (s : string) :
  nth_error d i = Some (Str s) -> Series.text_series object_dtype d = true.
Proof.
  intros H. unfold Series.text_series. apply orb_true_iff. left.
  apply existsb_exists. exists (Str s). split; [|reflexivity].
  eapply nth_error_In. exact H.
Qed.

Lemma apply_rule_rows (df : DataFrame) (d : list cell) (g : cell -> string)
  (rule : string * string) :
  lookup "Description" (cols df) = Some d ->
  Series.text_series object_dtype d = true ->
  apply_rule object_dtype
    (Ok (setcol "Category" (map (fun c => Str (g c)) d) df)) rule
  = Ok (setcol "Category" (map (fun c => Str (rule_step c (g c) rule)) d) df).
Proof.
  intros Hd Ht. unfold apply_rule, bind, getcol.
  rewrite (lookup_setcol_other _ _ _ _ description_not_category), Hd.
  unfold Series.str_accessor. rewrite Ht.
  unfold loc_set. rewrite lookup_setcol_same, where_set_map, setcol_setcol.
  do 2 f_equal. apply map_ext. intros c. unfold rule_step.
  now destruct (str_contains (fst rule) (str_upper c)).
Qed.

Lemma fold_apply_rule_rows (mapping : list (string * string)) (df : DataFrame)
  (d : list cell) (g : cell -> string) :
  lookup "Description" (cols df) = Some d ->
  Series.text_series object_dtype d = true ->
  fold_left (apply_rule object_dtype) mapping
            (Ok (setcol "Category" (map (fun c => Str (g c)) d) df))
  = Ok (setcol "Category"
               (map (fun c => Str (fold_left (rule_step c) mapping (g c))) d) df).
Proof.
  intros Hd Ht. revert g.
  induction mapping as [|rule mapping IH]; intros g; cbn [fold_left].
  - reflexivity.
  - rewrite (apply_rule_rows _ _ _ _ Hd Ht).
    apply (IH (fun c => rule_step c (g c) rule)).
Qed.

(** The loop over the rules computes [keyword_category] in every row. *)
Lemma keyword_rules_rows (mapping : list (string * string)) (df : DataFrame)
  (d : list cell) :
  aligned df = true ->
  lookup "Description" (cols df) = Some d ->
  Series.text_series object_dtype d = true ->
  keyword_rules object_dtype mapping df
  = Ok (setcol "Category" (map (fun c => Str (keyword_category mapping c)) d) df).
Proof.
  intros Hal Hd Ht. unfold keyword_rules, setscalar.
  rewrite <- (aligned_lookup _ _ _ Hal Hd).
  replace (repeat (Str "Uncategorized") (length d))
    with (map (fun _ : cell => Str "Uncategorized") d).
  - apply (fold_apply_rule_rows mapping df d (fun _ => "Uncategorized") Hd Ht).
  - apply map_const_repeat.
Qed.

(** On a description column that pandas takes for text, the whole
    categoriser computes [final_category] in every row. *)
Lemma categorize_rows (mapping : list (string * string)) (df : DataFrame)
  (d : list cell) :
  aligned df = true ->
  lookup "Description" (cols df) = Some d ->
  Series.text_series object_dtype d = true ->
  _categorize_transactions object_dtype mapping df
  = Ok (setcol "Category" (map (fun c => Str (final_category mapping c)) d) df).
Proof.
  intros Hal Hd Ht. unfold _categorize_transactions.
  rewrite (keyword_rules_rows _ _ _ Hal Hd Ht). unfold bind, getcol.
  rewrite (lookup_setcol_other _ _ _ _ description_not_category), Hd.
  unfold Series.str_accessor. rewrite Ht.
  unfold loc_set. rewrite lookup_setcol_same, where_set_map, setcol_setcol.
  do 2 f_equal. apply map_ext. intros c. unfold final_category.
  now destruct (str_contains_nh c).
Qed.

Lemma fold_apply_rule_raise (mapping : list (string * string)) (e : exn) :
  fold_left (apply_rule object_dtype) mapping (Raise e) = Raise e.
Proof. induction mapping as [|rule mapping IH]; cbn [fold_left]; auto. Qed.

(** On a description column that pandas does not take for text, the first
    use of [.str] raises. *)
Lemma categorize_not_text (mapping : list (string * string)) (df : DataFrame)
  (d : list cell) :
  lookup "Description" (cols df) = Some d ->
  Series.text_series object_dtype d = false ->
  _categorize_transactions object_dtype mapping df = Raise AttributeError.
Proof.
  intros Hd Ht. unfold _categorize_transactions, keyword_rules, setscalar.
  destruct mapping as [|rule mapping]; cbn [fold_left].
  - unfold bind, getcol.
    rewrite (lookup_setcol_other _ _ _ _ description_not_category), Hd.
    unfold Series.str_accessor. now rewrite Ht.
  - assert (Hstep :
      apply_rule object_dtype
        (Ok (setcol "Category" (repeat (Str "Uncategorized") (nrows df)) df)) rule
      = Raise AttributeError).
    { unfold apply_rule, bind, getcol.
      rewrite (lookup_setcol_other _ _ _ _ description_not_category), Hd.
      unfold Series.str_accessor. now rewrite Ht. }
    rewrite Hstep, fold_apply_rule_raise. reflexivity.
Qed.

End Accessor.

Lemma has_description (df : DataFrame) :
  has_column "Description" df = true ->
  exists d, lookup "Description" (cols df) = Some d.
Proof.
  rewrite has_column_lookup.
  destruct (lookup "Description" (cols df)); [eauto | discriminate].
Qed.

Lemma cell_at_description (i : nat) (c : cell) (d : list cell) (df : DataFrame) :
  lookup "Description" (cols df) = Some d ->
  cell_at "Description" i df = Some c -> nth_error d i = Some c.
Proof. unfold cell_at. now intros ->. Qed.

(** A rule that matches, followed only by rules that do not, decides the
    category. *)
Lemma fold_rule_step_none (c : cell) (rules : list (string * string)) (cat : string) :
  Forall (fun r => str_contains (fst r) (str_upper c) = false) rules ->
  fold_left (rule_step c) rules cat = cat.
Proof.
  intros H. revert cat. induction H as [|r rules Hr _ IH]; intros cat; simpl.
  - reflexivity.
  - unfold rule_step at 2. now rewrite Hr.
Qed.

Lemma fold_rule_step_last (c : cell) (before after : list (string * string))
  (k cat init : string) :
  str_contains k (str_upper c) = true ->
  Forall (fun r => str_contains (fst r) (str_upper c) = false) after ->
  fold_left (rule_step c) (before ++ (k, cat) :: after) init = cat.
Proof.
  intros Hk Hafter. rewrite fold_left_app. simpl.
  unfold rule_step at 2. simpl. rewrite Hk. now apply fold_rule_step_none.
Qed.

Lemma Forall_skipn_index {A : Type} (P : A -> Prop) (l : list A) (n : nat) :
  (forall j x, nth_error l j = Some x -> n <= j -> P x) ->
  Forall P (skipn n l).
Proof.
  revert l. induction n as [|n IH]; intros l H.
  - simpl. apply Forall_forall. intros x Hin.
    destruct (In_nth_error _ _ Hin) as [j Hj]. apply (H j x Hj). lia.
  - destruct l as [|a l]; simpl; [constructor|].
    apply IH. intros j x Hj Hle. apply (H (S j) x Hj). lia.
Qed.

Lemma nth_error_split_at {A : Type} (l : list A) (n : nat) (x : A) :
  nth_error l n = Some x -> l = firstn n l ++ x :: skipn (S n) l.
Proof.
  revert l. induction n as [|n IH]; intros [|a l] H; simpl in *; try discriminate.
  - now injection H as ->.
  - f_equal. now apply IH.
Qed.

(** On upper-case keywords the rule test is the search up to case. *)
Lemma rule_test_spec (k s : string) :
  Text.upper k = k ->
  str_contains k (str_upper (Str s)) = true <-> Text.substring_nocase k s.
Proof.
  intros Hk. simpl. rewrite <- TextFacts.icontains_spec.
  unfold Text.icontains. now rewrite Hk.
Qed.

(** The override test is the search, up to case, for either text. *)
Lemma str_contains_nh_spec (s : string) :
  str_contains_nh (Str s) = true <->
  Text.substring_nocase "NH" s \/ Text.substring_nocase "NEW HAMPSHIRE" s.
Proof.
  simpl. now rewrite orb_true_iff, !TextFacts.icontains_spec.
Qed.

Lemma configured_keywords_literal :
  forallb (fun r => Text.literal (fst r)) _create_category_mapping = true.
Proof. reflexivity. Qed.

Lemma configured_keyword_upper (j : nat) (k c : string) :
  nth_error _create_category_mapping j = Some (k, c) -> Text.upper k = k.
Proof.
  intros H. apply TextFacts.upper_literal.
  pose proof configured_keywords_literal as Hall.
  rewrite forallb_forall in Hall.
  apply (Hall (k, c)). eapply nth_error_In. exact H.
Qed.

Lemma configured_keywords_distinct :
  NoDup (map fst _create_category_mapping).
Proof.
  apply (NoDup_count_occ' string_dec). intros x Hx.
  simpl in Hx.
  repeat (destruct Hx as [<- | Hx]; [reflexivity|]). contradiction.
Qed.

End CategoriserFacts.

Section CategoriserRows.
Import Frame FrameFacts CategoriserFacts.

Variable object_dtype : list cell -> bool.
Variable mapping : list (string * string).
Variable df : DataFrame.
Hypothesis Haligned : aligned df = true.
Hypothesis Hdescription : has_column "Description" df = true.

Lemma text_description (i : nat) (s : string) :
  cell_at "Description" i df = Some (Str s) ->
  Series.text_series object_dtype (column "Description" df) = true.
Proof.
  intros Hi. destruct (has_description _ Hdescription) as [d Hd].
  rewrite (column_lookup _ _ _ Hd).
  apply (text_series_cell object_dtype d i s).
  exact (cell_at_description _ _ _ _ Hd Hi).
Qed.

(** The category of row [i] after categorisation is [final_category] of
    its description. *)
Lemma categorized_row (i : nat) (c : cell) :
  Series.text_series object_dtype (column "Description" df) = true ->
  cell_at "Description" i df = Some c ->
  exists df',
    _categorize_transactions object_dtype mapping df = Ok df' /\
    cell_at "Category" i df' = Some (Str (final_category mapping c)).
Proof.
  intros Ht Hi. destruct (has_description _ Hdescription) as [d Hd].
  rewrite (column_lookup _ _ _ Hd) in Ht.
  rewrite (categorize_rows _ _ _ _ Haligned Hd Ht). eexists. split; [reflexivity|].
  rewrite cell_at_setcol_same, nth_error_map.
  now rewrite (cell_at_description _ _ _ _ Hd Hi).
Qed.

(** C2. After the keyword rules, a row whose description contains "NH"
    or "NEW HAMPSHIRE" in any letter case ends in category "Law School",
    whatever the keyword rules assigned: the statement holds for every
    rule table. *)
Theorem nh_override_wins (i : nat) (s : string) :
  cell_at "Description" i df = Some (Str s) ->
  Text.substring_nocase "NH" s \/ Text.substring_nocase "NEW HAMPSHIRE" s ->
  exists df',
    _categorize_transactions object_dtype mapping df = Ok df' /\
    cell_at "Category" i df' = Some (Str "Law School").
Proof.
  intros Hi Hnh.
  destruct (categorized_row i _ (text_description i s Hi) Hi) as [df' [Hrun Hcat]].
  exists df'. split; [exact Hrun|]. rewrite Hcat. do 2 f_equal.
  unfold final_category.
  now rewrite (proj2 (str_contains_nh_spec s) Hnh).
Qed.

(** C10. The override looks for the two letters "NH" as a raw substring:
    a description with an N directly followed by an H, in any case and
    anywhere, also inside a longer word such as "Manhattan", ends in
    category "Law School". *)
Theorem nh_matches_inside_words (i : nat) (pre post : string) (a b : ascii) :
  cell_at "Description" i df = Some (Str (pre ++ String a (String b post))) ->
  Text.upper_ascii a = "N"%char ->
  Text.upper_ascii b = "H"%char ->
  exists df',
    _categorize_transactions object_dtype mapping df = Ok df' /\
    cell_at "Category" i df' = Some (Str "Law School").
Proof.
  intros Hi Ha Hb.
  destruct (categorized_row i _ (text_description i _ Hi) Hi) as [df' [Hrun Hcat]].
  exists df'. split; [exact Hrun|]. rewrite Hcat. do 2 f_equal.
  unfold final_category.
  rewrite (proj2 (str_contains_nh_spec _)); [reflexivity|].
  left. exists pre, (String a (String b EmptyString)), post. split.
  - reflexivity.
  - simpl. now rewrite Ha, Hb.
Qed.

(** X23. On a description column that pandas takes for text (it holds a
    text, or it holds nulls only and has the object dtype), a row whose
    description is null matches no keyword rule and not the override, so
    it stays "Uncategorized"; and the categoriser returns a table in which
    every row has one category, which is a text and never null. *)
Theorem null_description_uncategorized :
  Series.text_series object_dtype (column "Description" df) = true ->
  exists df',
    _categorize_transactions object_dtype mapping df = Ok df' /\
    nrows df' = nrows df /\
    (forall i, i < nrows df ->
               exists cat, cell_at "Category" i df' = Some (Str cat)) /\
    (forall i, cell_at "Description" i df = Some NA ->
               cell_at "Category" i df' = Some (Str "Uncategorized")).
Proof.
  intros Ht. destruct (has_description _ Hdescription) as [d Hd].
  rewrite (column_lookup _ _ _ Hd) in Ht.
  rewrite (categorize_rows _ _ _ _ Haligned Hd Ht). eexists.
  split; [reflexivity|]. split; [apply nrows_setcol|]. split.
  - intros i Hi. rewrite cell_at_setcol_same, nth_error_map.
    rewrite <- (aligned_lookup _ _ _ Haligned Hd) in Hi.
    apply nth_error_Some in Hi.
    destruct (nth_error d i) as [c|]; [|congruence]. simpl. eauto.
  - intros i Hi. rewrite cell_at_setcol_same, nth_error_map.
    rewrite (cell_at_description _ _ _ _ Hd Hi). simpl. do 2 f_equal.
    unfold final_category, keyword_category. simpl.
    apply fold_rule_step_none. apply Forall_forall. reflexivity.
Qed.

(** X24. A description column that pandas does not take for text
    (numbers only, or nulls only in a float64 column) has no [.str]
    accessor: the categoriser raises, and no row gets a category. *)
Theorem categorize_without_text :
  Series.text_series object_dtype (column "Description" df) = false ->
  _categorize_transactions object_dtype mapping df = Raise AttributeError.
Proof.
  intros Ht. destruct (has_description _ Hdescription) as [d Hd].
  rewrite (column_lookup _ _ _ Hd) in Ht.
  exact (categorize_not_text _ _ _ _ Hd Ht).
Qed.

(** The category of row [i] after the keyword rules, before the
    override, is [keyword_category] of its description. *)
Lemma keyword_row (i : nat) (c : cell) :
  Series.text_series object_dtype (column "Description" df) = true ->
  cell_at "Description" i df = Some c ->
  exists df',
    keyword_rules object_dtype mapping df = Ok df' /\
    cell_at "Category" i df' = Some (Str (keyword_category mapping c)).
Proof.
  intros Ht Hi. destruct (has_description _ Hdescription) as [d Hd].
  rewrite (column_lookup _ _ _ Hd) in Ht.
  rewrite (keyword_rules_rows _ _ _ _ Haligned Hd Ht). eexists. split; [reflexivity|].
  rewrite cell_at_setcol_same, nth_error_map.
  now rewrite (cell_at_description _ _ _ _ Hd Hi).
Qed.

End CategoriserRows.

(** C3. When the description of a row, an ASCII text, contains in any
    letter case two configured keywords, the category assigned by the
    keyword rules (before the override) is the category of the one
    declared later in the table; with more than two matching keywords it
    is the category of the last one declared. *)
Theorem later_keyword_wins (object_dtype : list cell -> bool) (df : DataFrame)
  (i : nat) (s : string) (j1 j2 : nat) (k1 c1 k2 c2 : string) :
  Frame.aligned df = true ->
  Frame.has_column "Description" df = true ->
  Frame.cell_at "Description" i df = Some (Str s) ->
  Text.is_ascii s = true ->
  nth_error (category_mapping __init__) j1 = Some (k1, c1) ->
  nth_error (category_mapping __init__) j2 = Some (k2, c2) ->
  j1 < j2 ->
  Text.substring_nocase k1 s ->
  Text.substring_nocase k2 s ->
  (forall j k c, nth_error (category_mapping __init__) j = Some (k, c) ->
                 Text.substring_nocase k s -> j <= j2) ->
  exists df',
    keyword_rules object_dtype (category_mapping __init__) df = Ok df' /\
    Frame.cell_at "Category" i df' = Some (Str c2).
Proof.
  intros Hal Hdesc Hi _ _ H2 _ _ Hm2 Hlast.
  destruct (keyword_row object_dtype (category_mapping __init__) df Hal Hdesc i _
              (text_description object_dtype df Hdesc i s Hi) Hi)
    as [df' [Hrun Hcat]].
  exists df'. split; [exact Hrun|]. rewrite Hcat. do 2 f_equal.
  unfold keyword_category.
  rewrite (CategoriserFacts.nth_error_split_at _ _ _ H2).
  apply CategoriserFacts.fold_rule_step_last.
  - apply CategoriserFacts.rule_test_spec; [|exact Hm2].
    exact (CategoriserFacts.configured_keyword_upper _ _ _ H2).
  - apply CategoriserFacts.Forall_skipn_index. intros j [k c] Hj Hle.
    destruct (str_contains (fst (k, c)) (str_upper (Str s))) eqn:E; [|reflexivity].
    exfalso. apply CategoriserFacts.rule_test_spec in E.
    + specialize (Hlast j k c Hj E). lia.
    + exact (CategoriserFacts.configured_keyword_upper _ _ _ Hj).
Qed.

(** Row 0 of the sample matches the keyword LUMIS (Business) and holds
    "NH": the override decides. *)
Lemma nh_override_wins_witness :
  exists df',
    _categorize_transactions Samples.float_nulls (category_mapping __init__)
      Samples.statement = Ok df' /\
    Frame.cell_at "Category" 0 df' = Some (Str "Law School").
Proof.
  apply (nh_override_wins Samples.float_nulls (category_mapping __init__)
           Samples.statement eq_refl eq_refl 0 "LUMIS INC payment in NH" eq_refl).
  left. exists "LUMIS INC payment in ", "NH", "". split; reflexivity.
Defined.

(** Row 3 of the sample: "Hotel Manhattan". *)
Lemma nh_matches_inside_words_witness :
  exists df',
    _categorize_transactions Samples.float_nulls (category_mapping __init__)
      Samples.statement = Ok df' /\
    Frame.cell_at "Category" 3 df' = Some (Str "Law School").
Proof.
  apply (nh_matches_inside_words Samples.float_nulls (category_mapping __init__)
           Samples.statement eq_refl eq_refl 3 "Hotel Ma" "attan" "n"%char "h"%char);
    reflexivity.
Defined.

(** Row 2 of the sample has no description. *)
Lemma null_description_uncategorized_witness :
  exists df',
    _categorize_transactions Samples.float_nulls (category_mapping __init__)
      Samples.statement = Ok df' /\
    nrows df' = 4 /\
    (forall i, i < 4 -> exists cat, Frame.cell_at "Category" i df' = Some (Str cat)) /\
    (forall i, Frame.cell_at "Description" i Samples.statement = Some NA ->
               Frame.cell_at "Category" i df' = Some (Str "Uncategorized")).
Proof.
  exact (null_description_uncategorized Samples.float_nulls
           (category_mapping __init__) Samples.statement eq_refl eq_refl eq_refl).
Defined.

(** The export whose description is blank in every row. *)
Lemma categorize_without_text_witness :
  _categorize_transactions Samples.float_nulls (category_mapping __init__)
    (_standardize_columns Samples.undescribed_csv) = Raise AttributeError.
Proof.
  exact (categorize_without_text Samples.float_nulls (category_mapping __init__)
           (_standardize_columns Samples.undescribed_csv) eq_refl eq_refl).
Defined.

(** Row 1 of the sample matches TRANSFER (rule 29, Financial) and INTEREST
    INCOME (rule 31, the last of the table, Income). *)
Lemma later_keyword_wins_witness :
  exists df',
    keyword_rules Samples.float_nulls (category_mapping __init__)
      Samples.statement = Ok df' /\
    Frame.cell_at "Category" 1 df' = Some (Str "Income").
Proof.
  apply (later_keyword_wins Samples.float_nulls Samples.statement 1
           "Transfer interest income"
           29 31 "TRANSFER" "Financial" "INTEREST INCOME" "Income"
           eq_refl eq_refl eq_refl eq_refl eq_refl eq_refl).
  - lia.
  - exists "", "Transfer", " interest income". split; reflexivity.
  - exists "Transfer ", "interest income", "". split; reflexivity.
  - intros j k c Hj _.
    assert (Hlt : j < length (category_mapping __init__))
      by (apply nth_error_Some; rewrite Hj; discriminate).
    simpl in Hlt. lia.
Defined.

(** Before the override, row 0 of the sample is a business expense. *)
Example lumis_before_override :
  keyword_category (category_mapping __init__) (Str "LUMIS INC payment in NH")
  = "Business".
Proof. reflexivity. Qed.

(** "Netflix transfer" matches NETFLIX (Subscription) and, later in the
    table, TRANSFER (Financial). *)
Example netflix_transfer :
  keyword_category (category_mapping __init__) (Str "Netflix transfer") = "Financial".
Proof. reflexivity. Qed.

(** ** Schema normaliser *)

Module NormaliserFacts.
Import Frame FrameFacts.

Ltac names := first [discriminate | (simpl; intuition discriminate)].

Lemma lookup_rename_other (x old new : string) (df : DataFrame) :
  x <> old -> x <> new ->
  lookup x (cols (rename old new df)) = lookup x (cols df).
Proof.
  intros Ho Hn. unfold rename. simpl.
  induction (cols df) as [|[n w] l IH]; simpl; [reflexivity|].
  destruct (String.eqb n old) eqn:E; simpl.
  - apply String.eqb_eq in E. subst n.
    apply String.eqb_neq in Ho, Hn. now rewrite Ho, Hn.
  - now rewrite IH.
Qed.

Lemma lookup_rename_new (old new : string) (df : DataFrame) :
  lookup new (cols df) = None ->
  lookup new (cols (rename old new df)) = lookup old (cols df).
Proof.
  unfold rename. simpl.
  induction (cols df) as [|[n w] l IH]; simpl; [reflexivity|].
  rewrite (String.eqb_sym old n).
  destruct (String.eqb new n) eqn:En; [discriminate|]. intros H.
  destruct (String.eqb n old) eqn:E; simpl.
  - now rewrite String.eqb_refl.
  - rewrite En. auto.
Qed.

Lemma rename_same (c : string) (df : DataFrame) : rename c c df = df.
Proof.
  unfold rename. destruct df as [n l]. simpl. f_equal.
  rewrite <- (map_id l) at 2. apply map_ext. intros [m w]. simpl.
  destruct (String.eqb m c) eqn:E; [|reflexivity].
  apply String.eqb_eq in E. now subst.
Qed.

(** The inner loop renames the first alias that is found, if any. *)
Lemma rename_first_find (std : string) (aliases : list string) (df : DataFrame) :
  rename_first std aliases df =
  match find (fun a => has_column a df) aliases with
  | Some a => rename a std df
  | None => df
  end.
Proof.
  induction aliases as [|a r IH]; simpl; [reflexivity|].
  now destruct (has_column a df).
Qed.

Lemma nrows_rename_first (std : string) (aliases : list string) (df : DataFrame) :
  nrows (rename_first std aliases df) = nrows df.
Proof. rewrite rename_first_find. now destruct (find _ aliases). Qed.

Lemma lookup_rename_first_alias (b std : string) (aliases : list string)
  (df : DataFrame) :
  (forall a, find (fun a => has_column a df) aliases = Some a -> b <> a) ->
  b <> std ->
  lookup b (cols (rename_first std aliases df)) = lookup b (cols df).
Proof.
  intros Ha Hs. rewrite rename_first_find.
  destruct (find _ aliases) as [a|]; [|reflexivity].
  apply lookup_rename_other; auto.
Qed.

Lemma lookup_rename_first_other (x std : string) (aliases : list string)
  (df : DataFrame) :
  ~ In x aliases -> x <> std ->
  lookup x (cols (rename_first std aliases df)) = lookup x (cols df).
Proof.
  intros Hx Hs. apply lookup_rename_first_alias; [|exact Hs].
  intros a Ha ->. apply find_some in Ha. tauto.
Qed.

Lemma has_column_rename_first_other (x std : string) (aliases : list string)
  (df : DataFrame) :
  ~ In x aliases -> x <> std ->
  has_column x (rename_first std aliases df) = has_column x df.
Proof.
  intros Hx Hs. now rewrite !has_column_lookup, lookup_rename_first_other.
Qed.

(** When the standard name heads its own alias list, the standard column
    holds after the loop what the first alias found held before. *)
Lemma lookup_rename_first_std (std : string) (rest : list string) (df : DataFrame) :
  lookup std (cols (rename_first std (std :: rest) df)) =
  match find (fun a => has_column a df) (std :: rest) with
  | Some a => lookup a (cols df)
  | None => None
  end.
Proof.
  simpl. destruct (has_column std df) eqn:E.
  - now rewrite rename_same.
  - rewrite has_column_lookup in E.
    destruct (lookup std (cols df)) eqn:El; [discriminate|].
    rewrite rename_first_find. destruct (find _ rest) as [a|].
    + now apply lookup_rename_new.
    + exact El.
Qed.

Lemma lookup_ensure_column (x std : string) (df : DataFrame) :
  lookup x (cols (ensure_column df std)) =
  if String.eqb x std
  then match lookup std (cols df) with
       | Some v => Some v
       | None => Some (repeat NA (nrows df))
       end
  else lookup x (cols df).
Proof.
  unfold ensure_column. rewrite has_column_lookup.
  destruct (String.eqb x std) eqn:E.
  - apply String.eqb_eq in E. subst x.
    destruct (lookup std (cols df)) eqn:El; [exact El|].
    apply lookup_setcol_same.
  - apply String.eqb_neq in E.
    destruct (lookup std (cols df)); [reflexivity|].
    now apply lookup_setcol_other.
Qed.

Lemma nrows_ensure_column (std : string) (df : DataFrame) :
  nrows (ensure_column df std) = nrows df.
Proof.
  unfold ensure_column. destruct (has_column std df); [reflexivity|].
  apply nrows_setcol.
Qed.

Lemma find_present (aliases : list string) (df : DataFrame) (a : string) :
  find (fun a => has_column a df) aliases = Some a ->
  exists v, lookup a (cols df) = Some v.
Proof.
  intros H. apply find_some in H. destruct H as [_ H].
  rewrite has_column_lookup in H.
  destruct (lookup a (cols df)); [eauto | discriminate].
Qed.

Lemma nrows_standardize (df : DataFrame) :
  nrows (_standardize_columns df) = nrows df.
Proof.
  unfold _standardize_columns, column_mapping. cbn [fold_left fst snd].
  now rewrite !nrows_ensure_column, !nrows_rename_first.
Qed.

Lemma lookup_ensure_other (x std : string) (df : DataFrame) :
  x <> std -> lookup x (cols (ensure_column df std)) = lookup x (cols df).
Proof.
  intros H. rewrite lookup_ensure_column.
  apply String.eqb_neq in H. now rewrite H.
Qed.

Lemma lookup_ensure_same (std : string) (df : DataFrame) :
  lookup std (cols (ensure_column df std)) =
  match lookup std (cols df) with
  | Some v => Some v
  | None => Some (repeat NA (nrows df))
  end.
Proof. now rewrite lookup_ensure_column, String.eqb_refl. Qed.

Lemma present_or_null (aliases : list string) (df : DataFrame) (n : nat) :
  match
    match find (fun a => has_column a df) aliases with
    | Some a => lookup a (cols df)
    | None => None
    end
  with
  | Some v => Some v
  | None => Some (repeat NA n)
  end =
  match find (fun a => has_column a df) aliases with
  | Some a => lookup a (cols df)
  | None => Some (repeat NA n)
  end.
Proof.
  destruct (find _ aliases) as [a|] eqn:E; [|reflexivity].
  destruct (find_present _ _ _ E) as [v Hv]. now rewrite Hv.
Qed.

(** What the three standard columns hold after normalisation. *)
Lemma standardize_date (df : DataFrame) :
  lookup "Date" (cols (_standardize_columns df)) =
  match find (fun a => has_column a df) ["Date"; "Transaction Date"; "Posted Date"] with
  | Some a => lookup a (cols df)
  | None => Some (repeat NA (nrows df))
  end.
Proof.
  unfold _standardize_columns, column_mapping. cbn [fold_left fst snd].
  rewrite !(lookup_ensure_other "Date") by names.
  rewrite lookup_ensure_same, !nrows_rename_first.
  rewrite !(lookup_rename_first_other "Date") by names.
  rewrite lookup_rename_first_std. apply present_or_null.
Qed.

Lemma standardize_description (df : DataFrame) :
  lookup "Description" (cols (_standardize_columns df)) =
  match find (fun a => has_column a df) ["Description"; "Original Description"] with
  | Some a => lookup a (cols df)
  | None => Some (repeat NA (nrows df))
  end.
Proof.
  unfold _standardize_columns, column_mapping. cbn [fold_left fst snd].
  rewrite (lookup_ensure_other "Description") by names.
  rewrite lookup_ensure_same, nrows_ensure_column, !nrows_rename_first.
  rewrite (lookup_ensure_other "Description") by names.
  rewrite !(lookup_rename_first_other "Description") by names.
  rewrite lookup_rename_first_std. cbn [find].
  rewrite !has_column_rename_first_other by names.
  rewrite !has_column_lookup.
  destruct (lookup "Description" (cols df)) eqn:E1;
    [|destruct (lookup "Original Description" (cols df)) eqn:E2];
    try rewrite lookup_rename_first_other by names;
    try rewrite E1; try rewrite E2; reflexivity.
Qed.

Lemma standardize_amount (df : DataFrame) :
  lookup "Amount" (cols (_standardize_columns df)) =
  match find (fun a => has_column a df) ["Amount"; "Transaction Amount"] with
  | Some a => lookup a (cols df)
  | None => Some (repeat NA (nrows df))
  end.
Proof.
  unfold _standardize_columns, column_mapping. cbn [fold_left fst snd].
  rewrite lookup_ensure_same, !nrows_ensure_column, !nrows_rename_first.
  rewrite !(lookup_ensure_other "Amount") by names.
  rewrite lookup_rename_first_std. cbn [find].
  rewrite !has_column_rename_first_other by names.
  rewrite !has_column_lookup.
  destruct (lookup "Amount" (cols df)) eqn:E1;
    [|destruct (lookup "Transaction Amount" (cols df)) eqn:E2];
    try rewrite !lookup_rename_first_other by names;
    try rewrite E1; try rewrite E2; reflexivity.
Qed.

(** A name that is neither a standard name nor the alias renamed for its
    field keeps its column. *)
Lemma standardize_other (b : string) (df : DataFrame) :
  ~ In b ["Date"; "Description"; "Amount"] ->
  (forall m a, In m column_mapping ->
               find (fun a => has_column a df) (snd m) = Some a -> b <> a) ->
  lookup b (cols (_standardize_columns df)) = lookup b (cols df).
Proof.
  intros Hstd Hren.
  assert (H1 := fun a => Hren _ a (or_introl eq_refl)).
  assert (H2 := fun a => Hren _ a (or_intror (or_introl eq_refl))).
  assert (H3 := fun a => Hren _ a (or_intror (or_intror (or_introl eq_refl)))).
  cbn [snd find] in H1, H2, H3.
  assert (Hd : b <> "Date") by (intros ->; apply Hstd; simpl; auto).
  assert (He : b <> "Description") by (intros ->; apply Hstd; simpl; auto).
  assert (Hm : b <> "Amount") by (intros ->; apply Hstd; simpl; auto).
  unfold _standardize_columns, column_mapping. cbn [fold_left fst snd].
  rewrite !lookup_ensure_other by assumption.
  rewrite lookup_rename_first_alias; [| |assumption].
  - rewrite lookup_rename_first_alias; [| |assumption].
    + rewrite lookup_rename_first_alias; [reflexivity| |assumption].
      intros a Ha. apply H1. exact Ha.
    + intros a Ha. apply H2. revert Ha. cbn [find].
      now rewrite !has_column_rename_first_other by names.
  - intros a Ha. apply H3. revert Ha. cbn [find].
    now rewrite !has_column_rename_first_other by names.
Qed.

Lemma lookup_rename_old (old new : string) (df : DataFrame) :
  old <> new -> lookup old (cols (rename old new df)) = None.
Proof.
  intros Hne. unfold rename. simpl.
  induction (cols df) as [|[n w] l IH]; simpl; [reflexivity|].
  destruct (String.eqb n old) eqn:E; simpl.
  - apply String.eqb_neq in Hne. now rewrite Hne.
  - rewrite String.eqb_sym, E. exact IH.
Qed.

(** The alias that the inner loop renames is no column name afterwards. *)
Lemma lookup_rename_first_found (std a : string) (aliases : list string)
  (df : DataFrame) :
  find (fun a => has_column a df) aliases = Some a -> a <> std ->
  lookup a (cols (rename_first std aliases df)) = None.
Proof.
  intros Hf Hne. rewrite rename_first_find, Hf. now apply lookup_rename_old.
Qed.

Lemma standardize_renamed (df : DataFrame) (std a : string) (aliases : list string) :
  In (std, aliases) column_mapping ->
  find (fun a => has_column a df) aliases = Some a ->
  a <> std ->
  lookup a (cols (_standardize_columns df)) = None.
Proof.
  intros Hin Hf Hne.
  assert (Ha : In a aliases) by (apply find_some in Hf; tauto).
  unfold _standardize_columns, column_mapping. cbn [fold_left fst snd].
  destruct Hin as [H|[H|[H|[]]]]; injection H as <- <-.
  - assert (Hd : a <> "Description" /\ a <> "Amount" /\
                 ~ In a ["Description"; "Original Description"] /\
                 ~ In a ["Amount"; "Transaction Amount"]).
    { simpl in Ha. destruct Ha as [<-|[<-|[<-|[]]]]; names. }
    destruct Hd as [H1 [H2 [H3 H4]]].
    rewrite !lookup_ensure_other by (try assumption; exact Hne).
    rewrite !lookup_rename_first_other by assumption.
    now apply lookup_rename_first_found.
  - assert (Hd : a <> "Date" /\ a <> "Amount" /\
                 ~ In a ["Date"; "Transaction Date"; "Posted Date"] /\
                 ~ In a ["Amount"; "Transaction Amount"]).
    { simpl in Ha. destruct Ha as [<-|[<-|[]]]; names. }
    destruct Hd as [H1 [H2 [H3 H4]]].
    rewrite !lookup_ensure_other by (try assumption; exact Hne).
    rewrite lookup_rename_first_other by assumption.
    apply lookup_rename_first_found; [|exact Hne].
    revert Hf. cbn [find].
    now rewrite !has_column_rename_first_other by names.
  - assert (Hd : a <> "Date" /\ a <> "Description" /\
                 ~ In a ["Date"; "Transaction Date"; "Posted Date"] /\
                 ~ In a ["Description"; "Original Description"]).
    { simpl in Ha. destruct Ha as [<-|[<-|[]]]; names. }
    destruct Hd as [H1 [H2 [H3 H4]]].
    rewrite !lookup_ensure_other by (try assumption; exact Hne).
    apply lookup_rename_first_found; [|exact Hne].
    revert Hf. cbn [find].
    now rewrite !has_column_rename_first_other by names.
Qed.

End NormaliserFacts.

(** C8. Whatever the columns of the input table, normalisation returns a
    table (it has no failing step) with the same rows in which each of
    Date, Description and Amount is a column.  For each of them, when some
    alias is present, the first one in the declared order gives the
    standard column its values and is no column name any more (it is
    renamed, not copied), and every other alias of the field keeps its own
    column; when no alias is present, the standard column is null in every
    row. *)
Theorem standardize_columns_canonical (df : DataFrame) (std : string)
  (aliases : list string) :
  In (std, aliases) column_mapping ->
  nrows (_standardize_columns df) = nrows df /\
  Frame.has_column std (_standardize_columns df) = true /\
  match find (fun a => Frame.has_column a df) aliases with
  | Some a =>
      Frame.lookup std (cols (_standardize_columns df)) = Frame.lookup a (cols df) /\
      (a <> std -> Frame.lookup a (cols (_standardize_columns df)) = None) /\
      (forall b, In b aliases -> b <> a -> b <> std ->
                 Frame.lookup b (cols (_standardize_columns df))
                 = Frame.lookup b (cols df))
  | None =>
      Frame.lookup std (cols (_standardize_columns df))
      = Some (repeat NA (nrows df))
  end.
Proof.
  intros Hin. split; [apply NormaliserFacts.nrows_standardize|].
  assert (Hstd : Frame.lookup std (cols (_standardize_columns df)) =
                 match find (fun a => Frame.has_column a df) aliases with
                 | Some a => Frame.lookup a (cols df)
                 | None => Some (repeat NA (nrows df))
                 end).
  { destruct Hin as [H|[H|[H|[]]]]; injection H as <- <-.
    - apply NormaliserFacts.standardize_date.
    - apply NormaliserFacts.standardize_description.
    - apply NormaliserFacts.standardize_amount. }
  split.
  - rewrite FrameFacts.has_column_lookup, Hstd.
    destruct (find _ aliases) as [a|] eqn:E; [|reflexivity].
    destruct (NormaliserFacts.find_present _ _ _ E) as [v ->]. reflexivity.
  - rewrite Hstd. destruct (find _ aliases) as [a|] eqn:E; [|reflexivity].
    split; [reflexivity|].
    split; [intros Hne; exact (NormaliserFacts.standardize_renamed _ _ _ _ Hin E Hne)|].
    intros b Hb Hba Hbs.
    apply NormaliserFacts.standardize_other.
    + intros Hs. simpl in Hs.
      destruct Hin as [H|[H|[H|[]]]]; injection H as <- <-; simpl in Hb;
        repeat match goal with
               | H : _ \/ _ |- _ => destruct H
               | H : False |- _ => destruct H
               end; congruence.
    + intros m a' Hm Ha' ->.
      destruct Hin as [H|[H|[H|[]]]]; injection H as <- <-;
        destruct Hm as [<-|[<-|[<-|[]]]]; cbn [snd] in Ha';
        try (rewrite E in Ha'; injection Ha' as ->; congruence);
        apply find_some in Ha'; destruct Ha' as [Ha' _];
        simpl in Hb, Ha';
        repeat match goal with
               | H : _ \/ _ |- _ => destruct H
               | H : False |- _ => destruct H
               end; congruence.
Qed.

(** An export with the columns "Posted Date" and "Transaction Date", in
    this order: "Transaction Date" comes first in the declared order, it
    becomes "Date", and "Posted Date" stays. *)
Lemma standardize_columns_canonical_witness :
  nrows (_standardize_columns Samples.two_dates_csv) = 2 /\
  Frame.has_column "Date" (_standardize_columns Samples.two_dates_csv) = true /\
  Frame.lookup "Date" (cols (_standardize_columns Samples.two_dates_csv))
  = Frame.lookup "Transaction Date" (cols Samples.two_dates_csv) /\
  ("Transaction Date" <> "Date" ->
   Frame.lookup "Transaction Date" (cols (_standardize_columns Samples.two_dates_csv))
   = None) /\
  (forall b, In b ["Date"; "Transaction Date"; "Posted Date"] ->
             b <> "Transaction Date" -> b <> "Date" ->
             Frame.lookup b (cols (_standardize_columns Samples.two_dates_csv))
             = Frame.lookup b (cols Samples.two_dates_csv)).
Proof.
  exact (standardize_columns_canonical Samples.two_dates_csv "Date"
           ["Date"; "Transaction Date"; "Posted Date"] (or_introl eq_refl)).
Defined.

(** The columns of that export after normalisation. *)
Example two_dates_columns :
  Frame.columns (_standardize_columns Samples.two_dates_csv)
  = ["Posted Date"; "Date"; "Description"; "Amount"].
Proof. reflexivity. Qed.

(** The same export has no amount alias: the column is created null. *)
Example card_amount_null :
  Frame.lookup "Amount" (cols (_standardize_columns Samples.card_csv))
  = Some [NA; NA].
Proof. reflexivity. Qed.

(** ** Sums over groups *)

Module AmountFacts.

Lemma group_values_forallb {K : Type} (eqb : K -> K -> bool) (P : cell -> bool)
  (k : K) (keys : list (option K)) (vals : list cell) :
  forallb P vals = true ->
  forallb P (GroupBy.group_values eqb k keys vals) = true.
Proof.
  revert vals. induction keys as [|[k'|] keys IH]; intros [|v vals] H;
    try reflexivity; simpl in H; apply andb_true_iff in H; destruct H as [Hv H];
    simpl.
  - destruct (eqb k k'); simpl; [rewrite Hv; simpl|]; auto.
  - auto.
Qed.

Lemma numeric_not_textual (vals : list cell) :
  Series.numeric vals = true -> GroupBy.textual vals = false.
Proof.
  unfold Series.numeric, GroupBy.textual. induction vals as [|c vals IH]; simpl.
  - reflexivity.
  - rewrite andb_true_iff. intros [Hc H]. rewrite (IH H), orb_false_r.
    unfold GroupBy.not_number. now destruct c.
Qed.

Lemma textual_not_mixed (vals : list cell) :
  GroupBy.textual vals = false -> GroupBy.mixed vals = false.
Proof. unfold GroupBy.mixed, GroupBy.textual. intros ->. apply andb_false_r. Qed.

Lemma groups_not_textual {K : Type} (eqb : K -> K -> bool)
  (keys : list (option K)) (amount : list cell) (ks : list K) :
  Series.numeric amount = true ->
  existsb GroupBy.textual
    (map (fun k => GroupBy.group_values eqb k keys amount) ks) = false.
Proof.
  intros H. induction ks as [|k ks IH]; simpl; [reflexivity|].
  rewrite IH, orb_false_r. apply numeric_not_textual.
  now apply group_values_forallb.
Qed.

Lemma groups_not_mixed {K : Type} (eqb : K -> K -> bool)
  (keys : list (option K)) (amount : list cell) (ks : list K) :
  Series.numeric amount = true ->
  existsb GroupBy.mixed
    (map (fun k => GroupBy.group_values eqb k keys amount) ks) = false.
Proof.
  intros H. induction ks as [|k ks IH]; simpl; [reflexivity|].
  rewrite IH, orb_false_r. apply textual_not_mixed, numeric_not_textual.
  now apply group_values_forallb.
Qed.

(** On amounts that are numbers or null, no sum and no format raises. *)
Lemma sum_check_categories (category amount : list cell) :
  Series.numeric amount = true ->
  sum_check (category_groups category amount) = Ok tt.
Proof.
  intros H. unfold sum_check, category_groups.
  now rewrite (groups_not_mixed _ _ _ _ H).
Qed.

Lemma sum_check_months (month category amount : list cell) :
  Series.numeric amount = true ->
  sum_check (month_groups month category amount) = Ok tt.
Proof.
  intros H. unfold sum_check, month_groups.
  now rewrite (groups_not_mixed _ _ _ _ H).
Qed.

Lemma format_check_categories (category amount : list cell) :
  Series.numeric amount = true ->
  format_check (category_groups category amount) = Ok tt.
Proof.
  intros H. unfold format_check, category_groups.
  now rewrite (groups_not_textual _ _ _ _ H).
Qed.

End AmountFacts.

(** ** Loader and report builder *)

Section PipelineFacts.
Import Frame FrameFacts.

Variable read_csv : string -> option DataFrame.
Variable basename : string -> string.
Variable to_datetime : list cell -> list (option Z).
Variable argsort : list Z -> list nat.
Variable to_period_M : Z -> Z.
Variable object_dtype : list cell -> bool.
Variable sum_numbers : list Z -> Z.

(** When no file can be read, the loader leaves [self.data] as it was. *)
Lemma load_nothing (self : FinancialReportGenerator) (file_paths : list string) :
  load_files read_csv basename file_paths = [] ->
  load_financial_data read_csv basename to_datetime argsort object_dtype
    self file_paths
  = Ok self.
Proof. unfold load_financial_data. now intros ->. Qed.

(** The report builder reads an attribute of [self.data]: on a generator
    that holds no table it raises. *)
Lemma reports_without_data (self : FinancialReportGenerator) :
  data self = None ->
  generate_tax_reports to_period_M sum_numbers self = Raise AttributeError.
Proof. unfold generate_tax_reports. now intros ->. Qed.

Lemma no_file_loaded (bank_files credit_card_files : list string) :
  load_files read_csv basename (bank_files ++ credit_card_files) = [] ->
  generate_financial_reports read_csv basename to_datetime argsort to_period_M
    object_dtype sum_numbers bank_files credit_card_files
  = Raise AttributeError.
Proof.
  intros H. unfold generate_financial_reports.
  rewrite (load_nothing _ _ H). simpl. now apply reports_without_data.
Qed.

(** C1. With no input file at all the loader returns normally and leaves
    [self.data] at [None], not at an empty table, and the report builder
    then raises [AttributeError] instead of writing empty artifacts. *)
Theorem zero_files_raise :
  load_financial_data read_csv basename to_datetime argsort object_dtype
    __init__ []
  = Ok __init__ /\
  data __init__ = None /\
  generate_financial_reports read_csv basename to_datetime argsort to_period_M
    object_dtype sum_numbers [] []
  = Raise AttributeError.
Proof.
  split; [reflexivity|]. split; [reflexivity|].
  now apply no_file_loaded.
Qed.

Lemma getcol_present (c : string) (df : DataFrame) :
  has_column c df = true -> exists v, getcol c df = Ok v /\ lookup c (cols df) = Some v.
Proof.
  rewrite has_column_lookup. unfold getcol.
  destruct (lookup c (cols df)) as [v|]; [eauto | discriminate].
Qed.

Lemma columns_filter_rows (mask : list bool) (df : DataFrame) :
  columns (filter_rows mask df) = columns df.
Proof. unfold filter_rows, columns. simpl. now rewrite map_map. Qed.

(** What the report builder returns on a table that has the columns it
    reads, a datetime Date column, and amounts that are numbers or null. *)
Lemma reports_value (self : FinancialReportGenerator) (df : DataFrame)
  (date amount category : list cell) :
  data self = Some df ->
  lookup "Date" (cols df) = Some date ->
  lookup "Amount" (cols df) = Some amount ->
  lookup "Category" (cols df) = Some category ->
  forallb Series.is_datetime date = true ->
  Series.numeric amount = true ->
  let month := map (to_period to_period_M) date in
  let df' := setcol "Month" month df in
  generate_tax_reports to_period_M sum_numbers self
  = Ok (mkReports df
          (summarize sum_numbers category amount)
          (summarize_months sum_numbers month category amount)
          (filter_rows (map (cell_eqb (Str "Business")) category) df')
          (mkTaxSummary (series_min date) (series_max date) (nrows df')
             (summarize sum_numbers category amount)),
        mkGen (Some df') (category_mapping self)).
Proof.
  intros Hdata Ld La Lc Hdt Hnum month df'.
  unfold generate_tax_reports. rewrite Hdata. unfold getcol at 1 2.
  rewrite Lc, La. cbn [bind].
  rewrite (AmountFacts.sum_check_categories _ _ Hnum). cbn [bind].
  unfold getcol at 1. rewrite Ld. cbn [bind].
  unfold Series.dt_accessor. rewrite Hdt. cbn [bind].
  fold month. fold df'.
  assert (Hother : forall c, c <> "Month" ->
                             lookup c (cols df') = lookup c (cols df))
    by (intros c Hne; now apply lookup_setcol_other).
  unfold getcol.
  rewrite (Hother "Category"), (Hother "Amount"), (Hother "Date"), Lc, La, Ld
    by discriminate.
  unfold df' at 1. rewrite lookup_setcol_same. cbn [bind].
  rewrite (AmountFacts.sum_check_months _ _ _ Hnum). cbn [bind].
  rewrite (AmountFacts.format_check_categories _ _ Hnum). cbn [bind].
  reflexivity.
Qed.

Lemma lookup_column (c : string) (df : DataFrame) :
  has_column c df = true -> lookup c (cols df) = Some (column c df).
Proof.
  rewrite has_column_lookup. unfold column.
  destruct (lookup c (cols df)); [reflexivity | discriminate].
Qed.

Lemma report_input_columns (df : DataFrame) :
  report_input df = true ->
  lookup "Date" (cols df) = Some (column "Date" df) /\
  lookup "Amount" (cols df) = Some (column "Amount" df) /\
  lookup "Category" (cols df) = Some (column "Category" df) /\
  forallb Series.is_datetime (column "Date" df) = true /\
  Series.numeric (column "Amount" df) = true.
Proof.
  unfold report_input. rewrite !andb_true_iff.
  intros [[[[[Hd Ha] Hc] Hdt] Hnum] _].
  repeat split; try apply lookup_column; assumption.
Qed.

(** The same on a table that passes [report_input]. *)
Lemma reports_result (self : FinancialReportGenerator) (df : DataFrame) :
  data self = Some df ->
  report_input df = true ->
  let date := column "Date" df in
  let amount := column "Amount" df in
  let category := column "Category" df in
  let month := map (to_period to_period_M) date in
  let df' := setcol "Month" month df in
  generate_tax_reports to_period_M sum_numbers self
  = Ok (mkReports df
          (summarize sum_numbers category amount)
          (summarize_months sum_numbers month category amount)
          (filter_rows (map (cell_eqb (Str "Business")) category) df')
          (mkTaxSummary (series_min date) (series_max date) (nrows df')
             (summarize sum_numbers category amount)),
        mkGen (Some df') (category_mapping self)).
Proof.
  intros Hdata Hin.
  destruct (report_input_columns df Hin) as [Ld [La [Lc [Hdt Hnum]]]].
  exact (reports_value self df _ _ _ Hdata Ld La Lc Hdt Hnum).
Qed.

Lemma report_input_setcol_month (df : DataFrame) (month : list cell) :
  report_input df = true -> report_input (setcol "Month" month df) = true.
Proof.
  unfold report_input, column.
  rewrite !has_column_lookup, !lookup_setcol_other by discriminate. auto.
Qed.

End PipelineFacts.

(** C7, as stated, fails on the bank export of the samples: after the
    reports are written the table of the generator is no longer the table
    that the loader produced, it has a column "Month", and so has the
    business-expenses artifact. *)
Lemma report_builder_stores_month :
  exists self before reports self' after,
    load_financial_data Samples.read_csv Samples.basename Samples.to_datetime
      Samples.argsort_stable Samples.float_nulls __init__ ["bank.csv"] = Ok self /\
    data self = Some before /\
    generate_tax_reports Samples.to_period_M Samples.sum_numbers self
    = Ok (reports, self') /\
    data self' = Some after /\
    Frame.has_column "Month" before = false /\
    Frame.lookup "Month" (cols after) = Some [Per 202401; Per 202402; NA] /\
    Frame.lookup "Month" (cols (business_expenses reports)) = Some [Per 202402] /\
    Frame.has_column "Month" (detailed_transaction_log reports) = false.
Proof.
  do 5 eexists. split; [vm_compute; reflexivity|].
  split; [reflexivity|]. split; [vm_compute; reflexivity|].
  split; [reflexivity|]. repeat split.
Qed.

(** C4 on the card export of the samples, which has no amount column: the
    two rows load with a null amount, the summary has a row for each of
    their categories, and the transaction count of each is 0 although the
    table holds 2 transactions. *)
Theorem missing_amount_not_counted (object_dtype : list cell -> bool)
  (sum_numbers : list Z -> Z) :
  exists reports self',
    generate_financial_reports Samples.read_csv Samples.basename
      Samples.to_datetime Samples.argsort_stable Samples.to_period_M
      object_dtype sum_numbers ["card.csv"] []
    = Ok (reports, self') /\
    Frame.lookup "Amount" (cols (detailed_transaction_log reports))
    = Some [NA; NA] /\
    Frame.lookup "Category" (cols (detailed_transaction_log reports))
    = Some [Str "Financial"; Str "Law School"] /\
    category_summary reports = [("Financial", 0, 0%Z); ("Law School", 0, 0%Z)] /\
    total_transactions (tax_summary reports) = 2.
Proof.
  do 2 eexists. split; [vm_compute; reflexivity|]. repeat split.
Qed.

(** C5 on an export with one blank amount: the table holds 2 transactions
    and the transaction counts of the summary add up to 1. *)
Theorem summary_counts_miss_null_amounts (object_dtype : list cell -> bool)
  (sum_numbers : list Z -> Z) :
  exists reports self',
    generate_financial_reports Samples.read_csv Samples.basename
      Samples.to_datetime Samples.argsort_stable Samples.to_period_M
      object_dtype sum_numbers ["blank.csv"] []
    = Ok (reports, self') /\
    category_summary reports = [("Personal", 1, 2500%Z)] /\
    list_sum (map (fun row => snd (fst row)) (category_summary reports)) = 1 /\
    total_transactions (tax_summary reports) = 2 /\
    nrows (detailed_transaction_log reports) = 2.
Proof.
  do 2 eexists. split; [vm_compute; reflexivity|]. repeat split.
Qed.

(** C9 on an export whose description is blank in every row, a column that
    [pd.read_csv] reads as float64.  The loader reads the file and creates
    no description column of its own (the file has one); the categoriser
    raises at its first use of [.str]: no row gets a category, the loader
    does not return, and no report is written. *)
Theorem blank_descriptions_raise (object_dtype : list cell -> bool)
  (sum_numbers : list Z -> Z) :
  object_dtype [NA; NA] = false ->
  column "Description"
    (unified_table Samples.read_csv Samples.basename Samples.to_datetime
       Samples.argsort_stable ["undescribed.csv"])
  = [NA; NA] /\
  load_financial_data Samples.read_csv Samples.basename Samples.to_datetime
    Samples.argsort_stable object_dtype __init__ ["undescribed.csv"]
  = Raise AttributeError /\
  generate_financial_reports Samples.read_csv Samples.basename
    Samples.to_datetime Samples.argsort_stable Samples.to_period_M
    object_dtype sum_numbers ["undescribed.csv"] []
  = Raise AttributeError.
Proof.
  intros Hfloat. split; [reflexivity|].
  assert (Hload :
    load_financial_data Samples.read_csv Samples.basename Samples.to_datetime
      Samples.argsort_stable object_dtype __init__ ["undescribed.csv"]
    = Raise AttributeError).
  { apply (CategoriserFacts.categorize_not_text object_dtype
             (category_mapping __init__)
             (unified_table Samples.read_csv Samples.basename Samples.to_datetime
                Samples.argsort_stable ["undescribed.csv"]) [NA; NA] eq_refl)
      in Hfloat as Hcat.
    - change (load_financial_data Samples.read_csv Samples.basename
                Samples.to_datetime Samples.argsort_stable object_dtype __init__
                ["undescribed.csv"])
        with (df <- _categorize_transactions object_dtype (category_mapping __init__)
                      (unified_table Samples.read_csv Samples.basename
                         Samples.to_datetime Samples.argsort_stable
                         ["undescribed.csv"]) ;;
              Ok (mkGen (Some df) (category_mapping __init__))).
      now rewrite Hcat. }
  split; [exact Hload|].
  unfold generate_financial_reports. cbn [app]. now rewrite Hload.
Qed.

(** The description column of that export as [pd.read_csv] holds it. *)
Lemma blank_descriptions_raise_witness :
  column "Description"
    (unified_table Samples.read_csv Samples.basename Samples.to_datetime
       Samples.argsort_stable ["undescribed.csv"])
  = [NA; NA] /\
  load_financial_data Samples.read_csv Samples.basename Samples.to_datetime
    Samples.argsort_stable Samples.float_nulls __init__ ["undescribed.csv"]
  = Raise AttributeError /\
  generate_financial_reports Samples.read_csv Samples.basename
    Samples.to_datetime Samples.argsort_stable Samples.to_period_M
    Samples.float_nulls Samples.sum_numbers ["undescribed.csv"] []
  = Raise AttributeError.
Proof.
  exact (blank_descriptions_raise Samples.float_nulls Samples.sum_numbers eq_refl).
Defined.

(** ** Sorting by date *)

Module SortFacts.

Lemma map_nth_seq {A : Type} (l : list A) (d : A) :
  map (fun j => nth j l d) (seq 0 (length l)) = l.
Proof.
  induction l as [|a l IH]; simpl; [reflexivity|].
  f_equal. rewrite <- seq_shift, map_map. exact IH.
Qed.

Lemma filter_split_permutation {A : Type} (p : A -> bool) (l : list A) :
  Permutation (filter (fun x => negb (p x)) l ++ filter p l) l.
Proof.
  induction l as [|a l IH]; simpl; [constructor|].
  destruct (p a); simpl.
  - apply Permutation_sym, Permutation_cons_app, Permutation_sym, IH.
  - now constructor.
Qed.

(** An index list that passes [argsort_ok] is a permutation of the
    positions, and the keys ascend along it. *)
Lemma argsort_ok_permutation (keys : list Z) (idx : list nat) :
  argsort_ok keys idx = true -> Permutation idx (seq 0 (length keys)).
Proof.
  unfold argsort_ok. rewrite !andb_true_iff. intros [[Hlen Hall] _].
  apply Nat.eqb_eq in Hlen. apply Permutation_sym.
  apply NoDup_Permutation_bis.
  - apply seq_NoDup.
  - rewrite length_seq. lia.
  - intros i Hi. rewrite forallb_forall in Hall.
    specialize (Hall i Hi). apply existsb_exists in Hall.
    destruct Hall as [j [Hj Heq]]. apply Nat.eqb_eq in Heq. now subst.
Qed.

Lemma ascending_sorted (keys : list Z) (idx : list nat) :
  ascending keys idx = true ->
  StronglySorted (fun i j => (nth i keys 0 <= nth j keys 0)%Z) idx.
Proof.
  intros H. apply Sorted_StronglySorted.
  - intros x y z. lia.
  - induction idx as [|i r IH]; [constructor|].
    simpl in H. destruct r as [|j r'].
    + constructor; constructor.
    + apply andb_true_iff in H. destruct H as [Hij Hr].
      constructor; [now apply IH|]. constructor. now apply Z.leb_le.
Qed.

Lemma StronglySorted_weaken {A : Type} (R R' : A -> A -> Prop) (l : list A) :
  (forall x y, In x l -> In y l -> R x y -> R' x y) ->
  StronglySorted R l -> StronglySorted R' l.
Proof.
  intros Himp H. induction H as [|a l Hl IH Ha]; constructor.
  - apply IH. intros x y Hx Hy. apply Himp; now right.
  - rewrite Forall_forall in *. intros y Hy.
    apply Himp; [now left | now right | now apply Ha].
Qed.

Lemma StronglySorted_map {A B : Type} (R : B -> B -> Prop) (f : A -> B) (l : list A) :
  StronglySorted (fun x y => R (f x) (f y)) l -> StronglySorted R (map f l).
Proof.
  intros H. induction H as [|a l Hl IH Ha]; simpl; constructor.
  - exact IH.
  - rewrite Forall_forall in *. intros y Hy.
    apply in_map_iff in Hy. destruct Hy as [x [<- Hx]]. now apply Ha.
Qed.

Lemma StronglySorted_app {A : Type} (R : A -> A -> Prop) (l1 l2 : list A) :
  StronglySorted R l1 -> StronglySorted R l2 ->
  (forall x y, In x l1 -> In y l2 -> R x y) ->
  StronglySorted R (l1 ++ l2).
Proof.
  intros H1 H2 Hx. induction H1 as [|a l Hl IH Ha]; simpl; [exact H2|].
  constructor.
  - apply IH. intros x y Hin. apply Hx. now right.
  - apply Forall_app. split; [exact Ha|].
    apply Forall_forall. intros y Hy. apply Hx; [now left | exact Hy].
Qed.

Lemma StronglySorted_all {A : Type} (R : A -> A -> Prop) (l : list A) :
  (forall x y, In y l -> R x y) -> StronglySorted R l.
Proof.
  intros H. induction l as [|a l IH]; constructor.
  - apply IH. intros x y Hy. apply H. now right.
  - apply Forall_forall. intros y Hy. apply H. now right.
Qed.

Lemma isnat_false (c : cell) :
  isnat c = false -> timestamp c = Some (ts_value c).
Proof. unfold isnat, ts_value. now destruct (timestamp c). Qed.

Lemma isnat_true (c : cell) : isnat c = true -> timestamp c = None.
Proof. unfold isnat. now destruct (timestamp c). Qed.

Lemma non_nan_idx_valid (items : list cell) (i : nat) :
  In i (non_nan_idx items) -> isnat (nth i items NA) = false.
Proof.
  unfold non_nan_idx. rewrite filter_In. intros [_ H].
  now apply negb_true_iff.
Qed.

Lemma nan_idx_null (items : list cell) (i : nat) :
  In i (nan_idx items) -> isnat (nth i items NA) = true.
Proof. unfold nan_idx. rewrite filter_In. tauto. Qed.

Lemma length_non_nans (items : list cell) :
  length (non_nans items) = length (non_nan_idx items).
Proof. unfold non_nans. apply length_map. Qed.

Lemma nth_non_nans (items : list cell) (j : nat) :
  j < length (non_nan_idx items) ->
  nth j (non_nans items) 0%Z
  = ts_value (nth (nth j (non_nan_idx items) 0) items NA).
Proof.
  intros Hj. unfold non_nans.
  rewrite (nth_indep _ 0%Z (ts_value (nth 0 items NA)))
    by (rewrite length_map; exact Hj).
  apply (map_nth (fun i => ts_value (nth i items NA))).
Qed.

Section Indexer.
Variable argsort : list Z -> list nat.
Variable items : list cell.
Hypothesis Hok : argsort_ok (non_nans items) (argsort (non_nans items)) = true.

Lemma argsort_in_range (j : nat) :
  In j (argsort (non_nans items)) -> j < length (non_nan_idx items).
Proof.
  intros H. rewrite <- length_non_nans.
  apply (Permutation_in _ (argsort_ok_permutation _ _ Hok)) in H.
  apply in_seq in H. lia.
Qed.

Lemma sorted_non_nan_idx_permutation :
  Permutation (sorted_non_nan_idx argsort items) (non_nan_idx items).
Proof.
  unfold sorted_non_nan_idx.
  eapply Permutation_trans.
  - apply Permutation_map, argsort_ok_permutation, Hok.
  - rewrite length_non_nans, map_nth_seq. apply Permutation_refl.
Qed.

Lemma nargsort_permutation :
  Permutation (nargsort argsort items) (seq 0 (length items)).
Proof.
  unfold nargsort.
  eapply Permutation_trans.
  - apply Permutation_app_tail, sorted_non_nan_idx_permutation.
  - apply (filter_split_permutation (fun i => isnat (nth i items NA))).
Qed.

Lemma nargsort_sorted :
  StronglySorted date_le
    (map (fun i => nth i items NA) (nargsort argsort items)).
Proof.
  unfold nargsort. rewrite map_app. apply StronglySorted_app.
  - unfold sorted_non_nan_idx. rewrite map_map. apply StronglySorted_map.
    pose proof (ascending_sorted (non_nans items) (argsort (non_nans items))) as Hs.
    pose proof Hok as Hasc. unfold argsort_ok in Hasc.
    apply andb_true_iff in Hasc. specialize (Hs (proj2 Hasc)).
    revert Hs. apply StronglySorted_weaken. intros x y Hx Hy Hle.
    apply argsort_in_range in Hx, Hy.
    rewrite !nth_non_nans in Hle by assumption.
    unfold date_le.
    rewrite !isnat_false by (apply non_nan_idx_valid, nth_In; assumption).
    exact Hle.
  - apply StronglySorted_map, StronglySorted_all. intros x y Hy.
    unfold date_le. rewrite (isnat_true _ (nan_idx_null _ _ Hy)).
    now destruct (timestamp (nth x items NA)).
  - intros x y _ Hy. apply in_map_iff in Hy. destruct Hy as [i [<- Hi]].
    unfold date_le. rewrite (isnat_true _ (nan_idx_null _ _ Hi)).
    now destruct (timestamp x).
Qed.

End Indexer.

End SortFacts.

Lemma lookup_take_rows (c : string) (indexer : list nat) (df : DataFrame) :
  Frame.lookup c (cols (Frame.take_rows indexer df))
  = option_map (fun v => map (fun i => nth i v NA) indexer)
               (Frame.lookup c (cols df)).
Proof.
  unfold Frame.take_rows. simpl.
  induction (cols df) as [|[n v] l IH]; simpl; [reflexivity|].
  now destruct (String.eqb c n).
Qed.

(** X27. When [argsort] returns a valid ascending order,
    [sort_values('Date')] returns the rows of the table in an order that
    lists every row once; along it the dates ascend and the rows without a
    date come last, in the order they had before the sort.  Nothing is
    said on rows with equal dates: their order is the one the sort kind in
    use produces. *)
Theorem sort_values_by_date (argsort : list Z -> list nat) (df : DataFrame)
  (date : list cell) :
  Frame.lookup "Date" (cols df) = Some date ->
  argsort_ok (non_nans date) (argsort (non_nans date)) = true ->
  exists valid,
    sort_values argsort "Date" df
    = Ok (Frame.take_rows (valid ++ nan_idx date) df) /\
    Permutation valid (non_nan_idx date) /\
    Permutation (valid ++ nan_idx date) (seq 0 (length date)) /\
    Frame.lookup "Date" (cols (Frame.take_rows (valid ++ nan_idx date) df))
    = Some (map (fun i => nth i date NA) (valid ++ nan_idx date)) /\
    StronglySorted date_le (map (fun i => nth i date NA) (valid ++ nan_idx date)).
Proof.
  intros Hdate Hok. exists (sorted_non_nan_idx argsort date).
  split; [|split; [|split; [|split]]].
  - unfold sort_values, Frame.getcol. now rewrite Hdate.
  - now apply SortFacts.sorted_non_nan_idx_permutation.
  - now apply SortFacts.nargsort_permutation.
  - now rewrite lookup_take_rows, Hdate.
  - now apply SortFacts.nargsort_sorted.
Qed.

(** The sample table, whose last row has no date, under a stable sort. *)
Lemma sort_values_by_date_witness :
  exists valid,
    sort_values Samples.argsort_stable "Date" Samples.statement
    = Ok (Frame.take_rows (valid ++ [3]) Samples.statement) /\
    Permutation valid [0; 1; 2] /\
    Permutation (valid ++ [3]) [0; 1; 2; 3] /\
    Frame.lookup "Date" (cols (Frame.take_rows (valid ++ [3]) Samples.statement))
    = Some (map (fun i => nth i [Ts 20240105; Ts 20240120; Ts 20240120; NA] NA)
                (valid ++ [3])) /\
    StronglySorted date_le
      (map (fun i => nth i [Ts 20240105; Ts 20240120; Ts 20240120; NA] NA)
           (valid ++ [3])).
Proof.
  exact (sort_values_by_date Samples.argsort_stable Samples.statement
           [Ts 20240105; Ts 20240120; Ts 20240120; NA] eq_refl eq_refl).
Defined.

(** ** Grouped counts *)

Module GroupByFacts.
Import GroupBy.

Section Counting.
Context {K : Type} (leb eqb : K -> K -> bool).
Hypothesis eqb_eq : forall a b, eqb a b = true <-> a = b.

Lemma insert_sorted_permutation (k : K) (l : list K) :
  Permutation (insert_sorted leb k l) (k :: l).
Proof.
  induction l as [|h t IH]; simpl; [apply Permutation_refl|].
  destruct (leb k h); [apply Permutation_refl|].
  apply Permutation_trans with (h :: k :: t); [now constructor | constructor].
Qed.

Lemma existsb_eqb_In (k : K) (l : list K) :
  existsb (eqb k) l = true <-> In k l.
Proof.
  rewrite existsb_exists. split.
  - intros [x [Hx H]]. apply eqb_eq in H. now subst.
  - intros H. exists k. split; [exact H | now apply eqb_eq].
Qed.

Lemma add_key_In (k x : K) (l : list K) :
  In x (add_key leb eqb k l) <-> x = k \/ In x l.
Proof.
  unfold add_key. destruct (existsb (eqb k) l) eqn:E.
  - apply existsb_eqb_In in E. split; [auto | intros [->|H]; auto].
  - split; intros H.
    + apply (Permutation_in _ (insert_sorted_permutation k l)) in H.
      destruct H; auto.
    + apply (Permutation_in _ (Permutation_sym (insert_sorted_permutation k l))).
      destruct H; [left | right]; auto.
Qed.

Lemma add_key_NoDup (k : K) (l : list K) :
  NoDup l -> NoDup (add_key leb eqb k l).
Proof.
  intros H. unfold add_key. destruct (existsb (eqb k) l) eqn:E; [exact H|].
  apply (Permutation_NoDup (Permutation_sym (insert_sorted_permutation k l))).
  constructor; [|exact H]. intros Hin.
  apply existsb_eqb_In in Hin. congruence.
Qed.

(** The groups: every key that occurs, once. *)
Lemma group_keys_In (x : K) (keys : list K) :
  In x (group_keys leb eqb keys) <-> In x keys.
Proof.
  induction keys as [|k r IH]; simpl; [tauto|].
  rewrite add_key_In, IH. split; intros [H|H]; auto.
Qed.

Lemma group_keys_NoDup (keys : list K) : NoDup (group_keys leb eqb keys).
Proof.
  induction keys as [|k r IH]; simpl; [constructor|].
  now apply add_key_NoDup.
Qed.

Lemma list_sum_zero {A : Type} (l : list A) :
  list_sum (map (fun _ => 0) l) = 0.
Proof. induction l; simpl; auto. Qed.

Lemma list_sum_plus {A : Type} (f g : A -> nat) (l : list A) :
  list_sum (map (fun x => f x + g x) l)
  = list_sum (map f l) + list_sum (map g l).
Proof. induction l as [|a l IH]; simpl; [reflexivity|]. rewrite IH. lia. Qed.

Lemma list_sum_indicator (k0 : K) (c : nat) (l : list K) :
  NoDup l -> In k0 l ->
  list_sum (map (fun k => if eqb k k0 then c else 0) l) = c.
Proof.
  intros Hnd. induction Hnd as [|a l Ha Hl IH]; intros Hin; [destruct Hin|].
  simpl. destruct Hin as [->|Hin].
  - rewrite (proj2 (eqb_eq k0 k0) eq_refl).
    assert (Hz : list_sum (map (fun k => if eqb k k0 then c else 0) l) = 0).
    { clear IH Hl. induction l as [|b l IHl]; simpl; [reflexivity|].
      destruct (eqb b k0) eqn:E.
      - apply eqb_eq in E. subst. exfalso. apply Ha. now left.
      - apply IHl. intros H. apply Ha. now right. }
    lia.
  - destruct (eqb a k0) eqn:E.
    + apply eqb_eq in E. subst. contradiction.
    + now apply IH.
Qed.

Lemma count_cons (v : cell) (l : list cell) :
  count (v :: l) = (if isna v then 0 else 1) + count l.
Proof. unfold count. simpl. now destruct (isna v). Qed.

(** Over groups that hold every key once, the counts of the groups add up
    to the number of rows with a key and a value that is not null. *)
Lemma group_counts_sum (groups : list K) (keys : list (option K))
  (vals : list cell) :
  NoDup groups ->
  incl (present keys) groups ->
  list_sum (map (fun k => count (group_values eqb k keys vals)) groups)
  = counted_rows keys vals.
Proof.
  intros Hnd. revert vals.
  induction keys as [|[k0|] keys IH]; intros vals Hincl.
  - simpl. apply list_sum_zero.
  - destruct vals as [|v vals]; [apply list_sum_zero|].
    cbn [group_values counted_rows].
    rewrite (map_ext _ (fun k => (if eqb k k0 then (if isna v then 0 else 1) else 0)
                                 + count (group_values eqb k keys vals))).
    + rewrite list_sum_plus, IH.
      * rewrite list_sum_indicator; [reflexivity | exact Hnd |].
        apply Hincl. now left.
      * intros x Hx. apply Hincl. now right.
    + intros k. destruct (eqb k k0); [apply count_cons | reflexivity].
  - destruct vals as [|v vals]; [apply list_sum_zero|].
    cbn [group_values counted_rows]. now apply IH.
Qed.

End Counting.

(** The transaction counts of the category summary add up to the number
    of rows whose amount is not null (and whose category is a text):
    ['count'] skips the nulls of the column it aggregates. *)
Lemma summary_counts_sum (sum_numbers : list Z -> Z) (category amount : list cell) :
  list_sum (map (fun row => snd (fst row)) (summarize sum_numbers category amount))
  = counted_rows (map category_key category) amount.
Proof.
  unfold summarize. rewrite map_map. cbn [fst snd].
  apply (group_counts_sum String.eqb String.eqb_eq).
  - apply (group_keys_NoDup String.leb String.eqb String.eqb_eq).
  - intros x Hx.
    now apply (group_keys_In String.leb String.eqb String.eqb_eq).
Qed.

(** When no amount is null the counts add up to the number of rows. *)
Lemma counted_rows_all {K : Type} (keys : list (option K)) (vals : list cell) :
  length keys = length vals ->
  Forall (fun k => k <> None) keys ->
  Forall (fun v => isna v = false) vals ->
  counted_rows keys vals = length vals.
Proof.
  revert vals. induction keys as [|k keys IH]; intros [|v vals] Hlen Hk Hv;
    simpl in *; try discriminate; [reflexivity|].
  inversion Hk; subst. inversion Hv; subst.
  destruct k as [k|]; [|congruence].
  rewrite H3. simpl. f_equal. apply IH; auto.
Qed.

End GroupByFacts.

(** A file without any amount alias loads with a null amount in every
    row. *)
Lemma load_file_without_amount (read_csv : string -> option DataFrame)
  (basename : string -> string) (file_path : string) (df : DataFrame) :
  read_csv file_path = Some df ->
  Frame.has_column "Amount" df = false ->
  Frame.has_column "Transaction Amount" df = false ->
  exists loaded,
    load_file read_csv basename file_path = Some loaded /\
    nrows loaded = nrows df /\
    Frame.lookup "Amount" (cols loaded) = Some (repeat NA (nrows df)).
Proof.
  intros Hread H1 H2. unfold load_file. rewrite Hread. eexists.
  split; [reflexivity|]. unfold Frame.setscalar. split.
  - now rewrite FrameFacts.nrows_setcol, NormaliserFacts.nrows_standardize.
  - rewrite FrameFacts.lookup_setcol_other by discriminate.
    rewrite NormaliserFacts.standardize_amount. cbn [find].
    now rewrite H1, H2.
Qed.

(** ** Columns of the loaded files *)

Module LoaderFacts.
Import Frame FrameFacts.

Lemma standardize_has_columns (c : string) (df : DataFrame) :
  In c ["Date"; "Description"; "Amount"] ->
  has_column c (_standardize_columns df) = true.
Proof.
  intros Hc. rewrite has_column_lookup.
  destruct Hc as [<-|[<-|[<-|[]]]].
  - rewrite NormaliserFacts.standardize_date.
    destruct (find _ _) as [a|] eqn:E; [|reflexivity].
    now destruct (NormaliserFacts.find_present _ _ _ E) as [v ->].
  - rewrite NormaliserFacts.standardize_description.
    destruct (find _ _) as [a|] eqn:E; [|reflexivity].
    now destruct (NormaliserFacts.find_present _ _ _ E) as [v ->].
  - rewrite NormaliserFacts.standardize_amount.
    destruct (find _ _) as [a|] eqn:E; [|reflexivity].
    now destruct (NormaliserFacts.find_present _ _ _ E) as [v ->].
Qed.

Lemma union_names_In (c : string) (names seen : list string) :
  In c (union_names seen names) <-> In c seen \/ In c names.
Proof.
  revert seen. induction names as [|n r IH]; intros seen; simpl; [tauto|].
  destruct (existsb (String.eqb n) seen) eqn:E; rewrite IH.
  - apply existsb_exists in E. destruct E as [x [Hx Hn]].
    apply String.eqb_eq in Hn. subst x.
    split; [tauto | intros [H|[<-|H]]; auto].
  - rewrite in_app_iff. simpl. tauto.
Qed.

Lemma lookup_named (c : string) (g : string -> list cell) (names : list string) :
  In c names -> lookup c (map (fun n => (n, g n)) names) = Some (g c).
Proof.
  induction names as [|n r IH]; simpl; [tauto|].
  destruct (String.eqb c n) eqn:E.
  - apply String.eqb_eq in E. now subst.
  - intros [->|H]; [|auto]. now rewrite String.eqb_refl in E.
Qed.

(** A column of one frame is a column of the concatenation. *)
Lemma has_column_concat (c : string) (frames : list DataFrame) (df : DataFrame) :
  In df frames -> has_column c df = true ->
  has_column c (concat frames) = true.
Proof.
  intros Hdf Hc. rewrite has_column_lookup. unfold concat. cbn [cols].
  rewrite lookup_named; [reflexivity|].
  apply union_names_In. right. apply in_flat_map. exists df.
  split; [exact Hdf | now apply has_column_In].
Qed.

Lemma aligned_take_rows (indexer : list nat) (df : DataFrame) :
  aligned (take_rows indexer df) = true.
Proof.
  unfold aligned, take_rows. cbn [cols nrows].
  apply forallb_forall. intros nv Hnv.
  apply in_map_iff in Hnv. destruct Hnv as [x [<- _]]. cbn [snd].
  rewrite length_map. apply Nat.eqb_refl.
Qed.

Lemma has_column_take_rows (c : string) (indexer : list nat) (df : DataFrame) :
  has_column c (take_rows indexer df) = has_column c df.
Proof.
  unfold has_column, columns, take_rows. cbn [cols]. now rewrite map_map.
Qed.

Lemma has_column_setcol_other (c c' : string) (v : list cell) (df : DataFrame) :
  c' <> c -> has_column c' (setcol c v df) = has_column c' df.
Proof. intros H. now rewrite !has_column_lookup, lookup_setcol_other. Qed.

Section Loader.
Variable read_csv : string -> option DataFrame.
Variable basename : string -> string.
Variable to_datetime : list cell -> list (option Z).
Variable argsort : list Z -> list nat.

Lemma load_file_columns (file_path c : string) (df : DataFrame) :
  load_file read_csv basename file_path = Some df ->
  In c ["Date"; "Description"; "Amount"] ->
  has_column c df = true.
Proof.
  unfold load_file. destruct (read_csv file_path) as [raw|]; [|discriminate].
  intros H Hc. injection H as <-. unfold setscalar.
  rewrite has_column_setcol_other.
  - now apply standardize_has_columns.
  - destruct Hc as [<-|[<-|[<-|[]]]]; discriminate.
Qed.

Lemma load_files_columns (file_paths : list string) (c : string) (df : DataFrame) :
  In df (load_files read_csv basename file_paths) ->
  In c ["Date"; "Description"; "Amount"] ->
  has_column c df = true.
Proof.
  induction file_paths as [|p r IH]; simpl; [tauto|].
  destruct (load_file read_csv basename p) as [f|] eqn:E; [|exact IH].
  intros [<-|H] Hc; [|auto]. exact (load_file_columns _ _ _ E Hc).
Qed.

End Loader.

End LoaderFacts.

(* ===================================================================== *)
(** * Further properties of the pipeline *)

(** ** Shape of the tables *)

Module ShapeFacts.
Import Frame FrameFacts.

Lemma aligned_forall (df : DataFrame) :
  aligned df = true <->
  forall n v, In (n, v) (cols df) -> length v = nrows df.
Proof.
  unfold aligned. rewrite forallb_forall. split.
  - intros H n v Hin. apply Nat.eqb_eq. exact (H (n, v) Hin).
  - intros H [n v] Hin. apply Nat.eqb_eq. exact (H n v Hin).
Qed.

Lemma aligned_setcol (c : string) (v : list cell) (df : DataFrame) :
  aligned df = true -> length v = nrows df -> aligned (setcol c v df) = true.
Proof.
  rewrite !aligned_forall. intros Hal Hv n w. rewrite nrows_setcol.
  unfold setcol. destruct (has_column c df); cbn [cols].
  - rewrite in_map_iff. intros [[m u] [Heq Hin]]. cbn [fst] in Heq.
    destruct (String.eqb m c).
    + injection Heq as _ <-. exact Hv.
    + injection Heq as _ <-. exact (Hal m u Hin).
  - rewrite in_app_iff. intros [Hin|[Heq|[]]].
    + exact (Hal n w Hin).
    + injection Heq as _ <-. exact Hv.
Qed.

Lemma aligned_rename (old new : string) (df : DataFrame) :
  aligned df = true -> aligned (rename old new df) = true.
Proof.
  rewrite !aligned_forall. intros Hal n w. unfold rename. cbn [cols nrows].
  rewrite in_map_iff. intros [[m u] [Heq Hin]]. cbn [fst snd] in Heq.
  destruct (String.eqb m old); injection Heq as _ <-; exact (Hal m u Hin).
Qed.

Lemma aligned_rename_first (std : string) (aliases : list string) (df : DataFrame) :
  aligned df = true -> aligned (rename_first std aliases df) = true.
Proof.
  intros H. rewrite NormaliserFacts.rename_first_find.
  destruct (find _ aliases); [now apply aligned_rename | exact H].
Qed.

Lemma aligned_ensure_column (std : string) (df : DataFrame) :
  aligned df = true -> aligned (ensure_column df std) = true.
Proof.
  intros H. unfold ensure_column. destruct (has_column std df); [exact H|].
  apply aligned_setcol; [exact H | apply repeat_length].
Qed.

Lemma aligned_standardize (df : DataFrame) :
  aligned df = true -> aligned (_standardize_columns df) = true.
Proof.
  intros H. unfold _standardize_columns, column_mapping.
  cbn [fold_left fst snd].
  now repeat first [apply aligned_ensure_column | apply aligned_rename_first].
Qed.

Lemma length_flat_map_rows (g : DataFrame -> list cell) (frames : list DataFrame) :
  (forall df, In df frames -> length (g df) = nrows df) ->
  length (flat_map g frames) = list_sum (map nrows frames).
Proof.
  induction frames as [|f r IH]; intros H; simpl; [reflexivity|].
  rewrite length_app, (H f (or_introl eq_refl)), IH; [reflexivity|].
  intros df Hdf. apply H. now right.
Qed.

Lemma aligned_concat (frames : list DataFrame) :
  Forall (fun df => aligned df = true) frames ->
  aligned (concat frames) = true.
Proof.
  intros Hall. apply aligned_forall. intros n v. unfold concat.
  cbn [cols nrows]. rewrite in_map_iff. intros [m [Heq _]].
  injection Heq as _ <-. apply length_flat_map_rows. intros df Hdf.
  rewrite Forall_forall in Hall.
  destruct (lookup m (cols df)) as [w|] eqn:E.
  - exact (aligned_lookup _ _ _ (Hall df Hdf) E).
  - apply repeat_length.
Qed.

Lemma columns_rename_length (old new : string) (df : DataFrame) :
  map snd (cols (rename old new df)) = map snd (cols df).
Proof.
  unfold rename. cbn [cols]. rewrite map_map. apply map_ext.
  intros [n v]. cbn [fst snd]. now destruct (String.eqb n old).
Qed.

End ShapeFacts.

(** ** The loader in closed form *)

Section ClosedForms.
Import Frame FrameFacts.

Variable read_csv : string -> option DataFrame.
Variable basename : string -> string.
Variable to_datetime : list cell -> list (option Z).
Variable argsort : list Z -> list nat.
Variable to_period_M : Z -> Z.
Variable object_dtype : list cell -> bool.
Variable sum_numbers : list Z -> Z.

Lemma load_files_filter (file_paths : list string) :
  load_files read_csv basename (filter (readable read_csv) file_paths)
  = load_files read_csv basename file_paths.
Proof.
  induction file_paths as [|p r IH]; [reflexivity|].
  cbn [filter load_files]. unfold readable at 1, load_file.
  destruct (read_csv p) as [df|] eqn:E; [|exact IH].
  cbn [load_files]. unfold load_file. rewrite E. now rewrite IH.
Qed.

Lemma load_files_nonempty (file_paths : list string) :
  load_files read_csv basename file_paths <> [] <->
  exists p, In p file_paths /\ readable read_csv p = true.
Proof.
  induction file_paths as [|p r IH]; simpl.
  - split; [congruence | intros [p [[] _]]].
  - unfold load_file. destruct (read_csv p) as [df|] eqn:E.
    + split; [|intros _; discriminate]. intros _. exists p.
      split; [now left|]. unfold readable. now rewrite E.
    + rewrite IH. split; intros [q [Hq Hr]]; exists q.
      * split; [now right | exact Hr].
      * destruct Hq as [<-|Hq]; [|now split].
        unfold readable in Hr. rewrite E in Hr. discriminate.
Qed.

Lemma existsb_readable (file_paths : list string) :
  existsb (readable read_csv) file_paths = true <->
  load_files read_csv basename file_paths <> [].
Proof.
  rewrite load_files_nonempty, existsb_exists. reflexivity.
Qed.

Lemma not_readable (file_paths : list string) :
  existsb (readable read_csv) file_paths = false ->
  load_files read_csv basename file_paths = [].
Proof.
  intros H. destruct (load_files read_csv basename file_paths) eqn:El;
    [reflexivity|].
  assert (existsb (readable read_csv) file_paths = true)
    by (apply existsb_readable; rewrite El; discriminate).
  congruence.
Qed.

Lemma load_files_has_column (file_paths : list string) (c : string) :
  load_files read_csv basename file_paths <> [] ->
  In c ["Date"; "Description"; "Amount"; "Source_File"] ->
  has_column c (concat (load_files read_csv basename file_paths)) = true.
Proof.
  intros Hne Hc.
  destruct (load_files read_csv basename file_paths) as [|f rest] eqn:E;
    [congruence|].
  apply (LoaderFacts.has_column_concat _ _ f); [now left|].
  assert (Hf : In f (load_files read_csv basename file_paths))
    by (rewrite E; now left).
  destruct Hc as [<-|[<-|[<-|[<-|[]]]]];
    try (apply (LoaderFacts.load_files_columns _ _ _ _ _ Hf); simpl; tauto).
  clear E Hne. induction file_paths as [|p r IH]; simpl in Hf; [tauto|].
  unfold load_file in Hf. destruct (read_csv p) as [raw|]; [|auto].
  destruct Hf as [<-|Hf]; [|auto]. apply has_column_setcol_same.
Qed.

Lemma unified_has_column (file_paths : list string) (c : string) :
  load_files read_csv basename file_paths <> [] ->
  In c ["Date"; "Description"; "Amount"; "Source_File"] ->
  has_column c (unified_table read_csv basename to_datetime argsort file_paths)
  = true.
Proof.
  intros Hne Hc. unfold unified_table. cbv zeta.
  rewrite LoaderFacts.has_column_take_rows.
  destruct (string_dec c "Date") as [->|Hd].
  - apply has_column_setcol_same.
  - rewrite LoaderFacts.has_column_setcol_other by exact Hd.
    now apply load_files_has_column.
Qed.

Lemma unified_aligned (file_paths : list string) :
  aligned (unified_table read_csv basename to_datetime argsort file_paths) = true.
Proof. apply LoaderFacts.aligned_take_rows. Qed.

(** The Date column of the unified table: the parsed dates in the order of
    the sort. *)
Lemma unified_date_column (file_paths : list string) :
  let dates := unified_dates read_csv basename to_datetime file_paths in
  lookup "Date"
    (cols (unified_table read_csv basename to_datetime argsort file_paths))
  = Some (map (fun i => nth i dates NA) (nargsort argsort dates)).
Proof.
  intros dates. unfold unified_table. cbv zeta. fold dates.
  now rewrite lookup_take_rows, lookup_setcol_same.
Qed.

Lemma parsed_dates_datetime (file_paths : list string) (indexer : list nat) :
  let dates := unified_dates read_csv basename to_datetime file_paths in
  forallb Series.is_datetime (map (fun i => nth i dates NA) indexer) = true.
Proof.
  intros dates. apply forallb_forall. intros c Hc.
  apply in_map_iff in Hc. destruct Hc as [i [<- _]].
  assert (Hall : forall x, In x dates -> Series.is_datetime x = true).
  { intros x Hin. unfold dates, unified_dates in Hin.
    destruct (lookup "Date" _); [|destruct Hin].
    apply in_map_iff in Hin. destruct Hin as [d [<- _]]. now destruct d. }
  destruct (Nat.lt_ge_cases i (length dates)) as [Hi|Hi].
  - apply Hall. now apply nth_In.
  - now rewrite nth_overflow.
Qed.

(** The loader, when a file is read, up to the categoriser: its table is
    the unified table. *)
Lemma loader_categorizes (self : FinancialReportGenerator)
  (file_paths : list string) :
  load_files read_csv basename file_paths <> [] ->
  load_financial_data read_csv basename to_datetime argsort object_dtype
    self file_paths
  = (df <- _categorize_transactions object_dtype (category_mapping self)
             (unified_table read_csv basename to_datetime argsort file_paths) ;;
     Ok (mkGen (Some df) (category_mapping self))).
Proof.
  intros Hne.
  assert (Hdate := load_files_has_column file_paths "Date" Hne
                     (or_introl eq_refl)).
  unfold unified_table, unified_dates. cbv zeta.
  rewrite has_column_lookup in Hdate.
  destruct (lookup "Date" (cols (concat (load_files read_csv basename file_paths))))
    as [date|] eqn:Ldate; [|discriminate].
  unfold load_financial_data.
  destruct (load_files read_csv basename file_paths) as [|f rest];
    [congruence|].
  unfold getcol at 1. rewrite Ldate.
  cbn [bind]. unfold sort_values, getcol. rewrite lookup_setcol_same.
  reflexivity.
Qed.

(** The table that the loader returns when pandas takes the descriptions
    for text; it raises when pandas does not. *)
Lemma loader_result (self : FinancialReportGenerator) (file_paths : list string) :
  load_files read_csv basename file_paths <> [] ->
  let sorted := unified_table read_csv basename to_datetime argsort file_paths in
  let description := column "Description" sorted in
  lookup "Description" (cols sorted) = Some description /\
  load_financial_data read_csv basename to_datetime argsort object_dtype
    self file_paths
  = if Series.text_series object_dtype description
    then Ok (mkGen (Some (setcol "Category"
                            (map (fun c => Str (final_category (category_mapping self) c))
                                 description) sorted))
                   (category_mapping self))
    else Raise AttributeError.
Proof.
  intros Hne sorted description.
  assert (Hd : lookup "Description" (cols sorted) = Some description).
  { apply lookup_column. apply unified_has_column; [exact Hne|]. simpl. tauto. }
  split; [exact Hd|].
  rewrite (loader_categorizes self file_paths Hne). fold sorted.
  destruct (Series.text_series object_dtype description) eqn:Ht.
  - now rewrite (CategoriserFacts.categorize_rows _ _ _ _
                   (unified_aligned file_paths) Hd Ht).
  - now rewrite (CategoriserFacts.categorize_not_text _ _ _ _ Hd Ht).
Qed.

(** The table that the loader returns is one that the report builder can
    read, as soon as its amounts are numbers or null. *)
Lemma loader_report_input (mapping : list (string * string))
  (file_paths : list string) :
  load_files read_csv basename file_paths <> [] ->
  let sorted := unified_table read_csv basename to_datetime argsort file_paths in
  Series.numeric (column "Amount" sorted) = true ->
  report_input
    (setcol "Category"
       (map (fun c => Str (final_category mapping c)) (column "Description" sorted))
       sorted) = true.
Proof.
  intros Hne sorted Hnum. unfold report_input, column.
  rewrite !has_column_lookup, lookup_setcol_same.
  rewrite !lookup_setcol_other by discriminate.
  pose proof (unified_date_column file_paths) as Hdate. cbv zeta in Hdate.
  fold sorted in Hdate. rewrite Hdate.
  assert (Ha : has_column "Amount" sorted = true)
    by (apply unified_has_column; [exact Hne | simpl; tauto]).
  rewrite (lookup_column _ _ Ha). cbn [andb].
  rewrite (parsed_dates_datetime file_paths), Hnum. cbn [andb].
  unfold Series.texts. apply forallb_forall. intros c Hc.
  apply in_map_iff in Hc. now destruct Hc as [x [<- _]].
Qed.

End ClosedForms.

(** ** Properties of the loader and of the entry point *)

Section LoaderProperties.
Import Frame FrameFacts.

Variable read_csv : string -> option DataFrame.
Variable basename : string -> string.
Variable to_datetime : list cell -> list (option Z).
Variable argsort : list Z -> list nat.
Variable to_period_M : Z -> Z.
Variable object_dtype : list cell -> bool.
Variable sum_numbers : list Z -> Z.

(** X1. A path that cannot be read has no effect on what the loader
    returns: loading a list of paths is loading the readable ones among
    them, in the same order. *)
Theorem unreadable_files_skipped (self : FinancialReportGenerator)
  (file_paths : list string) :
  load_financial_data read_csv basename to_datetime argsort object_dtype
    self file_paths
  = load_financial_data read_csv basename to_datetime argsort object_dtype self
      (filter (readable read_csv) file_paths).
Proof.
  unfold load_financial_data. now rewrite load_files_filter.
Qed.

(** X2. The entry point returns reports when at least one of the bank and
    card files can be read, pandas takes the descriptions of the unified
    table for text, and its amounts are numbers or null.  No [KeyError]
    can occur: every column that the loader, the categoriser and the
    report builder read exists by then, whatever columns the files have
    and whatever the date parser and the sort return. *)
Theorem reports_when_some_file_read (bank_files credit_card_files : list string) :
  let table := unified_table read_csv basename to_datetime argsort
                 (bank_files ++ credit_card_files) in
  existsb (readable read_csv) (bank_files ++ credit_card_files) = true ->
  Series.text_series object_dtype (column "Description" table) = true ->
  Series.numeric (column "Amount" table) = true ->
  exists reports self,
    generate_financial_reports read_csv basename to_datetime argsort
      to_period_M object_dtype sum_numbers bank_files credit_card_files
    = Ok (reports, self).
Proof.
  intros table E Ht Hnum. apply (existsb_readable read_csv basename) in E.
  destruct (loader_result read_csv basename to_datetime argsort object_dtype
              __init__ _ E) as [_ Hload].
  fold table in Hload. rewrite Ht in Hload.
  unfold generate_financial_reports. rewrite Hload. cbn [bind].
  pose proof (loader_report_input read_csv basename to_datetime argsort
                (category_mapping __init__) _ E Hnum) as Hin.
  fold table in Hin.
  pose proof (reports_result to_period_M sum_numbers
                (mkGen (Some _) (category_mapping __init__)) _ eq_refl Hin) as Hr.
  cbv zeta in Hr. rewrite Hr. do 2 eexists. reflexivity.
Qed.

(** X25. When none of the bank and card files can be read, the entry
    point raises [AttributeError]. *)
Theorem no_readable_file_raises (bank_files credit_card_files : list string) :
  existsb (readable read_csv) (bank_files ++ credit_card_files) = false ->
  generate_financial_reports read_csv basename to_datetime argsort
    to_period_M object_dtype sum_numbers bank_files credit_card_files
  = Raise AttributeError.
Proof.
  intros E. apply no_file_loaded. now apply not_readable.
Qed.

(** X26. When a file is read and pandas does not take the descriptions
    of the unified table for text, the loader raises [AttributeError]. *)
Theorem loader_without_text_raises (self : FinancialReportGenerator)
  (file_paths : list string) :
  let table := unified_table read_csv basename to_datetime argsort file_paths in
  existsb (readable read_csv) file_paths = true ->
  Series.text_series object_dtype (column "Description" table) = false ->
  load_financial_data read_csv basename to_datetime argsort object_dtype
    self file_paths
  = Raise AttributeError.
Proof.
  intros table E Ht. apply (existsb_readable read_csv basename) in E.
  destruct (loader_result read_csv basename to_datetime argsort object_dtype
              self _ E) as [_ Hload].
  fold table in Hload. now rewrite Ht in Hload.
Qed.

(** X3. When a file is read and pandas takes the descriptions for text,
    the loader returns a rectangular table: every column has one cell per
    row, and Date, Description, Amount, Source_File and Category are among
    the columns, whatever the columns of the files were. *)
Theorem loader_table_shape (self : FinancialReportGenerator)
  (file_paths : list string) :
  let table := unified_table read_csv basename to_datetime argsort file_paths in
  existsb (readable read_csv) file_paths = true ->
  Series.text_series object_dtype (column "Description" table) = true ->
  exists df,
    load_financial_data read_csv basename to_datetime argsort object_dtype
      self file_paths
    = Ok (mkGen (Some df) (category_mapping self)) /\
    aligned df = true /\
    forall c, In c ["Date"; "Description"; "Amount"; "Source_File"; "Category"] ->
              has_column c df = true.
Proof.
  intros table E Ht. apply (existsb_readable read_csv basename) in E.
  destruct (loader_result read_csv basename to_datetime argsort object_dtype
              self _ E) as [Hd Hload].
  fold table in Hd, Hload. rewrite Ht in Hload.
  eexists. split; [exact Hload|].
  assert (Hal : aligned table = true) by apply unified_aligned.
  split.
  - apply ShapeFacts.aligned_setcol; [exact Hal|].
    rewrite length_map. exact (aligned_lookup _ _ _ Hal Hd).
  - intros c Hc. destruct (string_dec c "Category") as [->|Hne].
    + apply has_column_setcol_same.
    + rewrite LoaderFacts.has_column_setcol_other by exact Hne.
      apply unified_has_column; [exact E|]. simpl in *. intuition congruence.
Qed.

End LoaderProperties.

Section LoaderOrder.
Import Frame FrameFacts.

Variable read_csv : string -> option DataFrame.
Variable basename : string -> string.
Variable to_datetime : list cell -> list (option Z).
Variable argsort : list Z -> list nat.
Variable object_dtype : list cell -> bool.

Lemma nrows_load_files (file_paths : list string) :
  list_sum (map nrows (load_files read_csv basename file_paths))
  = rows_read read_csv file_paths.
Proof.
  unfold rows_read. induction file_paths as [|p r IH]; [reflexivity|].
  cbn [load_files map]. unfold load_file.
  destruct (read_csv p) as [df|].
  - cbn [map]. change (list_sum (?x :: ?l)) with (x + list_sum l).
    rewrite IH. f_equal. unfold setscalar.
    now rewrite nrows_setcol, NormaliserFacts.nrows_standardize.
  - change (list_sum (?x :: ?l)) with (x + list_sum l). exact IH.
Qed.

Lemma aligned_load_files (file_paths : list string) :
  (forall p df, read_csv p = Some df -> aligned df = true) ->
  Forall (fun df => aligned df = true) (load_files read_csv basename file_paths).
Proof.
  intros Hread. induction file_paths as [|p r IH]; [constructor|].
  cbn [load_files]. unfold load_file.
  destruct (read_csv p) as [df|] eqn:E; [|exact IH].
  constructor; [|exact IH]. unfold setscalar.
  apply ShapeFacts.aligned_setcol.
  - apply ShapeFacts.aligned_standardize. exact (Hread p df E).
  - apply repeat_length.
Qed.

Lemma permuted_rows {A : Type} (l : list A) (d : A) (indexer : list nat) :
  Permutation indexer (seq 0 (length l)) ->
  Permutation (map (fun i => nth i l d) indexer) l.
Proof.
  intros H. eapply Permutation_trans.
  - apply Permutation_map, H.
  - rewrite SortFacts.map_nth_seq. apply Permutation_refl.
Qed.

(** X4. When a file is read, pandas takes the descriptions for text and
    the sort returns a valid ascending order of the parsed dates, the Date
    column of the table that the loader returns holds the parsed dates of
    all files, rearranged so that they ascend with the null dates last;
    categorisation does not disturb the order. *)
Theorem loader_sorts_by_date (self : FinancialReportGenerator)
  (file_paths : list string) :
  let table := unified_table read_csv basename to_datetime argsort file_paths in
  existsb (readable read_csv) file_paths = true ->
  Series.text_series object_dtype (column "Description" table) = true ->
  argsort_ok (non_nans (unified_dates read_csv basename to_datetime file_paths))
    (argsort (non_nans (unified_dates read_csv basename to_datetime file_paths)))
  = true ->
  exists df dates,
    load_financial_data read_csv basename to_datetime argsort object_dtype
      self file_paths
    = Ok (mkGen (Some df) (category_mapping self)) /\
    lookup "Date" (cols df) = Some dates /\
    Permutation dates (unified_dates read_csv basename to_datetime file_paths) /\
    StronglySorted date_le dates.
Proof.
  intros table E Ht Hok. apply (existsb_readable read_csv basename) in E.
  destruct (loader_result read_csv basename to_datetime argsort object_dtype
              self _ E) as [_ Hload].
  fold table in Hload. rewrite Ht in Hload.
  set (dates := unified_dates read_csv basename to_datetime file_paths) in *.
  eexists. exists (map (fun i => nth i dates NA) (nargsort argsort dates)).
  split; [exact Hload|]. split; [|split].
  - rewrite lookup_setcol_other by discriminate.
    apply (unified_date_column read_csv basename to_datetime argsort).
  - apply permuted_rows. now apply SortFacts.nargsort_permutation.
  - now apply SortFacts.nargsort_sorted.
Qed.

(** X5. When the files read are rectangular, the date parser returns one
    value per row, pandas takes the descriptions for text and the sort
    returns a valid order, the loader neither loses nor invents a
    transaction: the table has as many rows as the readable files have
    together. *)
Theorem loader_keeps_every_row (self : FinancialReportGenerator)
  (file_paths : list string) :
  let table := unified_table read_csv basename to_datetime argsort file_paths in
  (forall p df, read_csv p = Some df -> aligned df = true) ->
  (forall v, length (to_datetime v) = length v) ->
  existsb (readable read_csv) file_paths = true ->
  Series.text_series object_dtype (column "Description" table) = true ->
  argsort_ok (non_nans (unified_dates read_csv basename to_datetime file_paths))
    (argsort (non_nans (unified_dates read_csv basename to_datetime file_paths)))
  = true ->
  exists df,
    load_financial_data read_csv basename to_datetime argsort object_dtype
      self file_paths
    = Ok (mkGen (Some df) (category_mapping self)) /\
    nrows df = rows_read read_csv file_paths.
Proof.
  intros table Hread Hlen E Ht Hok. apply (existsb_readable read_csv basename) in E.
  destruct (loader_result read_csv basename to_datetime argsort object_dtype
              self _ E) as [_ Hload].
  fold table in Hload. rewrite Ht in Hload.
  eexists. split; [exact Hload|].
  rewrite nrows_setcol. unfold table, unified_table. cbv zeta.
  cbn [take_rows nrows].
  rewrite (Permutation_length (SortFacts.nargsort_permutation _ _ Hok)).
  rewrite length_seq. unfold unified_dates.
  pose proof (load_files_has_column read_csv basename file_paths "Date" E
                (or_introl eq_refl)) as Hdate.
  rewrite has_column_lookup in Hdate.
  destruct (lookup "Date" (cols (concat (load_files read_csv basename file_paths))))
    as [date|] eqn:Ldate; [|discriminate].
  rewrite length_map, Hlen.
  rewrite (aligned_lookup _ _ _
             (ShapeFacts.aligned_concat _ (aligned_load_files _ Hread)) Ldate).
  apply nrows_load_files.
Qed.

End LoaderOrder.

Lemma sample_files_aligned (p : string) (df : DataFrame) :
  Samples.read_csv p = Some df -> Frame.aligned df = true.
Proof.
  unfold Samples.read_csv.
  repeat match goal with
         | |- context [String.eqb ?a ?b] => destruct (String.eqb a b)
         end; intros H; try discriminate; injection H as <-; reflexivity.
Qed.

Lemma sample_dates_length (v : list cell) :
  length (Samples.to_datetime v) = length v.
Proof. apply length_map. Qed.

(** The bank export of the samples and the export with a blank amount. *)
Lemma reports_when_some_file_read_witness :
  exists reports self,
    generate_financial_reports Samples.read_csv Samples.basename
      Samples.to_datetime Samples.argsort_stable Samples.to_period_M
      Samples.float_nulls Samples.sum_numbers ["bank.csv"; "nope.csv"] ["blank.csv"]
    = Ok (reports, self).
Proof.
  exact (reports_when_some_file_read Samples.read_csv Samples.basename
           Samples.to_datetime Samples.argsort_stable Samples.to_period_M
           Samples.float_nulls Samples.sum_numbers
           ["bank.csv"; "nope.csv"] ["blank.csv"] eq_refl eq_refl eq_refl).
Defined.

(** Two paths that cannot be read. *)
Lemma no_readable_file_raises_witness :
  generate_financial_reports Samples.read_csv Samples.basename
    Samples.to_datetime Samples.argsort_stable Samples.to_period_M
    Samples.float_nulls Samples.sum_numbers ["nope.csv"] ["missing.csv"]
  = Raise AttributeError.
Proof.
  exact (no_readable_file_raises Samples.read_csv Samples.basename
           Samples.to_datetime Samples.argsort_stable Samples.to_period_M
           Samples.float_nulls Samples.sum_numbers
           ["nope.csv"] ["missing.csv"] eq_refl).
Defined.

(** The export whose description is blank in every row. *)
Lemma loader_without_text_raises_witness :
  load_financial_data Samples.read_csv Samples.basename Samples.to_datetime
    Samples.argsort_stable Samples.float_nulls __init__ ["undescribed.csv"]
  = Raise AttributeError.
Proof.
  exact (loader_without_text_raises Samples.read_csv Samples.basename
           Samples.to_datetime Samples.argsort_stable Samples.float_nulls
           __init__ ["undescribed.csv"] eq_refl eq_refl).
Defined.

(** The bank and card exports of the samples, with a path that does not
    exist between them. *)
Lemma loader_table_shape_witness :
  exists df,
    load_financial_data Samples.read_csv Samples.basename Samples.to_datetime
      Samples.argsort_stable Samples.float_nulls __init__
      ["bank.csv"; "nope.csv"; "card.csv"]
    = Ok (mkGen (Some df) _create_category_mapping) /\
    Frame.aligned df = true /\
    forall c, In c ["Date"; "Description"; "Amount"; "Source_File"; "Category"] ->
              Frame.has_column c df = true.
Proof.
  exact (loader_table_shape Samples.read_csv Samples.basename
           Samples.to_datetime Samples.argsort_stable Samples.float_nulls __init__
           ["bank.csv"; "nope.csv"; "card.csv"] eq_refl eq_refl).
Defined.

Lemma loader_sorts_by_date_witness :
  exists df dates,
    load_financial_data Samples.read_csv Samples.basename Samples.to_datetime
      Samples.argsort_stable Samples.float_nulls __init__
      ["bank.csv"; "nope.csv"; "card.csv"]
    = Ok (mkGen (Some df) _create_category_mapping) /\
    Frame.lookup "Date" (cols df) = Some dates /\
    Permutation dates
      [Ts 20240210; Ts 20240105; NA; Ts 20240120; Ts 20240120] /\
    StronglySorted date_le dates.
Proof.
  exact (loader_sorts_by_date Samples.read_csv Samples.basename
           Samples.to_datetime Samples.argsort_stable Samples.float_nulls __init__
           ["bank.csv"; "nope.csv"; "card.csv"] eq_refl eq_refl eq_refl).
Defined.

Lemma loader_keeps_every_row_witness :
  exists df,
    load_financial_data Samples.read_csv Samples.basename Samples.to_datetime
      Samples.argsort_stable Samples.float_nulls __init__
      ["bank.csv"; "nope.csv"; "card.csv"]
    = Ok (mkGen (Some df) _create_category_mapping) /\
    nrows df = 5.
Proof.
  exact (loader_keeps_every_row Samples.read_csv Samples.basename
           Samples.to_datetime Samples.argsort_stable Samples.float_nulls __init__
           ["bank.csv"; "nope.csv"; "card.csv"]
           sample_files_aligned sample_dates_length eq_refl eq_refl eq_refl).
Defined.

(** ** Properties of the schema normaliser *)

Module NormaliserProperties.
Import Frame FrameFacts.

Lemma rename_first_head_present (std : string) (rest : list string) (df : DataFrame) :
  has_column std df = true -> rename_first std (std :: rest) df = df.
Proof.
  intros H. cbn [rename_first]. rewrite H. apply NormaliserFacts.rename_same.
Qed.

Lemma ensure_column_present (std : string) (df : DataFrame) :
  has_column std df = true -> ensure_column df std = df.
Proof. intros H. unfold ensure_column. now rewrite H. Qed.

(** A table that has the three standard columns is left as it is. *)
Lemma standardize_fixed (df : DataFrame) :
  (forall c, In c ["Date"; "Description"; "Amount"] -> has_column c df = true) ->
  _standardize_columns df = df.
Proof.
  intros H. unfold _standardize_columns, column_mapping.
  cbn [fold_left fst snd].
  rewrite (rename_first_head_present "Date" _ df) by (apply H; simpl; tauto).
  rewrite (rename_first_head_present "Description" _ df)
    by (apply H; simpl; tauto).
  rewrite (rename_first_head_present "Amount" _ df) by (apply H; simpl; tauto).
  rewrite (ensure_column_present "Date" df) by (apply H; simpl; tauto).
  rewrite (ensure_column_present "Description" df) by (apply H; simpl; tauto).
  apply ensure_column_present. apply H. simpl. tauto.
Qed.

Lemma columns_rename (old new : string) (df : DataFrame) :
  columns (rename old new df)
  = map (fun c => if String.eqb c old then new else c) (columns df).
Proof.
  unfold columns, rename. cbn [cols]. rewrite !map_map. apply map_ext.
  intros [n v]. cbn [fst]. now destruct (String.eqb n old).
Qed.

Lemma NoDup_renamed (old new : string) (l : list string) :
  NoDup l -> ~ In new l ->
  NoDup (map (fun c => if String.eqb c old then new else c) l).
Proof.
  intros Hnd Hnew.
  assert (Hin : forall x t, In x (map (fun c => if String.eqb c old then new else c) t) ->
                            (x = new /\ In old t) \/ (In x t /\ x <> old)).
  { intros x t. induction t as [|a t IH]; simpl; [tauto|].
    intros [Hx|Hx].
    - destruct (String.eqb a old) eqn:E.
      + apply String.eqb_eq in E. subst. left. auto.
      + apply String.eqb_neq in E. subst. right. auto.
    - destruct (IH Hx) as [[-> Ho]|[Ht Hne]]; [left | right]; auto. }
  induction Hnd as [|a t Ha Ht IH]; simpl; [constructor|].
  assert (Hnew' : ~ In new t) by (intros H; apply Hnew; now right).
  constructor; [|now apply IH].
  intros Hx. destruct (String.eqb a old) eqn:E.
  - apply String.eqb_eq in E. subst a.
    destruct (Hin _ _ Hx) as [[_ Ho]|[Hn _]]; [now apply Ha | now apply Hnew'].
  - destruct (Hin _ _ Hx) as [[-> _]|[Hn _]]; [|now apply Ha].
    apply Hnew. now left.
Qed.

Lemma NoDup_rename_first (std : string) (rest : list string) (df : DataFrame) :
  NoDup (columns df) -> NoDup (columns (rename_first std (std :: rest) df)).
Proof.
  intros H. destruct (has_column std df) eqn:E.
  - now rewrite rename_first_head_present.
  - cbn [rename_first]. rewrite E, NormaliserFacts.rename_first_find.
    destruct (find _ rest) as [a|]; [|exact H].
    rewrite columns_rename. apply NoDup_renamed; [exact H|].
    intros Hin. apply has_column_In in Hin. congruence.
Qed.

Lemma NoDup_ensure_column (std : string) (df : DataFrame) :
  NoDup (columns df) -> NoDup (columns (ensure_column df std)).
Proof.
  intros H. unfold ensure_column. destruct (has_column std df) eqn:E; [exact H|].
  unfold setscalar. rewrite columns_setcol, E.
  apply NoDup_rev in H. rewrite <- (rev_involutive (columns df ++ [std])).
  apply NoDup_rev. rewrite rev_app_distr. simpl. constructor; [|exact H].
  rewrite <- in_rev. intros Hin. apply has_column_In in Hin. congruence.
Qed.

Lemma values_rename_first (std : string) (aliases : list string) (df : DataFrame) :
  map snd (cols (rename_first std aliases df)) = map snd (cols df).
Proof.
  rewrite NormaliserFacts.rename_first_find.
  destruct (find _ aliases); [apply ShapeFacts.columns_rename_length | reflexivity].
Qed.

Lemma values_ensure_column (std : string) (df : DataFrame) :
  exists k, k <= 1 /\
    map snd (cols (ensure_column df std))
    = map snd (cols df) ++ repeat (repeat NA (nrows df)) k.
Proof.
  unfold ensure_column. destruct (has_column std df) eqn:E.
  - exists 0. split; [lia|]. simpl. now rewrite app_nil_r.
  - exists 1. split; [lia|]. unfold setscalar, setcol. rewrite E.
    cbn [cols]. now rewrite map_app.
Qed.

(** X6. Normalising a table a second time changes nothing: after one pass
    the three standard columns exist, and a table that has them is
    returned as it is. *)
Theorem standardize_idempotent (df : DataFrame) :
  _standardize_columns (_standardize_columns df) = _standardize_columns df.
Proof.
  apply standardize_fixed. intros c Hc.
  now apply LoaderFacts.standardize_has_columns.
Qed.

(** X7. A column whose name is none of the names of [column_mapping]
    passes through normalisation under its own name with its values. *)
Theorem standardize_passes_other_columns (df : DataFrame) (b : string) :
  ~ In b alias_names ->
  lookup b (cols (_standardize_columns df)) = lookup b (cols df).
Proof.
  intros Hb. apply NormaliserFacts.standardize_other.
  - intros Hin. apply Hb. unfold alias_names. simpl in *. tauto.
  - intros m a Hm Ha ->. apply Hb. apply find_some in Ha.
    unfold alias_names. apply in_flat_map. exists m. tauto.
Qed.

(** X8. Normalisation keeps a table well formed: when every column has one
    cell per row and no column name occurs twice, the same holds of the
    result; renaming an alias never collides with an existing column. *)
Theorem standardize_keeps_well_formed (df : DataFrame) :
  aligned df = true ->
  NoDup (columns df) ->
  aligned (_standardize_columns df) = true /\
  NoDup (columns (_standardize_columns df)).
Proof.
  intros Hal Hnd. split; [now apply ShapeFacts.aligned_standardize|].
  unfold _standardize_columns, column_mapping. cbn [fold_left fst snd].
  now repeat first [apply NoDup_ensure_column | apply NoDup_rename_first].
Qed.

(** X9. Normalisation drops no column, moves none and alters no value:
    the columns of the result hold, in order, the values of the columns of
    the input, followed by at most three columns that are null in every
    row. *)
Theorem standardize_keeps_values (df : DataFrame) :
  exists k, k <= 3 /\
    map snd (cols (_standardize_columns df))
    = map snd (cols df) ++ repeat (repeat NA (nrows df)) k.
Proof.
  unfold _standardize_columns, column_mapping. cbn [fold_left fst snd].
  set (d3 := rename_first "Amount" _ _).
  assert (H3 : map snd (cols d3) = map snd (cols df))
    by (unfold d3; now rewrite !values_rename_first).
  assert (N3 : nrows d3 = nrows df)
    by (unfold d3; now rewrite !NormaliserFacts.nrows_rename_first).
  destruct (values_ensure_column "Date" d3) as [k1 [L1 E1]].
  destruct (values_ensure_column "Description" (ensure_column d3 "Date"))
    as [k2 [L2 E2]].
  destruct (values_ensure_column "Amount"
              (ensure_column (ensure_column d3 "Date") "Description"))
    as [k3 [L3 E3]].
  exists (k1 + k2 + k3). split; [lia|].
  rewrite E3, E2, E1, H3, !NormaliserFacts.nrows_ensure_column, N3.
  now rewrite !repeat_app, <- !app_assoc.
Qed.

End NormaliserProperties.

Lemma standardize_passes_other_columns_witness :
  Frame.lookup "Memo" (cols (_standardize_columns Samples.card_csv))
  = Frame.lookup "Memo" (cols Samples.card_csv).
Proof.
  apply (NormaliserProperties.standardize_passes_other_columns
           Samples.card_csv "Memo").
  unfold alias_names. simpl. intuition discriminate.
Defined.

Lemma standardize_keeps_well_formed_witness :
  Frame.aligned (_standardize_columns Samples.card_csv) = true /\
  NoDup (Frame.columns (_standardize_columns Samples.card_csv)).
Proof.
  apply (NormaliserProperties.standardize_keeps_well_formed
           Samples.card_csv eq_refl).
  unfold Frame.columns. simpl.
  repeat constructor; simpl; intuition discriminate.
Defined.

(** ** Properties of the categoriser *)

Module CategoryFacts.

Lemma fold_rule_step_cases (c : cell) (rules : list (string * string))
  (init : string) :
  (fold_left (rule_step c) rules init = init /\
   Forall (fun r => str_contains (fst r) (str_upper c) = false) rules) \/
  (exists r, In r rules /\ str_contains (fst r) (str_upper c) = true /\
             fold_left (rule_step c) rules init = snd r).
Proof.
  revert init. induction rules as [|r rs IH]; intros init; cbn [fold_left].
  - left. split; [reflexivity | constructor].
  - assert (Hstep : rule_step c init r
                    = if str_contains (fst r) (str_upper c) then snd r else init)
      by reflexivity.
    destruct (IH (rule_step c init r)) as [[Heq Hall]|[r' [Hin [Hm Heq]]]].
    + rewrite Heq, Hstep.
      destruct (str_contains (fst r) (str_upper c)) eqn:E.
      * right. exists r. split; [now left|]. now split.
      * left. split; [reflexivity|]. now constructor.
    + right. exists r'. split; [now right|]. split; [exact Hm | exact Heq].
Qed.

Lemma final_category_known (mapping : list (string * string)) (c : cell) :
  In (final_category mapping c) (known_categories mapping).
Proof.
  unfold final_category, known_categories, keyword_category.
  destruct (str_contains_nh c); [right; now left|].
  destruct (fold_rule_step_cases c mapping "Uncategorized")
    as [[-> _]|[r [Hin [_ ->]]]].
  - now left.
  - right. right. now apply in_map.
Qed.

Lemma final_category_upper (mapping : list (string * string)) (s s' : string) :
  Text.upper s = Text.upper s' ->
  final_category mapping (Str s) = final_category mapping (Str s').
Proof.
  intros H. unfold final_category, keyword_category, str_contains_nh.
  unfold Text.icontains. rewrite H.
  replace (fold_left (rule_step (Str s)) mapping "Uncategorized")
    with (fold_left (rule_step (Str s')) mapping "Uncategorized");
    [reflexivity|].
  generalize "Uncategorized". induction mapping as [|r rs IH]; intros init;
    simpl; [reflexivity|].
  rewrite IH. f_equal. unfold rule_step. simpl. now rewrite H.
Qed.

Lemma configured_categories_named :
  forallb (fun r => negb (String.eqb (snd r) "Uncategorized"))
          _create_category_mapping = true.
Proof. reflexivity. Qed.

End CategoryFacts.

Section CategoriserProperties.
Import Frame FrameFacts CategoriserFacts.

Variable object_dtype : list cell -> bool.
Variable mapping : list (string * string).
Variable df : DataFrame.
Hypothesis Haligned : aligned df = true.
Hypothesis Hdescription : has_column "Description" df = true.

Lemma description_column :
  lookup "Description" (cols df) = Some (column "Description" df).
Proof.
  destruct (has_description _ Hdescription) as [d Hd].
  now rewrite (column_lookup _ _ _ Hd).
Qed.

(** X10. On a description column that pandas takes for text, the
    categoriser writes the Category column and nothing else: the table
    keeps its rows, every other column keeps its values, the column is put
    where a Category column already stood or else appended, and the table
    stays rectangular. *)
Theorem categorize_frame :
  Series.text_series object_dtype (column "Description" df) = true ->
  exists df',
    _categorize_transactions object_dtype mapping df = Ok df' /\
    nrows df' = nrows df /\
    (forall c, c <> "Category" -> lookup c (cols df') = lookup c (cols df)) /\
    columns df' = (if has_column "Category" df then columns df
                   else columns df ++ ["Category"]) /\
    aligned df' = true.
Proof.
  intros Ht. pose proof description_column as Hd.
  rewrite (categorize_rows _ _ _ _ Haligned Hd Ht). eexists.
  split; [reflexivity|]. split; [apply nrows_setcol|].
  split; [intros c Hc; now apply lookup_setcol_other|].
  split; [apply columns_setcol|].
  apply ShapeFacts.aligned_setcol; [exact Haligned|].
  rewrite length_map. exact (aligned_lookup _ _ _ Haligned Hd).
Qed.

(** X11. Categorising an already categorised table gives the same table:
    the categories depend on the descriptions only, never on the
    categories that were there. *)
Theorem categorize_idempotent :
  Series.text_series object_dtype (column "Description" df) = true ->
  exists df',
    _categorize_transactions object_dtype mapping df = Ok df' /\
    _categorize_transactions object_dtype mapping df' = Ok df'.
Proof.
  intros Ht. pose proof description_column as Hd.
  rewrite (categorize_rows _ _ _ _ Haligned Hd Ht). eexists.
  split; [reflexivity|].
  rewrite (categorize_rows object_dtype mapping _ (column "Description" df)).
  - now rewrite setcol_setcol.
  - apply ShapeFacts.aligned_setcol; [exact Haligned|].
    rewrite length_map. exact (aligned_lookup _ _ _ Haligned Hd).
  - now rewrite (lookup_setcol_other _ _ _ _ description_not_category).
  - exact Ht.
Qed.

(** X13. The categoriser only writes names it knows: every cell of the
    Category column is the text "Uncategorized", "Law School" or a category
    of the rule table. *)
Theorem categories_are_known :
  Series.text_series object_dtype (column "Description" df) = true ->
  exists df' category,
    _categorize_transactions object_dtype mapping df = Ok df' /\
    lookup "Category" (cols df') = Some category /\
    Forall (fun c => exists name, c = Str name /\
                                  In name (known_categories mapping)) category.
Proof.
  intros Ht. pose proof description_column as Hd.
  rewrite (categorize_rows _ _ _ _ Haligned Hd Ht). do 2 eexists.
  split; [reflexivity|]. split; [apply lookup_setcol_same|].
  apply Forall_forall. intros c Hc. apply in_map_iff in Hc.
  destruct Hc as [x [<- _]]. eexists. split; [reflexivity|].
  apply CategoryFacts.final_category_known.
Qed.

(** X14. The letter case of a description never matters: two rows whose
    descriptions are equal once upper-cased get the same category. *)
Theorem category_ignores_case (i j : nat) (s s' : string) :
  cell_at "Description" i df = Some (Str s) ->
  cell_at "Description" j df = Some (Str s') ->
  Text.upper s = Text.upper s' ->
  exists df' category,
    _categorize_transactions object_dtype mapping df = Ok df' /\
    cell_at "Category" i df' = Some category /\
    cell_at "Category" j df' = Some category.
Proof.
  intros Hi Hj Hu. pose proof description_column as Hd.
  assert (Ht : Series.text_series object_dtype (column "Description" df) = true)
    by exact (text_series_cell object_dtype _ i s
                (cell_at_description _ _ _ _ Hd Hi)).
  rewrite (categorize_rows _ _ _ _ Haligned Hd Ht). do 2 eexists.
  split; [reflexivity|].
  rewrite !cell_at_setcol_same, !nth_error_map.
  rewrite (cell_at_description _ _ _ _ Hd Hi), (cell_at_description _ _ _ _ Hd Hj).
  simpl. split; [reflexivity|].
  now rewrite (CategoryFacts.final_category_upper mapping s s' Hu).
Qed.

End CategoriserProperties.

(** X12. On a table without a Description column the categoriser raises
    [KeyError] for that column, whatever the rule table. *)
Theorem categorize_without_description (object_dtype : list cell -> bool)
  (mapping : list (string * string)) (df : DataFrame) :
  Frame.has_column "Description" df = false ->
  _categorize_transactions object_dtype mapping df
  = Raise (KeyError "Description").
Proof.
  intros H. unfold _categorize_transactions, keyword_rules.
  set (df0 := Frame.setscalar "Category" (Str "Uncategorized") df).
  assert (Hd : Frame.getcol "Description" df0 = Raise (KeyError "Description")).
  { unfold Frame.getcol, df0, Frame.setscalar.
    rewrite (FrameFacts.lookup_setcol_other _ _ _ _
               CategoriserFacts.description_not_category).
    rewrite FrameFacts.has_column_lookup in H.
    now destruct (Frame.lookup "Description" (cols df)). }
  destruct mapping as [|r rs]; cbn [fold_left bind].
  - now rewrite Hd.
  - unfold apply_rule at 2. cbn [bind]. rewrite Hd. cbn [bind].
    now rewrite CategoriserFacts.fold_apply_rule_raise.
Qed.

(** X15. With the configured rule table a description that is an ASCII
    text is left "Uncategorized" exactly when it contains none of the
    keywords, in any letter case, and neither "NH" nor "NEW HAMPSHIRE". *)
Theorem uncategorized_iff_no_match (object_dtype : list cell -> bool)
  (df : DataFrame) (i : nat) (s : string) :
  Frame.aligned df = true ->
  Frame.has_column "Description" df = true ->
  Frame.cell_at "Description" i df = Some (Str s) ->
  Text.is_ascii s = true ->
  exists df',
    _categorize_transactions object_dtype (category_mapping __init__) df = Ok df' /\
    (Frame.cell_at "Category" i df' = Some (Str "Uncategorized") <->
     (forall k c, In (k, c) (category_mapping __init__) ->
                  ~ Text.substring_nocase k s) /\
     ~ Text.substring_nocase "NH" s /\
     ~ Text.substring_nocase "NEW HAMPSHIRE" s).
Proof.
  intros Hal Hdesc Hi _.
  destruct (categorized_row object_dtype (category_mapping __init__) df Hal Hdesc
              i _ (text_description object_dtype df Hdesc i s Hi) Hi)
    as [df' [Hrun Hcat]].
  exists df'. split; [exact Hrun|]. rewrite Hcat.
  assert (Hup : forall k c, In (k, c) (category_mapping __init__) ->
                            Text.upper k = k).
  { intros k c Hin. destruct (In_nth_error _ _ Hin) as [j Hj].
    exact (CategoriserFacts.configured_keyword_upper _ _ _ Hj). }
  unfold final_category.
  destruct (str_contains_nh (Str s)) eqn:Enh.
  - split; [discriminate|]. intros [_ [H1 H2]].
    apply CategoriserFacts.str_contains_nh_spec in Enh. tauto.
  - assert (Hno : ~ Text.substring_nocase "NH" s /\
                  ~ Text.substring_nocase "NEW HAMPSHIRE" s).
    { split; intros H;
        assert (str_contains_nh (Str s) = true)
          by (apply CategoriserFacts.str_contains_nh_spec; tauto);
        congruence. }
    unfold keyword_category.
    destruct (CategoryFacts.fold_rule_step_cases (Str s)
                (category_mapping __init__) "Uncategorized")
      as [[Heq Hall]|[r [Hin [Hm Heq]]]]; rewrite Heq.
    + split; [|reflexivity]. intros _. split; [|exact Hno].
      intros k c Hin Hsub. rewrite Forall_forall in Hall.
      specialize (Hall (k, c) Hin). cbn [fst] in Hall.
      apply (CategoriserFacts.rule_test_spec k s (Hup k c Hin)) in Hsub.
      congruence.
    + pose proof CategoryFacts.configured_categories_named as Hnamed.
      rewrite forallb_forall in Hnamed. specialize (Hnamed r Hin).
      apply negb_true_iff, String.eqb_neq in Hnamed.
      split; [intros H; injection H as H; contradiction|].
      intros [Hnone _]. exfalso. destruct r as [k c].
      apply (Hnone k c Hin).
      now apply (CategoriserFacts.rule_test_spec k s (Hup k c Hin)).
Qed.

Lemma categorize_frame_witness :
  exists df',
    _categorize_transactions Samples.float_nulls _create_category_mapping
      Samples.statement = Ok df' /\
    nrows df' = 4 /\
    (forall c, c <> "Category" ->
               Frame.lookup c (cols df') = Frame.lookup c (cols Samples.statement)) /\
    Frame.columns df' = ["Date"; "Description"; "Amount"; "Category"] /\
    Frame.aligned df' = true.
Proof.
  exact (categorize_frame Samples.float_nulls _create_category_mapping
           Samples.statement eq_refl eq_refl eq_refl).
Defined.

Lemma categorize_idempotent_witness :
  exists df',
    _categorize_transactions Samples.float_nulls _create_category_mapping
      Samples.statement = Ok df' /\
    _categorize_transactions Samples.float_nulls _create_category_mapping df'
    = Ok df'.
Proof.
  exact (categorize_idempotent Samples.float_nulls _create_category_mapping
           Samples.statement eq_refl eq_refl eq_refl).
Defined.

Lemma categories_are_known_witness :
  exists df' category,
    _categorize_transactions Samples.float_nulls _create_category_mapping
      Samples.statement = Ok df' /\
    Frame.lookup "Category" (cols df') = Some category /\
    Forall (fun c => exists name,
                c = Str name /\
                In name (known_categories _create_category_mapping)) category.
Proof.
  exact (categories_are_known Samples.float_nulls _create_category_mapping
           Samples.statement eq_refl eq_refl eq_refl).
Defined.

Lemma category_ignores_case_witness :
  exists df' category,
    _categorize_transactions Samples.float_nulls _create_category_mapping
      Samples.mixed_case = Ok df' /\
    Frame.cell_at "Category" 0 df' = Some category /\
    Frame.cell_at "Category" 1 df' = Some category.
Proof.
  exact (category_ignores_case Samples.float_nulls _create_category_mapping
           Samples.mixed_case eq_refl eq_refl 0 1 "NETFLIX.COM" "netflix.com"
           eq_refl eq_refl eq_refl).
Defined.

(** The card export before normalisation has no column of that name. *)
Lemma categorize_without_description_witness :
  _categorize_transactions Samples.float_nulls _create_category_mapping
    Samples.card_csv
  = Raise (KeyError "Description").
Proof.
  exact (categorize_without_description Samples.float_nulls
           _create_category_mapping Samples.card_csv eq_refl).
Defined.

Lemma uncategorized_iff_no_match_witness :
  exists df',
    _categorize_transactions Samples.float_nulls (category_mapping __init__)
      Samples.mixed_case = Ok df' /\
    (Frame.cell_at "Category" 2 df' = Some (Str "Uncategorized") <->
     (forall k c, In (k, c) (category_mapping __init__) ->
                  ~ Text.substring_nocase k "Coffee shop") /\
     ~ Text.substring_nocase "NH" "Coffee shop" /\
     ~ Text.substring_nocase "NEW HAMPSHIRE" "Coffee shop").
Proof.
  exact (uncategorized_iff_no_match Samples.float_nulls Samples.mixed_case 2
           "Coffee shop" eq_refl eq_refl eq_refl eq_refl).
Defined.

(** ** Properties of the report builder *)

Module ReportFacts.
Import Frame FrameFacts GroupBy.

Lemma lookup_filter_rows (c : string) (mask : list bool) (df : DataFrame) :
  lookup c (cols (filter_rows mask df))
  = option_map (select mask) (lookup c (cols df)).
Proof.
  unfold filter_rows. cbn [cols].
  induction (cols df) as [|[n v] l IH]; simpl; [reflexivity|].
  now destruct (String.eqb c n).
Qed.

Lemma select_map_filter {A : Type} (p : A -> bool) (v : list A) :
  select (map p v) v = filter p v.
Proof.
  induction v as [|a v IH]; simpl; [reflexivity|].
  destruct (p a); now rewrite IH.
Qed.

Lemma present_category_In (k : string) (category : list cell) :
  In k (present (map category_key category)) <-> In (Str k) category.
Proof.
  induction category as [|c r IH]; simpl; [tauto|].
  destruct c as [|s|z|t|q]; simpl; rewrite IH;
    try (split; [auto | intros [H|H]; [discriminate | exact H]]).
  split; intros [H|H]; auto; [left; now subst | left; congruence].
Qed.

Lemma insert_sorted_ascending (k : string) (l : list string) :
  Sorted (fun a b => String.leb a b = true) l ->
  Sorted (fun a b => String.leb a b = true) (insert_sorted String.leb k l).
Proof.
  induction l as [|h t IH]; simpl; intros H.
  - constructor; constructor.
  - destruct (String.leb k h) eqn:E.
    + constructor; [exact H | now constructor].
    + assert (Hhk : String.leb h k = true)
        by (destruct (String.leb_total k h) as [Hx|Hx]; congruence).
      inversion H as [|? ? Ht Hhd]; subst.
      constructor; [now apply IH|].
      destruct t as [|u t']; simpl.
      * now constructor.
      * destruct (String.leb k u); constructor;
          [exact Hhk | now inversion Hhd].
Qed.

Lemma group_keys_ascending (keys : list string) :
  Sorted (fun a b => String.leb a b = true)
         (group_keys String.leb String.eqb keys).
Proof.
  induction keys as [|k r IH]; simpl; [constructor|].
  unfold add_key. destruct (existsb (String.eqb k) _); [exact IH|].
  now apply insert_sorted_ascending.
Qed.

Lemma fold_min_spec (r : list Z) (t : Z) :
  In (fold_left Z.min r t) (t :: r) /\
  forall x, In x (t :: r) -> (fold_left Z.min r t <= x)%Z.
Proof.
  revert t. induction r as [|a r IH]; intros t; simpl.
  - split; [now left | intros x [<-|[]]; lia].
  - destruct (IH (Z.min t a)) as [Hin Hle]. split.
    + destruct Hin as [Hin|Hin]; [|now right; right].
      rewrite <- Hin. destruct (Z.min_spec t a) as [[_ ->]|[_ ->]]; auto.
    + intros x Hx.
      assert (Hm : (fold_left Z.min r (Z.min t a) <= Z.min t a)%Z)
        by (apply Hle; now left).
      destruct Hx as [<-|[<-|Hx]]; [lia | lia |]. apply Hle. now right.
Qed.

Lemma fold_max_spec (r : list Z) (t : Z) :
  In (fold_left Z.max r t) (t :: r) /\
  forall x, In x (t :: r) -> (x <= fold_left Z.max r t)%Z.
Proof.
  revert t. induction r as [|a r IH]; intros t; simpl.
  - split; [now left | intros x [<-|[]]; lia].
  - destruct (IH (Z.max t a)) as [Hin Hle]. split.
    + destruct Hin as [Hin|Hin]; [|now right; right].
      rewrite <- Hin. destruct (Z.max_spec t a) as [[_ ->]|[_ ->]]; auto.
    + intros x Hx.
      assert (Hm : (Z.max t a <= fold_left Z.max r (Z.max t a))%Z)
        by (apply Hle; now left).
      destruct Hx as [<-|[<-|Hx]]; [lia | lia |]. apply Hle. now right.
Qed.

Lemma month_key_eqb_eq (a b : Z * string) :
  month_key_eqb a b = true <-> a = b.
Proof.
  unfold month_key_eqb. destruct a as [p s], b as [q u]. cbn [fst snd].
  rewrite andb_true_iff, Z.eqb_eq, String.eqb_eq.
  split; [intros [-> ->]; reflexivity | intros H; injection H; auto].
Qed.

(** Rows counted under one key list are counted under any key list that
    has a key wherever the first has one. *)
Lemma counted_rows_le {K L : Type} (keys : list (option K))
  (keys' : list (option L)) (vals : list cell) :
  Forall2 (fun k k' => k <> None -> k' <> None) keys keys' ->
  counted_rows keys vals <= counted_rows keys' vals.
Proof.
  intros H. revert vals. induction H as [|k k' ks ks' Hk _ IH]; intros vals.
  - destruct vals; simpl; lia.
  - destruct vals as [|v vals]; [destruct k, k'; simpl; lia|].
    specialize (IH vals). destruct k as [k|], k' as [k'|]; simpl.
    + lia.
    + exfalso. apply Hk; [discriminate | reflexivity].
    + destruct (isna v); lia.
    + exact IH.
Qed.

End ReportFacts.

Section ReportProperties.
Import Frame FrameFacts GroupBy.

Variable read_csv : string -> option DataFrame.
Variable basename : string -> string.
Variable to_datetime : list cell -> list (option Z).
Variable argsort : list Z -> list nat.
Variable to_period_M : Z -> Z.
Variable object_dtype : list cell -> bool.
Variable sum_numbers : list Z -> Z.

(** The generator [self] as the loader leaves it after reading at least
    one of [file_paths], its table [df], and amounts that are numbers or
    null. *)
Variables before self : FinancialReportGenerator.
Variable file_paths : list string.
Variable df : DataFrame.
Hypothesis Hread : existsb (readable read_csv) file_paths = true.
Hypothesis Hload :
  load_financial_data read_csv basename to_datetime argsort object_dtype
    before file_paths = Ok self.
Hypothesis Hdata : data self = Some df.
Hypothesis Hnumeric : Series.numeric (column "Amount" df) = true.

(** The table of the loader is one that the report builder can read. *)
Lemma loaded_report_input : report_input df = true.
Proof.
  pose proof Hread as E. apply (existsb_readable read_csv basename) in E.
  destruct (loader_result read_csv basename to_datetime argsort object_dtype
              before _ E) as [_ Hres].
  rewrite Hload in Hres.
  destruct (Series.text_series object_dtype _); [|discriminate].
  injection Hres as Hself. pose proof Hdata as Hdf. rewrite Hself in Hdf.
  cbn [data] in Hdf. injection Hdf as Hdf. pose proof Hnumeric as Hnum.
  rewrite <- Hdf. rewrite <- Hdf in Hnum.
  apply (loader_report_input read_csv basename to_datetime argsort _ _ E).
  unfold column in Hnum. rewrite lookup_setcol_other in Hnum by discriminate.
  exact Hnum.
Qed.

(** C7, as the code has it.  On the table that the loader returns, with
    amounts that are numbers or null, the report builder returns; it adds
    no row and removes none, and every column other than "Month" keeps its
    name, place and values.  It does store the month key: [self.data] gets
    the column "Month", placed last when the table had none.  The detailed
    log, written before, is the table as the loader left it, so it has a
    month column only when the table came with one; the business expenses,
    written after, have the columns of the table with "Month". *)
Theorem report_builder_frame :
  exists reports df',
    generate_tax_reports to_period_M sum_numbers self
    = Ok (reports, mkGen (Some df') (category_mapping self)) /\
    nrows df' = nrows df /\
    (forall c, c <> "Month" -> lookup c (cols df') = lookup c (cols df)) /\
    has_column "Month" df' = true /\
    columns df' = (if has_column "Month" df then columns df
                   else columns df ++ ["Month"]) /\
    detailed_transaction_log reports = df /\
    has_column "Month" (detailed_transaction_log reports) = has_column "Month" df /\
    columns (business_expenses reports) = columns df'.
Proof.
  pose proof (reports_result to_period_M sum_numbers self df Hdata loaded_report_input) as Hrun.
  cbv zeta in Hrun. rewrite Hrun.
  eexists. eexists. split; [reflexivity|].
  split; [apply nrows_setcol|].
  split; [intros c Hne; now apply lookup_setcol_other|].
  split; [apply has_column_setcol_same|].
  split; [apply columns_setcol|].
  split; [reflexivity|]. split; [reflexivity|]. apply columns_filter_rows.
Qed.

(** X16. The transaction counts of the category summary add up to the
    number of rows that have a text category and an amount that is not
    null: a row with a null amount is counted nowhere. *)
Theorem summary_counts_total :
  exists reports self',
    generate_tax_reports to_period_M sum_numbers self = Ok (reports, self') /\
    list_sum (map (fun row => snd (fst row)) (category_summary reports))
    = counted_rows (map category_key (column "Category" df)) (column "Amount" df).
Proof.
  pose proof (reports_result to_period_M sum_numbers self df Hdata loaded_report_input) as Hr.
  cbv zeta in Hr. rewrite Hr. do 2 eexists. split; [reflexivity|].
  cbn [category_summary]. apply GroupByFacts.summary_counts_sum.
Qed.

(** X17. On a rectangular table in which every category is a text and no
    amount is null, the transaction counts of the category summary add up
    to the total number of transactions of the tax summary. *)
Theorem summary_counts_total_complete :
  aligned df = true ->
  Forall (fun c => category_key c <> None) (column "Category" df) ->
  Forall (fun v => isna v = false) (column "Amount" df) ->
  exists reports self',
    generate_tax_reports to_period_M sum_numbers self = Ok (reports, self') /\
    list_sum (map (fun row => snd (fst row)) (category_summary reports))
    = total_transactions (tax_summary reports).
Proof.
  intros Hal Hcat Ham.
  pose proof (reports_result to_period_M sum_numbers self df Hdata loaded_report_input) as Hr.
  cbv zeta in Hr. rewrite Hr. do 2 eexists. split; [reflexivity|].
  destruct (report_input_columns df loaded_report_input) as [_ [La [Lc _]]].
  cbn [category_summary tax_summary total_transactions].
  rewrite GroupByFacts.summary_counts_sum, nrows_setcol.
  rewrite GroupByFacts.counted_rows_all.
  - exact (aligned_lookup _ _ _ Hal La).
  - rewrite length_map, (aligned_lookup _ _ _ Hal La).
    exact (aligned_lookup _ _ _ Hal Lc).
  - apply Forall_map. exact Hcat.
  - exact Ham.
Qed.

(** X18. The category summary has one row for each category that occurs in
    the table and none for any other; no category has two rows, and the
    rows are in ascending order of the category name. *)
Theorem summary_rows :
  exists reports self',
    generate_tax_reports to_period_M sum_numbers self = Ok (reports, self') /\
    let names := map (fun row => fst (fst row)) (category_summary reports) in
    (forall k, In k names <-> In (Str k) (column "Category" df)) /\
    NoDup names /\
    Sorted (fun a b => String.leb a b = true) names.
Proof.
  pose proof (reports_result to_period_M sum_numbers self df Hdata loaded_report_input) as Hr.
  cbv zeta in Hr. rewrite Hr. do 2 eexists. split; [reflexivity|].
  cbn [category_summary]. unfold summarize. rewrite map_map. cbn [fst].
  rewrite map_id. split; [|split].
  - intros k.
    rewrite (GroupByFacts.group_keys_In String.leb String.eqb String.eqb_eq).
    apply ReportFacts.present_category_In.
  - apply (GroupByFacts.group_keys_NoDup String.leb String.eqb String.eqb_eq).
  - apply ReportFacts.group_keys_ascending.
Qed.

(** X19. The business-expenses artifact holds exactly the rows whose
    category is the text "Business": each column of the table, the Month
    column included, is cut down by the same row selection, and the
    Category column of the artifact holds nothing but "Business". *)
Theorem business_expenses_rows :
  exists reports self' after,
    generate_tax_reports to_period_M sum_numbers self = Ok (reports, self') /\
    data self' = Some after /\
    let mask := map (cell_eqb (Str "Business")) (column "Category" df) in
    (forall c, lookup c (cols (business_expenses reports))
               = option_map (select mask) (lookup c (cols after))) /\
    lookup "Category" (cols (business_expenses reports))
    = Some (filter (cell_eqb (Str "Business")) (column "Category" df)) /\
    Forall (fun c => c = Str "Business")
           (filter (cell_eqb (Str "Business")) (column "Category" df)).
Proof.
  pose proof (reports_result to_period_M sum_numbers self df Hdata loaded_report_input) as Hr.
  cbv zeta in Hr. rewrite Hr. do 3 eexists. split; [reflexivity|].
  split; [reflexivity|]. cbn [business_expenses]. split; [|split].
  - intros c. apply ReportFacts.lookup_filter_rows.
  - destruct (report_input_columns df loaded_report_input) as [_ [_ [Lc _]]].
    rewrite ReportFacts.lookup_filter_rows.
    rewrite lookup_setcol_other by discriminate. rewrite Lc.
    cbn [option_map]. now rewrite ReportFacts.select_map_filter.
  - apply Forall_forall. intros c Hc. apply filter_In in Hc.
    destruct Hc as [_ Hc]. destruct c; unfold cell_eqb in Hc;
      try discriminate.
    apply String.eqb_eq in Hc. now subst.
Qed.

(** X20. The date range of the tax summary: when no row has a date both
    ends are null; otherwise both ends are dates of the table, and every
    date of the table lies between them. *)
Theorem date_range_bounds :
  exists reports self',
    generate_tax_reports to_period_M sum_numbers self = Ok (reports, self') /\
    match timestamps (column "Date" df) with
    | [] => date_min (tax_summary reports) = NA /\
            date_max (tax_summary reports) = NA
    | _ :: _ =>
        exists lo hi,
          date_min (tax_summary reports) = Ts lo /\
          date_max (tax_summary reports) = Ts hi /\
          In lo (timestamps (column "Date" df)) /\
          In hi (timestamps (column "Date" df)) /\
          forall t, In t (timestamps (column "Date" df)) -> (lo <= t <= hi)%Z
    end.
Proof.
  pose proof (reports_result to_period_M sum_numbers self df Hdata loaded_report_input) as Hr.
  cbv zeta in Hr. rewrite Hr. do 2 eexists. split; [reflexivity|].
  cbn [tax_summary date_min date_max]. unfold series_min, series_max, timestamps.
  destruct (present (map timestamp (column "Date" df))) as [|t r];
    [split; reflexivity|].
  destruct (ReportFacts.fold_min_spec r t) as [Imin Lmin].
  destruct (ReportFacts.fold_max_spec r t) as [Imax Lmax].
  exists (fold_left Z.min r t), (fold_left Z.max r t).
  repeat split; auto.
Qed.

(** X21. Writing the reports a second time leaves the generator as the
    first run left it and gives the same category summary, monthly
    breakdown, business expenses and tax summary; only the detailed log
    differs: it is now the table with the Month column that the first run
    stored. *)
Theorem reports_twice :
  exists first self' second after,
    generate_tax_reports to_period_M sum_numbers self = Ok (first, self') /\
    generate_tax_reports to_period_M sum_numbers self' = Ok (second, self') /\
    data self' = Some after /\
    detailed_transaction_log first = df /\
    detailed_transaction_log second = after /\
    category_summary second = category_summary first /\
    monthly_breakdown second = monthly_breakdown first /\
    business_expenses second = business_expenses first /\
    tax_summary second = tax_summary first.
Proof.
  pose proof (reports_result to_period_M sum_numbers self df Hdata loaded_report_input) as Hr.
  cbv zeta in Hr. rewrite Hr.
  set (month := map (to_period to_period_M) (column "Date" df)) in *.
  set (after := setcol "Month" month df) in *.
  assert (Hcol : forall c, c <> "Month" -> column c after = column c df).
  { intros c Hne. unfold column, after. now rewrite lookup_setcol_other. }
  assert (Hfix : setcol "Month" month after = after)
    by (unfold after; apply setcol_setcol).
  pose proof (reports_result to_period_M sum_numbers
                (mkGen (Some after) (category_mapping self)) after eq_refl
                (report_input_setcol_month _ _ loaded_report_input)) as Hr2.
  cbv zeta in Hr2. cbn [category_mapping] in Hr2.
  rewrite (Hcol "Date"), (Hcol "Amount"), (Hcol "Category") in Hr2
    by discriminate.
  fold month in Hr2. rewrite Hfix in Hr2.
  do 4 eexists. split; [reflexivity|]. split; [exact Hr2|].
  repeat split.
Qed.

(** X22. The transaction counts of the monthly breakdown add up to the
    number of rows that have a date, a text category and an amount that is
    not null; this is never more than the counts of the category summary
    add up to, and rows without a date make the whole difference. *)
Theorem monthly_counts_total :
  let keys := map (fun mc => month_key (fst mc) (snd mc))
                  (combine (map (to_period to_period_M) (column "Date" df))
                           (column "Category" df)) in
  exists reports self',
    generate_tax_reports to_period_M sum_numbers self = Ok (reports, self') /\
    list_sum (map snd (monthly_breakdown reports))
    = counted_rows keys (column "Amount" df) /\
    (length (column "Date" df) = length (column "Category" df) ->
     list_sum (map snd (monthly_breakdown reports))
     <= list_sum (map (fun row => snd (fst row)) (category_summary reports))).
Proof.
  intros keys.
  pose proof (reports_result to_period_M sum_numbers self df Hdata loaded_report_input) as Hr.
  cbv zeta in Hr. rewrite Hr. do 2 eexists. split; [reflexivity|].
  cbn [monthly_breakdown category_summary].
  assert (Hsum : list_sum (map snd (summarize_months sum_numbers
                                      (map (to_period to_period_M)
                                           (column "Date" df))
                                      (column "Category" df)
                                      (column "Amount" df)))
                 = counted_rows keys (column "Amount" df)).
  { unfold summarize_months. fold keys. rewrite map_map. cbn [snd].
    apply (GroupByFacts.group_counts_sum month_key_eqb
             ReportFacts.month_key_eqb_eq).
    - apply (GroupByFacts.group_keys_NoDup month_key_leb month_key_eqb
               ReportFacts.month_key_eqb_eq).
    - intros x Hx.
      now apply (GroupByFacts.group_keys_In month_key_leb month_key_eqb
                   ReportFacts.month_key_eqb_eq). }
  split; [exact Hsum|]. intros Hlen.
  rewrite Hsum, GroupByFacts.summary_counts_sum.
  apply ReportFacts.counted_rows_le. unfold keys.
  clear - Hlen. revert Hlen.
  generalize (column "Category" df) as category.
  generalize (column "Date" df) as date.
  induction date as [|d ds IH]; intros [|c cs] Hlen; simpl in Hlen;
    try discriminate; [constructor|].
  simpl. constructor; [|apply IH; lia].
  unfold month_key. destruct (to_period to_period_M d), c; simpl; congruence.
Qed.

End ReportProperties.

(** The bank export of the samples: the loaded table has no month column. *)
Lemma report_builder_frame_witness :
  exists self df,
    existsb (readable Samples.read_csv) ["bank.csv"] = true /\
    load_financial_data Samples.read_csv Samples.basename Samples.to_datetime
      Samples.argsort_stable Samples.float_nulls __init__ ["bank.csv"]
    = Ok self /\
    data self = Some df /\
    Series.numeric (column "Amount" df) = true /\
    Frame.has_column "Month" df = false /\
    Frame.columns df = ["Date"; "Description"; "Amount"; "Source_File"; "Category"] /\
    exists reports df',
      generate_tax_reports Samples.to_period_M Samples.sum_numbers self
      = Ok (reports, mkGen (Some df') (category_mapping self)) /\
      nrows df' = nrows df /\
      (forall c, c <> "Month" ->
                 Frame.lookup c (cols df') = Frame.lookup c (cols df)) /\
      Frame.has_column "Month" df' = true /\
      Frame.columns df' = (if Frame.has_column "Month" df then Frame.columns df
                           else Frame.columns df ++ ["Month"]) /\
      detailed_transaction_log reports = df /\
      Frame.has_column "Month" (detailed_transaction_log reports)
      = Frame.has_column "Month" df /\
      Frame.columns (business_expenses reports) = Frame.columns df'.
Proof.
  do 2 eexists. split; [reflexivity|]. split; [vm_compute; reflexivity|].
  split; [reflexivity|]. split; [reflexivity|].
  split; [reflexivity|].
  split; [reflexivity|].
  eapply (report_builder_frame Samples.read_csv Samples.basename Samples.to_datetime
           Samples.argsort_stable Samples.to_period_M Samples.float_nulls
           Samples.sum_numbers __init__ _ ["bank.csv"] _).
  - reflexivity.
  - vm_compute; reflexivity.
  - reflexivity.
  - reflexivity.
Defined.

(** The bank export and the export with a blank amount: five rows, four
    amounts. *)
Lemma summary_counts_total_witness :
  exists self df,
    existsb (readable Samples.read_csv) ["bank.csv"; "blank.csv"] = true /\
    load_financial_data Samples.read_csv Samples.basename Samples.to_datetime
      Samples.argsort_stable Samples.float_nulls __init__ ["bank.csv"; "blank.csv"]
    = Ok self /\
    data self = Some df /\
    Series.numeric (column "Amount" df) = true /\
    nrows df = 5 /\
    GroupBy.counted_rows (map category_key (column "Category" df))
      (column "Amount" df) = 4 /\
    exists reports self',
      generate_tax_reports Samples.to_period_M Samples.sum_numbers self = Ok (reports, self') /\
      list_sum (map (fun row => snd (fst row)) (category_summary reports))
      = GroupBy.counted_rows (map category_key (column "Category" df))
          (column "Amount" df).
Proof.
  do 2 eexists. split; [reflexivity|]. split; [vm_compute; reflexivity|].
  split; [reflexivity|]. split; [reflexivity|].
  split; [reflexivity|].
  split; [reflexivity|].
  eapply (summary_counts_total Samples.read_csv Samples.basename Samples.to_datetime
           Samples.argsort_stable Samples.to_period_M Samples.float_nulls
           Samples.sum_numbers __init__ _ ["bank.csv"; "blank.csv"] _).
  - reflexivity.
  - vm_compute; reflexivity.
  - reflexivity.
  - reflexivity.
Defined.

Lemma summary_counts_total_complete_witness :
  exists self df,
    existsb (readable Samples.read_csv) ["bank.csv"] = true /\
    load_financial_data Samples.read_csv Samples.basename Samples.to_datetime
      Samples.argsort_stable Samples.float_nulls __init__ ["bank.csv"]
    = Ok self /\
    data self = Some df /\
    Series.numeric (column "Amount" df) = true /\
    Frame.aligned df = true /\
    Forall (fun c => category_key c <> None) (column "Category" df) /\
    Forall (fun v => isna v = false) (column "Amount" df) /\
    exists reports self',
      generate_tax_reports Samples.to_period_M Samples.sum_numbers self = Ok (reports, self') /\
      list_sum (map (fun row => snd (fst row)) (category_summary reports))
      = total_transactions (tax_summary reports).
Proof.
  do 2 eexists. split; [reflexivity|]. split; [vm_compute; reflexivity|].
  split; [reflexivity|]. split; [reflexivity|].
  split; [reflexivity|].
  split; [repeat constructor; discriminate|].
  split; [repeat constructor|].
  eapply (summary_counts_total_complete Samples.read_csv Samples.basename Samples.to_datetime
           Samples.argsort_stable Samples.to_period_M Samples.float_nulls
           Samples.sum_numbers __init__ _ ["bank.csv"] _).
  - reflexivity.
  - vm_compute; reflexivity.
  - reflexivity.
  - reflexivity.
  - reflexivity.
  - repeat constructor; discriminate.
  - repeat constructor.
Defined.

Lemma summary_rows_witness :
  exists self df,
    existsb (readable Samples.read_csv) ["bank.csv"; "blank.csv"] = true /\
    load_financial_data Samples.read_csv Samples.basename Samples.to_datetime
      Samples.argsort_stable Samples.float_nulls __init__ ["bank.csv"; "blank.csv"]
    = Ok self /\
    data self = Some df /\
    Series.numeric (column "Amount" df) = true /\
    column "Category" df
    = [Str "Law School"; Str "Business"; Str "Personal"; Str "Personal";
       Str "Uncategorized"] /\
    exists reports self',
      generate_tax_reports Samples.to_period_M Samples.sum_numbers self = Ok (reports, self') /\
      let names := map (fun row => fst (fst row)) (category_summary reports) in
      (forall k, In k names <-> In (Str k) (column "Category" df)) /\
      NoDup names /\
      Sorted (fun a b => String.leb a b = true) names.
Proof.
  do 2 eexists. split; [reflexivity|]. split; [vm_compute; reflexivity|].
  split; [reflexivity|]. split; [reflexivity|].
  split; [reflexivity|].
  eapply (summary_rows Samples.read_csv Samples.basename Samples.to_datetime
           Samples.argsort_stable Samples.to_period_M Samples.float_nulls
           Samples.sum_numbers __init__ _ ["bank.csv"; "blank.csv"] _).
  - reflexivity.
  - vm_compute; reflexivity.
  - reflexivity.
  - reflexivity.
Defined.

Lemma business_expenses_rows_witness :
  exists self df,
    existsb (readable Samples.read_csv) ["bank.csv"; "blank.csv"] = true /\
    load_financial_data Samples.read_csv Samples.basename Samples.to_datetime
      Samples.argsort_stable Samples.float_nulls __init__ ["bank.csv"; "blank.csv"]
    = Ok self /\
    data self = Some df /\
    Series.numeric (column "Amount" df) = true /\
    map (cell_eqb (Str "Business")) (column "Category" df)
    = [false; true; false; false; false] /\
    exists reports self' after,
      generate_tax_reports Samples.to_period_M Samples.sum_numbers self = Ok (reports, self') /\
      data self' = Some after /\
      let mask := map (cell_eqb (Str "Business")) (column "Category" df) in
      (forall c, Frame.lookup c (cols (business_expenses reports))
                 = option_map (Frame.select mask) (Frame.lookup c (cols after))) /\
      Frame.lookup "Category" (cols (business_expenses reports))
      = Some (filter (cell_eqb (Str "Business")) (column "Category" df)) /\
      Forall (fun c => c = Str "Business")
             (filter (cell_eqb (Str "Business")) (column "Category" df)).
Proof.
  do 2 eexists. split; [reflexivity|]. split; [vm_compute; reflexivity|].
  split; [reflexivity|]. split; [reflexivity|].
  split; [reflexivity|].
  eapply (business_expenses_rows Samples.read_csv Samples.basename Samples.to_datetime
           Samples.argsort_stable Samples.to_period_M Samples.float_nulls
           Samples.sum_numbers __init__ _ ["bank.csv"; "blank.csv"] _).
  - reflexivity.
  - vm_compute; reflexivity.
  - reflexivity.
  - reflexivity.
Defined.

Lemma date_range_bounds_witness :
  exists self df,
    existsb (readable Samples.read_csv) ["bank.csv"; "blank.csv"] = true /\
    load_financial_data Samples.read_csv Samples.basename Samples.to_datetime
      Samples.argsort_stable Samples.float_nulls __init__ ["bank.csv"; "blank.csv"]
    = Ok self /\
    data self = Some df /\
    Series.numeric (column "Amount" df) = true /\
    timestamps (column "Date" df)
    = [20240105; 20240210; 20240301; 20240302]%Z /\
    exists reports self',
      generate_tax_reports Samples.to_period_M Samples.sum_numbers self = Ok (reports, self') /\
      match timestamps (column "Date" df) with
      | [] => date_min (tax_summary reports) = NA /\
              date_max (tax_summary reports) = NA
      | _ :: _ =>
          exists lo hi,
            date_min (tax_summary reports) = Ts lo /\
            date_max (tax_summary reports) = Ts hi /\
            In lo (timestamps (column "Date" df)) /\
            In hi (timestamps (column "Date" df)) /\
            forall t, In t (timestamps (column "Date" df)) -> (lo <= t <= hi)%Z
      end.
Proof.
  do 2 eexists. split; [reflexivity|]. split; [vm_compute; reflexivity|].
  split; [reflexivity|]. split; [reflexivity|].
  split; [reflexivity|].
  eapply (date_range_bounds Samples.read_csv Samples.basename Samples.to_datetime
           Samples.argsort_stable Samples.to_period_M Samples.float_nulls
           Samples.sum_numbers __init__ _ ["bank.csv"; "blank.csv"] _).
  - reflexivity.
  - vm_compute; reflexivity.
  - reflexivity.
  - reflexivity.
Defined.

Lemma reports_twice_witness :
  exists self df,
    existsb (readable Samples.read_csv) ["bank.csv"; "blank.csv"] = true /\
    load_financial_data Samples.read_csv Samples.basename Samples.to_datetime
      Samples.argsort_stable Samples.float_nulls __init__ ["bank.csv"; "blank.csv"]
    = Ok self /\
    data self = Some df /\
    Series.numeric (column "Amount" df) = true /\
    exists first self' second after,
      generate_tax_reports Samples.to_period_M Samples.sum_numbers self = Ok (first, self') /\
      generate_tax_reports Samples.to_period_M Samples.sum_numbers self' = Ok (second, self') /\
      data self' = Some after /\
      detailed_transaction_log first = df /\
      detailed_transaction_log second = after /\
      category_summary second = category_summary first /\
      monthly_breakdown second = monthly_breakdown first /\
      business_expenses second = business_expenses first /\
      tax_summary second = tax_summary first.
Proof.
  do 2 eexists. split; [reflexivity|]. split; [vm_compute; reflexivity|].
  split; [reflexivity|]. split; [reflexivity|].
  eapply (reports_twice Samples.read_csv Samples.basename Samples.to_datetime
           Samples.argsort_stable Samples.to_period_M Samples.float_nulls
           Samples.sum_numbers __init__ _ ["bank.csv"; "blank.csv"] _).
  - reflexivity.
  - vm_compute; reflexivity.
  - reflexivity.
  - reflexivity.
Defined.

Lemma monthly_counts_total_witness :
  exists self df,
    existsb (readable Samples.read_csv) ["bank.csv"; "blank.csv"] = true /\
    load_financial_data Samples.read_csv Samples.basename Samples.to_datetime
      Samples.argsort_stable Samples.float_nulls __init__ ["bank.csv"; "blank.csv"]
    = Ok self /\
    data self = Some df /\
    Series.numeric (column "Amount" df) = true /\
    GroupBy.counted_rows
      (map (fun mc => month_key (fst mc) (snd mc))
           (combine (map (to_period Samples.to_period_M) (column "Date" df))
                    (column "Category" df)))
      (column "Amount" df) = 3 /\
    exists reports self',
      generate_tax_reports Samples.to_period_M Samples.sum_numbers self = Ok (reports, self') /\
      list_sum (map snd (monthly_breakdown reports))
      = GroupBy.counted_rows
          (map (fun mc => month_key (fst mc) (snd mc))
               (combine (map (to_period Samples.to_period_M) (column "Date" df))
                        (column "Category" df)))
          (column "Amount" df) /\
      (length (column "Date" df) = length (column "Category" df) ->
       list_sum (map snd (monthly_breakdown reports))
       <= list_sum (map (fun row => snd (fst row)) (category_summary reports))).
Proof.
  do 2 eexists. split; [reflexivity|]. split; [vm_compute; reflexivity|].
  split; [reflexivity|]. split; [reflexivity|].
  split; [reflexivity|].
  eapply (monthly_counts_total Samples.read_csv Samples.basename Samples.to_datetime
           Samples.argsort_stable Samples.to_period_M Samples.float_nulls
           Samples.sum_numbers __init__ _ ["bank.csv"; "blank.csv"] _).
  - reflexivity.
  - vm_compute; reflexivity.
  - reflexivity.
  - reflexivity.
Defined.

(** ** Amounts that are not numbers *)

(** X28. An export whose amounts are texts: the sums of the category
    summary and of the monthly breakdown are concatenations, and the number
    format of the tax summary raises [ValueError] on the first of them. *)
Theorem text_amounts_raise (object_dtype : list cell -> bool)
  (sum_numbers : list Z -> Z) :
  exists self df,
    load_financial_data Samples.read_csv Samples.basename Samples.to_datetime
      Samples.argsort_stable object_dtype __init__ ["text_amounts.csv"] = Ok self /\
    data self = Some df /\
    Frame.lookup "Amount" (cols df) = Some [Str "$25.00"; Str "$40.00"] /\
    Frame.lookup "Category" (cols df) = Some [Str "Personal"; Str "Personal"] /\
    generate_tax_reports Samples.to_period_M sum_numbers self = Raise ValueError.
Proof.
  do 2 eexists. split; [vm_compute; reflexivity|]. repeat split.
Qed.

(** X29. The same export next to one whose amounts are numbers: the
    category "Personal" holds a number and a text, and its sum raises
    [TypeError]. *)
Theorem mixed_amounts_raise (object_dtype : list cell -> bool)
  (sum_numbers : list Z -> Z) :
  exists self df,
    load_financial_data Samples.read_csv Samples.basename Samples.to_datetime
      Samples.argsort_stable object_dtype __init__
      ["blank.csv"; "text_amounts.csv"] = Ok self /\
    data self = Some df /\
    Frame.lookup "Amount" (cols df)
    = Some [Num 2500; NA; Str "$25.00"; Str "$40.00"] /\
    Frame.lookup "Category" (cols df)
    = Some [Str "Personal"; Str "Personal"; Str "Personal"; Str "Personal"] /\
    generate_tax_reports Samples.to_period_M sum_numbers self = Raise TypeError.
Proof.
  do 2 eexists. split; [vm_compute; reflexivity|]. repeat split.
Qed.
